(** * Finance assistant: quote cache, analytics, intent classifier, router

    A shallow embedding of the decision logic of the finance assistant
    (src/Agents.py, src/agents/analysis_agent.py,
    src/services/language_services.py, src/orchestrator/router.py) and the
    properties its specification states about it.

    Conventions of the embedding:
    - a Python call that may raise returns a [result]; code that also
      mutates the API agent runs in the state-and-exception monad [M],
      where the state survives a raise, as attribute updates do in Python;
    - the outside world is a record of oracles [World]; the wall clock
      and the price history are indexed by how often they have been
      consulted, so two consultations may answer differently;
    - Python and NumPy floats are exact rationals extended with the IEEE
      special values ([fnum]); rounding error and overflow are outside the
      model. *)

From Stdlib Require Import ZArith QArith Qcanon Qcabs Lia Ascii String.
From Stdlib Require Import Zdivisibility.
From stdpp Require Import gmap strings list sorting.

Local Open Scope string_scope.
Local Open Scope Z_scope.

(** ** Python exceptions and results *)

Module Py.

Inductive exn : Type :=
| ProviderError (msg : string)
| ZeroDivisionError
| StopIteration
| TypeError (msg : string)
| AttributeError (msg : string)
| ValueError (msg : string)
| KeyError (msg : string).

(** [str(e)] *)
Definition str (e : exn) : string :=
  match e with
  | ProviderError m | TypeError m | AttributeError m
  | ValueError m | KeyError m => m
  | ZeroDivisionError => "float division by zero"
  | StopIteration => ""
  end.

Inductive result (A : Type) : Type :=
| Ok (a : A)
| Raise (e : exn).
Arguments Ok {A} a.
Arguments Raise {A} e.

Definition is_ok {A} (r : result A) : bool :=
  match r with Ok _ => true | Raise _ => false end.

Definition rbind {A B} (r : result A) (k : A -> result B) : result B :=
  match r with Ok a => k a | Raise e => Raise e end.

(** A [dict] whose iteration order matters: keys in insertion order. *)
Definition dict (V : Type) : Type := list (string * V).

Fixpoint dict_get {V} (d : dict V) (k : string) : option V :=
  match d with
  | [] => None
  | (k', v) :: d' => if String.eqb k' k then Some v else dict_get d' k
  end.

(** [d[k] = v]: an existing key keeps its position *)
Fixpoint dict_set {V} (d : dict V) (k : string) (v : V) : dict V :=
  match d with
  | [] => [(k, v)]
  | (k', v') :: d' =>
      if String.eqb k' k then (k', v) :: d'
      else (k', v') :: dict_set d' k v
  end.

Definition dict_values {V} (d : dict V) : list V := map snd d.

End Py.
Export Py.

(** ** Floats: exact rationals with the IEEE special values *)

Module Float.

Inductive fnum : Type :=
| Fin (q : Qc)
| PInf
| NInf
| NaN.

Definition is_nan (x : fnum) : bool :=
  match x with NaN => true | _ => false end.

Definition Qc_ltb (a b : Qc) : bool := bool_decide (a < b)%Qc.
Definition Qc_eqb (a b : Qc) : bool := bool_decide (a = b).

(** [x < y]; every comparison with NaN is false *)
Definition fltb (x y : fnum) : bool :=
  match x, y with
  | NaN, _ | _, NaN => false
  | _, NInf => false
  | NInf, _ => true
  | PInf, _ => false
  | Fin _, PInf => true
  | Fin a, Fin b => Qc_ltb a b
  end.

(** [x == y] *)
Definition feqb (x y : fnum) : bool :=
  match x, y with
  | Fin a, Fin b => Qc_eqb a b
  | PInf, PInf | NInf, NInf => true
  | _, _ => false
  end.

Definition fgtb (x y : fnum) : bool := fltb y x.
Definition fleb (x y : fnum) : bool := fltb x y || feqb x y.

Definition fneg (x : fnum) : fnum :=
  match x with
  | Fin a => Fin (- a)%Qc
  | PInf => NInf
  | NInf => PInf
  | NaN => NaN
  end.

Definition fadd (x y : fnum) : fnum :=
  match x, y with
  | NaN, _ | _, NaN => NaN
  | PInf, NInf | NInf, PInf => NaN
  | PInf, _ | _, PInf => PInf
  | NInf, _ | _, NInf => NInf
  | Fin a, Fin b => Fin (a + b)%Qc
  end.

Definition fsub (x y : fnum) : fnum := fadd x (fneg y).

(** sign of a rational: -1, 0 or 1 *)
Definition sgn (a : Qc) : Z := Z.sgn (Qnum (this a)).

Definition inf_of_sign (s : Z) : fnum :=
  match s with
  | Z0 => NaN
  | Zpos _ => PInf
  | Zneg _ => NInf
  end.

Definition fsign (x : fnum) : Z :=
  match x with
  | Fin a => sgn a
  | PInf => 1
  | NInf => -1
  | NaN => 0
  end.

Definition fmul (x y : fnum) : fnum :=
  match x, y with
  | NaN, _ | _, NaN => NaN
  | Fin a, Fin b => Fin (a * b)%Qc
  | _, _ => inf_of_sign (fsign x * fsign y)
  end.

(** NumPy division: [x/0] is an infinity of the sign of [x], [0/0] and
    [inf/inf] are NaN, a finite value over an infinity is zero *)
Definition fdiv (x y : fnum) : fnum :=
  match x, y with
  | NaN, _ | _, NaN => NaN
  | Fin a, Fin b =>
      if Qc_eqb b 0%Qc then inf_of_sign (sgn a) else Fin (a / b)%Qc
  | Fin _, _ => Fin 0%Qc
  | _, Fin b =>
      if Qc_eqb b 0%Qc then x else inf_of_sign (fsign x * sgn b)
  | _, _ => NaN
  end.

Definition of_Z (z : Z) : fnum := Fin (Q2Qc (inject_Z z)).

(** [x <= y] as a proposition; false as soon as a NaN is involved. *)
Definition le (x y : fnum) : Prop :=
  match x, y with
  | NaN, _ | _, NaN => False
  | NInf, _ => True
  | _, PInf => True
  | Fin a, Fin b => (a <= b)%Qc
  | _, _ => False
  end.

End Float.
Export Float.

(** ** Pandas series and frames, as far as the code reads them *)

Module Pandas.

(** An index label: a [pd.Timestamp] (seconds since the epoch) or an
    integer, as in a [RangeIndex]. *)
Inductive label : Type :=
| Stamp (t : Z)
| Pos (i : Z).

#[export] Instance label_eq_dec : EqDecision label.
Proof. solve_decision. Defined.

Definition Series : Type := list (label * fnum).

Definition index (s : Series) : list label := map fst s.
Definition values (s : Series) : list fnum := map snd s.

(** The frame returned by the provider; [Close] is the one column the
    code reads, carried with the frame's index. *)
Record DataFrame : Type := { Close : Series }.

(** [data.empty] *)
Definition empty (d : DataFrame) : bool :=
  match Close d with [] => true | _ => false end.

End Pandas.
Export Pandas.

(** ** The outside world and the API agent's state *)

(** Row handed back by [stock.earnings.iloc[-1]]: its [Earnings] value and
    its [Estimate] value when the frame has that column. *)
Record EarningsRow : Type := {
  Earnings : fnum;
  Estimate : option fnum
}.

Record World : Type := {
  (** value of the n-th reading of [datetime.now().timestamp()],
      in microseconds *)
  clock : nat -> Z;
  (** answer of the n-th call of [yf.Ticker(t).history(period, interval)] *)
  history : nat -> string -> string -> string -> result DataFrame;
  (** [stock.calendar]: whether it is a non-empty frame *)
  calendar : string -> result bool;
  (** [stock.earnings]: the last row when the frame is non-empty and has
      the columns Earnings and Revenue *)
  earnings : string -> result (option EarningsRow)
}.

Record State : Type := {
  cache : gmap string DataFrame;
  cache_expiry : gmap string Z;
  (** clock readings made so far *)
  ticks : nat;
  (** provider fetches issued so far, oldest first *)
  upstream : list (string * string * string)
}.

Definition init : State :=
  {| cache := ∅; cache_expiry := ∅; ticks := 0%nat; upstream := [] |}.

(** State and exception monad of the agent's methods. *)
Definition M (A : Type) : Type := State -> result A * State.

Definition ret {A} (a : A) : M A := fun st => (Ok a, st).
Definition raise {A} (e : exn) : M A := fun st => (Raise e, st).
Definition bind {A B} (m : M A) (k : A -> M B) : M B :=
  fun st => match m st with
            | (Ok a, st') => k a st'
            | (Raise e, st') => (Raise e, st')
            end.
(** [try: m except Exception as e: h e] *)
Definition catch {A} (m : M A) (h : exn -> M A) : M A :=
  fun st => match m st with
            | (Ok a, st') => (Ok a, st')
            | (Raise e, st') => h e st'
            end.

Notation "'let*' x ':=' m 'in' k" := (bind m (fun x => k))
  (at level 10, x pattern, m at level 100, k at level 200).

Module APIAgent.
Section WithWorld.
Variable W : World.

(** [self.cache_duration = 300] seconds, in the clock's unit *)
Definition cache_duration : Z := 300 * 1000000.

(** [f"{ticker}_{period}_{interval}"] *)
Definition cache_key (ticker period interval : string) : string :=
  ticker ++ "_" ++ period ++ "_" ++ interval.

(** [datetime.now().timestamp()] *)
Definition now : M Z := fun st =>
  (Ok (clock W (ticks st)),
   {| cache := cache st; cache_expiry := cache_expiry st;
      ticks := S (ticks st); upstream := upstream st |}).

(** [yf.Ticker(ticker).history(period=period, interval=interval)] *)
Definition yf_history (ticker period interval : string) : M DataFrame :=
  fun st =>
    (history W (length (upstream st)) ticker period interval,
     {| cache := cache st; cache_expiry := cache_expiry st;
        ticks := ticks st;
        upstream := upstream st ++ [(ticker, period, interval)] |}).

(** [self.cache[key] = data; self.cache_expiry[key] = expiry] *)
Definition store (key : string) (data : DataFrame) (expiry : Z) : M unit :=
  fun st =>
    (Ok tt,
     {| cache := <[key := data]> (cache st);
        cache_expiry := <[key := expiry]> (cache_expiry st);
        ticks := ticks st; upstream := upstream st |}).

(** The [try] block of [get_stock_data]: fetch, cache, return; the
    handler logs and re-raises. *)
Definition fetch_and_cache (ticker period interval : string)
  : M DataFrame :=
  catch
    (let* data := yf_history ticker period interval in
     let* t := now in
     let* _ := store (cache_key ticker period interval) data
                     (t + cache_duration) in
     ret data)
    (fun e => raise e).

(** [APIAgent.get_stock_data] *)
Definition get_stock_data (ticker period interval : string)
  : M DataFrame :=
  fun st =>
    let key := cache_key ticker period interval in
    match cache st !! key with
    | Some data =>
        (* the clock is read only once the key is known to be cached *)
        (let* t := now in
         fun st' =>
           if Z.ltb t (default 0 (cache_expiry st' !! key))
           then ret data st'
           else fetch_and_cache ticker period interval st') st
    | None => fetch_and_cache ticker period interval st
    end.

(** [APIAgent.get_multiple_stocks]; interval is the default ["1h"] *)
Fixpoint get_multiple_stocks_loop (tickers : list string) (period : string)
    (acc : dict (option DataFrame))
  : M (dict (option DataFrame)) :=
  match tickers with
  | [] => ret acc
  | ticker :: rest =>
      let* entry :=
        catch (let* d := get_stock_data ticker period "1h" in
               ret (Some d))
              (fun _ => ret None) in
      get_multiple_stocks_loop rest period
        (dict_set acc ticker entry)
  end.

Definition get_multiple_stocks (tickers : list string) (period : string)
  : M (dict (option DataFrame)) :=
  get_multiple_stocks_loop tickers period [].

(** *** Vocabulary of the cache properties *)

(** A live (non-expired) entry for [key] exists at the next clock
    reading. *)
Definition live (st : State) (key : string) : bool :=
  match cache st !! key with
  | Some _ => Z.ltb (clock W (ticks st)) (default 0 (cache_expiry st !! key))
  | None => false
  end.

Definition tick (st : State) : State :=
  {| cache := cache st; cache_expiry := cache_expiry st;
     ticks := S (ticks st); upstream := upstream st |}.

(** State in which the provider is consulted: unchanged on a plain miss,
    one clock reading later when an expired entry was found. *)
Definition at_fetch (st : State) (key : string) : State :=
  match cache st !! key with Some _ => tick st | None => st end.

End WithWorld.
End APIAgent.

(** ** Series operations used by the analytics *)

Module PandasOps.

(** Behaviour that differs between pandas releases: [idxmin]/[idxmax] of
    a series holding only NaN raises [ValueError] (pandas 3) or returns
    NaN (earlier releases). *)
Record Release : Type := { all_na_raises : bool }.

(** [s.cummax()]: NaN stays NaN and does not take part in the maximum *)
Fixpoint cummax_from (cur : fnum) (s : Series) : Series :=
  match s with
  | [] => []
  | (l, x) :: s' =>
      if is_nan x then (l, NaN) :: cummax_from cur s'
      else
        let m := if is_nan cur then x
                 else if fltb cur x then x else cur in
        (l, m) :: cummax_from m s'
  end.

Definition cummax (s : Series) : Series := cummax_from NaN s.

(** [a op b] for two series over the same index *)
Fixpoint zip_with_index (op : fnum -> fnum -> fnum) (a b : Series) : Series :=
  match a, b with
  | (l, x) :: a', (_, y) :: b' => (l, op x y) :: zip_with_index op a' b'
  | _, _ => []
  end.

(** [s op c] for a scalar [c] *)
Definition scalar (op : fnum -> fnum -> fnum) (s : Series) (c : fnum)
  : Series :=
  map (fun '(l, x) => (l, op x c)) s.

(** [s.min()] and [s.max()], skipping NaN; NaN when nothing is left *)
Fixpoint min_skipna (vs : list fnum) : fnum :=
  match vs with
  | [] => NaN
  | x :: vs' =>
      let m := min_skipna vs' in
      if is_nan x then m
      else if is_nan m then x
      else if fltb m x then m else x
  end.

Fixpoint max_skipna (vs : list fnum) : fnum :=
  match vs with
  | [] => NaN
  | x :: vs' =>
      let m := max_skipna vs' in
      if is_nan x then m
      else if is_nan m then x
      else if fltb x m then m else x
  end.

(** label of the first row holding [v] *)
Definition first_label (v : fnum) (s : Series) : option label :=
  fst <$> find (fun row : label * fnum => feqb (snd row) v) s.

Definition idx_of (R : Release) (extreme : list fnum -> fnum) (what : string)
    (s : Series) : result (option label) :=
  match s with
  | [] => Raise (ValueError ("attempt to get " ++ what
                             ++ " of an empty sequence"))
  | _ =>
      let m := extreme (values s) in
      if is_nan m then
        if all_na_raises R
        then Raise (ValueError "Encountered all NA values")
        else Ok None
      else Ok (first_label m s)
  end.

(** [s.idxmin()], [s.idxmax()]; [None] stands for a NaN result *)
Definition idxmin (R : Release) : Series -> result (option label) :=
  idx_of R min_skipna "argmin".
Definition idxmax (R : Release) : Series -> result (option label) :=
  idx_of R max_skipna "argmax".

(** Python's [seq[:k]] *)
Definition slice_to {A} (k : Z) (l : list A) : list A :=
  if 0 <=? k then take (Z.to_nat k) l
  else take (Z.to_nat (Z.of_nat (length l) + k)) l.

(** [s.iloc[:k]] where [k] is whatever [idxmin] returned: positions must
    be integers *)
Definition iloc_to (k : option label) (s : Series) : result Series :=
  match k with
  | Some (Pos i) => Ok (slice_to i s)
  | Some (Stamp _) =>
      Raise (TypeError "cannot do positional indexing with these indexers of type Timestamp")
  | None =>
      Raise (TypeError "cannot do positional indexing with these indexers of type float")
  end.

(** [(b - a).days] for two timestamps *)
Definition days_between (a b : Z) : Z := (b - a) / 86400.

End PandasOps.

(** ** Analytics engine (src/agents/analysis_agent.py) *)

Module Analytics.
Import PandasOps.

Record Drawdown : Type := {
  max_drawdown : fnum;
  duration : Z
}.

Definition one : fnum := of_Z 1.
Definition hundred : fnum := of_Z 100.

(** [(prices / running_max - 1) * 100] *)
Definition drawdown_series (prices : Series) : Series :=
  scalar fmul (scalar fsub (zip_with_index fdiv prices (cummax prices)) one)
         hundred.

(** The [try] block of [calculate_drawdown]. *)
Definition calculate_drawdown_body (R : Release) (prices : Series)
  : result Drawdown :=
  let drawdown := drawdown_series prices in
  let max_dd := min_skipna (values drawdown) in
  rbind (idxmin R drawdown) (fun max_drawdown_idx =>
  rbind (idxmin R drawdown) (fun k =>
  rbind (iloc_to k prices) (fun before =>
  rbind (idxmax R before) (fun peak_idx =>
  let d := match peak_idx, max_drawdown_idx with
           | Some (Stamp a), Some (Stamp b) => days_between a b
           | _, _ => 0
           end in
  Ok {| max_drawdown := max_dd; duration := d |})))).

(** [AnalysisAgent.calculate_drawdown] *)
Definition calculate_drawdown (R : Release) (prices : Series) : Drawdown :=
  match calculate_drawdown_body R prices with
  | Ok d => d
  | Raise _ => {| max_drawdown := Fin 0%Qc; duration := 0 |}
  end.

(** *** Vocabulary of the drawdown properties *)

Definition zero : fnum := Fin 0%Qc.

(** [(x / m - 1) * 100] *)
Definition dd_entry (x m : fnum) : fnum :=
  fmul (fsub (fdiv x m) one) hundred.

Definition dd_from (cur : fnum) (prices : Series) : list fnum :=
  values (scalar fmul
            (scalar fsub (zip_with_index fdiv prices (cummax_from cur prices))
                    one) hundred).

Definition next_max (cur x : fnum) : fnum :=
  if is_nan cur then x else if fltb cur x then x else cur.

(** Every row of the series is labelled with a timestamp. *)
Definition dated (s : Series) : Prop :=
  Forall (fun row : label * fnum =>
            match fst row with Stamp _ => True | Pos _ => False end) s.

(** The running maximum is a negative number: the one case in which a
    later entry of the drawdown series can be positive. *)
Definition negfin (cur : fnum) : Prop :=
  match cur with Fin c => (c < 0)%Qc | _ => False end.

End Analytics.

(** ** API agent: reports built on the quote cache (src/Agents.py) *)

Module APIReports.
Import APIAgent.

Definition fabs (x : fnum) : fnum :=
  match x with
  | Fin a => Fin (if Qc_ltb a 0%Qc then (- a)%Qc else a)
  | NInf => PInf
  | _ => x
  end.

(** Nearest integer, ties to the even one. *)
Definition round_half_even (q : Q) : Z :=
  let n := Qnum q in
  let d := Zpos (Qden q) in
  let f := n / d in
  let r2 := 2 * (n - f * d) in
  if r2 <? d then f
  else if d <? r2 then f + 1
  else if Z.even f then f else f + 1.

(** [round(x, digits)] for a float [x] *)
Definition fround (digits : nat) (x : fnum) : fnum :=
  match x with
  | Fin a =>
      let scale := inject_Z (10 ^ Z.of_nat digits) in
      Fin (Q2Qc (inject_Z (round_half_even (this a * scale)) / scale))
  | _ => x
  end.

(** [sum(values) / len(values)] and [np.mean(values)] *)
Definition fsum (vs : list fnum) : fnum := fold_left fadd vs (Fin 0%Qc).
Definition fmean (vs : list fnum) : fnum :=
  fdiv (fsum vs) (of_Z (Z.of_nat (length vs))).

(** [data.iloc[-1]["Close"]], and [data.iloc[-2]["Close"]] where the frame
    has a second row, of a non-empty frame *)
Definition last_close (data : DataFrame) : fnum :=
  List.last (values (Close data)) NaN.
Definition prev_close (data : DataFrame) : fnum :=
  List.last (removelast (values (Close data))) NaN.
Definition first_close (data : DataFrame) : fnum :=
  hd NaN (values (Close data)).
Definition rows (data : DataFrame) : nat := length (Close data).

(** [(a - b) / b * 100] *)
Definition percent_over (a b : fnum) : fnum :=
  fmul (fdiv (fsub a b) b) (of_Z 100).

Record IndexQuote : Type := {
  price : fnum;
  change_percent : fnum;
  quote_error : option string
}.

Section WithWorld.
Variable W : World.

Definition indices : dict string :=
  [ ("^GSPC", "S&P 500"); ("^DJI", "Dow Jones"); ("^IXIC", "NASDAQ");
    ("^FTSE", "FTSE 100"); ("^N225", "Nikkei 225"); ("^HSI", "Hang Seng") ].

Fixpoint get_market_indices_loop (table : dict string)
    (result : dict IndexQuote) : M (dict IndexQuote) :=
  match table with
  | [] => ret result
  | (symbol, name) :: rest =>
      let* result :=
        catch
          (let* data := get_stock_data W symbol "1d" "1d" in
           if empty data then ret result
           else
             let last_row := last_close data in
             let last_row_prev :=
               if (1 <? rows data)%nat then prev_close data else last_row in
             ret (dict_set result name
                    {| price := last_row;
                       change_percent := percent_over last_row last_row_prev;
                       quote_error := None |}))
          (fun e =>
             ret (dict_set result name
                    {| price := of_Z 0; change_percent := of_Z 0;
                       quote_error := Some (str e) |})) in
      get_market_indices_loop rest result
  end.

(** [APIAgent.get_market_indices] *)
Definition get_market_indices : M (dict IndexQuote) :=
  get_market_indices_loop indices [].

Definition sector_etfs : dict string :=
  [ ("XLF", "Financials"); ("XLK", "Technology"); ("XLV", "Healthcare");
    ("XLE", "Energy"); ("XLY", "Consumer Discretionary");
    ("XLP", "Consumer Staples"); ("XLI", "Industrials");
    ("XLB", "Materials"); ("XLU", "Utilities"); ("XLRE", "Real Estate") ].

Fixpoint get_sector_performance_loop (table : dict string)
    (result : dict fnum) : M (dict fnum) :=
  match table with
  | [] => ret result
  | (symbol, sector) :: rest =>
      let* result :=
        catch
          (let* data := get_stock_data W symbol "5d" "1h" in
           if empty data then ret result
           else
             ret (dict_set result sector
                    (fround 2 (percent_over (last_close data)
                                            (first_close data)))))
          (fun _ => ret (dict_set result sector (of_Z 0))) in
      get_sector_performance_loop rest result
  end.

(** [APIAgent.get_sector_performance] *)
Definition get_sector_performance : M (dict fnum) :=
  get_sector_performance_loop sector_etfs [].

Definition indicators : dict string :=
  [ ("^TNX", "10-Year Treasury Yield"); ("^TYX", "30-Year Treasury Yield");
    ("^FVX", "5-Year Treasury Yield"); ("GC=F", "Gold");
    ("CL=F", "Crude Oil"); ("EURUSD=X", "EUR/USD"); ("JPY=X", "USD/JPY") ].

Fixpoint get_economic_indicators_loop (table : dict string)
    (result : dict fnum) : M (dict fnum) :=
  match table with
  | [] => ret result
  | (symbol, name) :: rest =>
      let* result :=
        catch
          (let* data := get_stock_data W symbol "1d" "1h" in
           if empty data then ret result
           else ret (dict_set result name (fround 4 (last_close data))))
          (fun _ => ret (dict_set result name (of_Z 0))) in
      get_economic_indicators_loop rest result
  end.

(** [APIAgent.get_economic_indicators] *)
Definition get_economic_indicators : M (dict fnum) :=
  get_economic_indicators_loop indicators [].

(** *** Asia tech exposure *)

Definition asia_tech_stocks : list string :=
  [ "TSM"; "2330.TW"; "005930.KS"; "9988.HK"; "BABA"; "9999.HK"; "BIDU";
    "0700.HK"; "TCEHY"; "9618.HK"; "JD"; "6758.T"; "SONY"; "3690.HK";
    "MEITF" ].

Record StockMove : Type := {
  current_price : fnum;
  previous_price : fnum;
  percent_change : fnum
}.

(** An entry of the local [earnings_surprises] dict *)
Record Surprise : Type := {
  surprise : fnum;
  estimate : fnum
}.

(** [x or 0] for a float: zero is the one falsy float *)
Definition or_zero (x : fnum) : fnum :=
  if feqb x (of_Z 0) then of_Z 0 else x.

(** [{"surprise": row["Earnings"], "estimate": row.get("Estimate", 0) or 0}] *)
Definition surprise_of_row (row : EarningsRow) : Surprise :=
  {| surprise := Earnings row;
     estimate := match Estimate row with
                 | Some e => or_zero e
                 | None => of_Z 0
                 end |}.

Definition lift {A} (r : result A) : M A := fun st => (r, st).

(** The inner [try ... except: pass] around [stock.earnings] *)
Definition read_earnings (ticker : string) (surprises : dict Surprise)
  : dict Surprise :=
  match earnings W ticker with
  | Ok (Some row) => dict_set surprises ticker (surprise_of_row row)
  | Ok None | Raise _ => surprises
  end.

(** One turn of the loop over [asia_tech_stocks]. *)
Definition asia_tech_step (ticker : string)
    (acc : dict StockMove * dict Surprise)
  : M (dict StockMove * dict Surprise) :=
  let '(stock_data, surprises) := acc in
  fun st =>
    match get_stock_data W ticker "5d" "1h" st with
    | (Raise _, st') => (Ok (stock_data, surprises), st')
    | (Ok data, st') =>
        let stock_data :=
          if empty data then stock_data
          else
            let cur := last_close data in
            let many := (1 <? rows data)%nat in
            dict_set stock_data ticker
              {| current_price := cur;
                 previous_price := if many then prev_close data else cur;
                 percent_change :=
                   if many then percent_over cur (prev_close data)
                   else of_Z 0 |} in
        match calendar W ticker with
        | Raise _ => (Ok (stock_data, surprises), st')
        | Ok false => (Ok (stock_data, surprises), st')
        | Ok true => (Ok (stock_data, read_earnings ticker surprises), st')
        end
    end.

Fixpoint asia_tech_loop (tickers : list string)
    (acc : dict StockMove * dict Surprise)
  : M (dict StockMove * dict Surprise) :=
  match tickers with
  | [] => ret acc
  | ticker :: rest =>
      let* acc := asia_tech_step ticker acc in
      asia_tech_loop rest acc
  end.

End WithWorld.

(** [((surprise - estimate) / estimate) * 100] *)
Definition surprise_percent (s : Surprise) : fnum :=
  percent_over (surprise s) (estimate s).

(** [ticker.split('.')[0] if '.' in ticker else ticker] *)
Fixpoint company_name (ticker : string) : string :=
  match ticker with
  | EmptyString => EmptyString
  | String c rest =>
      if Ascii.eqb c "."%char then EmptyString
      else String c (company_name rest)
  end.

(** One turn of the loop that keeps the significant surprises. *)
Definition significant_step (acc : dict fnum) (entry : string * Surprise)
  : dict fnum :=
  let '(ticker, data) := entry in
  if fgtb (estimate data) (of_Z 0) then
    if fgtb (fabs (surprise_percent data)) (of_Z 1)
    then dict_set acc (company_name ticker) (fround 2 (surprise_percent data))
    else acc
  else acc.

Definition significant_surprises (surprises : dict Surprise) : dict fnum :=
  fold_left significant_step surprises [].

Definition sentiment_of (total_change : fnum) : string :=
  if fgtb total_change (of_Z 2) then "bullish"
  else if fgtb total_change (Fin (Q2Qc (1 # 2))) then "slightly bullish"
  else if fgtb total_change (Fin (Q2Qc (-1 # 2))) then "neutral"
  else if fgtb total_change (of_Z (-2)) then "slightly bearish"
  else "bearish".

Record Allocation : Type := {
  percentage : Z;
  previous_percentage : Z;
  change : Z;
  movement_direction : string
}.

Record AsiaTech : Type := {
  exposure : Allocation;
  earnings_surprises : dict fnum;
  sentiment : string;
  avg_price_change : fnum
}.

(** [APIAgent.get_asia_tech_exposure] *)
Definition get_asia_tech_exposure (W : World) : M AsiaTech :=
  let* acc := asia_tech_loop W asia_tech_stocks ([], []) in
  let '(stock_data, surprises) := acc in
  let portfolio_percentage := 22 in
  let previous_portfolio_percentage := 18 in
  let total_change :=
    match stock_data with
    | [] => of_Z 0
    | _ => fmean (map (fun e => percent_change (snd e)) stock_data)
    end in
  ret {| exposure :=
           {| percentage := portfolio_percentage;
              previous_percentage := previous_portfolio_percentage;
              change := portfolio_percentage - previous_portfolio_percentage;
              movement_direction :=
                if previous_portfolio_percentage <? portfolio_percentage
                then "up" else "down" |};
         earnings_surprises := significant_surprises surprises;
         sentiment := sentiment_of total_change;
         avg_price_change := fround 2 total_change |}.

(** *** Vocabulary of the earnings-surprise properties *)

(** What it takes for a surprise to be reported under [name] with value
    [v]. *)
Definition significant (t : string) (s : Surprise) (name : string) (v : fnum)
  : Prop :=
  name = company_name t /\
  fgtb (estimate s) (of_Z 0) = true /\
  fgtb (fabs (surprise_percent s)) (of_Z 1) = true /\
  v = fround 2 (surprise_percent s).

(** Every recorded surprise belongs to a ticker of the fixed Asia tech
    list and is the last earnings row the provider reports for it. *)
Definition sourced (W : World) (d : dict Surprise) : Prop :=
  forall t s, In (t, s) d ->
    In t asia_tech_stocks /\ calendar W t = Ok true /\
    exists row, earnings W t = Ok (Some row) /\ s = surprise_of_row row.

Record Portfolio : Type := {
  total_value : Z;
  daily_change_percent : fnum;
  regions : dict Z;
  sectors : dict Z;
  asia_tech : AsiaTech
}.

(** [APIAgent.get_portfolio_data] *)
Definition get_portfolio_data (W : World) : M Portfolio :=
  let* asia := get_asia_tech_exposure W in
  ret {| total_value := 1250000;
         daily_change_percent := Fin (Q2Qc (-32 # 100));
         regions := [ ("North America", 45); ("Asia", 22); ("Europe", 18);
                      ("Emerging Markets", 12); ("Other", 3) ];
         sectors := [ ("Technology", 35); ("Finance", 22);
                      ("Healthcare", 15); ("Consumer Discretionary", 10);
                      ("Industrials", 8); ("Energy", 5); ("Other", 5) ];
         asia_tech := asia |}.

End APIReports.

(** ** Statistics of the analytics engine *)

(** What the embedding leaves to the numeric library: the square root
    (not a rational function), and the three analytics that enter the
    reports only as numbers. Each of them catches every exception in the
    source, so they are total. *)
Record Engine : Type := {
  sqrt : Qc -> Qc;
  (** [AnalysisAgent.calculate_beta(stock_prices, market_prices)] *)
  calculate_beta : Series -> Series -> fnum;
  (** [AnalysisAgent.calculate_sharpe_ratio(returns)] *)
  calculate_sharpe_ratio : Series -> fnum;
  (** [AnalysisAgent.calculate_var(returns)] *)
  calculate_var : Series -> fnum
}.

Module Stats.
Import PandasOps Analytics APIReports.

(** [s.pct_change()]: each value over its predecessor, minus one; the
    first row has no predecessor *)
Fixpoint pct_change_from (prev : fnum) (s : Series) : Series :=
  match s with
  | [] => []
  | (l, x) :: s' => (l, fsub (fdiv x prev) one) :: pct_change_from x s'
  end.

Definition pct_change (s : Series) : Series := pct_change_from NaN s.

(** [s.dropna()] *)
Definition dropna (s : Series) : Series :=
  filter (fun row : label * fnum => is_nan (snd row) = false) s.

(** [s.iloc[-window:]] *)
Definition tail_rows (window : nat) (s : Series) : Series :=
  drop (length s - window) s.

Definition fsquare (x : fnum) : fnum := fmul x x.

(** Sum of squared deviations from the mean. *)
Definition ssq (vs : list fnum) : fnum :=
  let m := fmean vs in
  fsum (map (fun x => fsquare (fsub x m)) vs).

Section WithEngine.
Variable E : Engine.

Definition fsqrt (x : fnum) : fnum :=
  match x with
  | Fin a => if Qc_ltb a 0%Qc then NaN else Fin (sqrt E a)
  | PInf => PInf
  | _ => NaN
  end.

(** [s.std()]: sample standard deviation of the values that are not NaN;
    NaN for fewer than two of them *)
Definition std (s : Series) : fnum :=
  let vs := values (dropna s) in
  if (length vs <? 2)%nat then NaN
  else fsqrt (fdiv (ssq vs) (of_Z (Z.of_nat (length vs) - 1))).

(** [np.sqrt(252)] *)
Definition sqrt_252 : fnum := fsqrt (of_Z 252).

(** [AnalysisAgent.calculate_volatility], with its default window of 20 *)
Definition calculate_volatility (prices : Series) : fnum :=
  let window := 20%nat in
  let returns := dropna (pct_change prices) in
  if (length returns <? window)%nat
  then fmul (std returns) sqrt_252
  else fmul (std (tail_rows window returns)) sqrt_252.

End WithEngine.
End Stats.

(** ** Region and sector risk exposure
    ([AnalysisAgent.analyze_risk_exposure]) *)

Module RiskExposure.
Import APIAgent PandasOps Analytics Stats.

Definition region_mapping : dict (dict (list string)) :=
  [ ("Asia",
     [ ("Technology", ["TSM"; "005930.KS"; "9988.HK"; "0700.HK"; "6758.T"]);
       ("Finance", ["8306.T"; "8316.T"; "3988.HK"; "1398.HK"; "000001.SS"]);
       ("Consumer", ["9633.T"; "6758.T"; "2330.TW"; "1177.HK"; "1211.HK"]);
       ("Healthcare", ["4502.T"; "4503.T"; "1177.HK"; "3320.HK"; "1093.HK"]) ]);
    ("Europe",
     [ ("Technology", ["ASML.AS"; "SAP.DE"; "CAP.PA"; "STM.PA"; "ERIC-B.ST"]);
       ("Finance", ["HSBA.L"; "BNP.PA"; "SAN.MC"; "BBVA.MC"; "DBK.DE"]);
       ("Consumer", ["MC.PA"; "OR.PA"; "NESN.SW"; "UL.AS"; "AIR.PA"]);
       ("Healthcare", ["ROG.SW"; "SAN.PA"; "NOVN.SW"; "AZN.L"; "GSK.L"]) ]);
    ("North America",
     [ ("Technology", ["AAPL"; "MSFT"; "GOOGL"; "AMZN"; "META"]);
       ("Finance", ["JPM"; "BAC"; "WFC"; "C"; "GS"]);
       ("Consumer", ["COST"; "WMT"; "HD"; "NKE"; "MCD"]);
       ("Healthcare", ["JNJ"; "PFE"; "MRK"; "ABT"; "UNH"]) ]) ].

Record TickerRisk : Type := {
  volatility : fnum;
  beta : fnum;
  var_95 : fnum
}.

Record ExposureReport : Type := {
  region : string;
  sector : option string;
  tickers : list string;
  metrics : dict TickerRisk;
  average_metrics : TickerRisk;
  risk_level : string;
  earnings_surprises : dict fnum;
  (** present only for the region Asia *)
  sentiment : option string
}.

(** The dictionary handed back: [{'error': message}] or the report. *)
Inductive Exposure : Type :=
| ExposureError (message : string)
| Report (r : ExposureReport).

(** Truth value of an optional string: [None] and [""] are falsy. *)
Definition truthy (s : option string) : bool :=
  match s with
  | Some (String _ _) => true
  | _ => false
  end.

(** [np.mean(values) if values else 0] *)
Definition mean_or_zero (vs : list fnum) : fnum :=
  match vs with
  | [] => of_Z 0
  | _ => APIReports.fmean vs
  end.

(** The thresholds as the specification lists them:
    [>30 Very High, >20 High, >15 Moderate to High, >10 Moderate, else Low]. *)
Definition risk_thresholds : list (Z * string) :=
  [ (30, "Very High"); (20, "High"); (15, "Moderate to High");
    (10, "Moderate") ].

Definition classify (avg_volatility : fnum) : string :=
  match find (fun t : Z * string => fgtb avg_volatility (of_Z (fst t)))
             risk_thresholds with
  | Some t => snd t
  | None => "Low"
  end.

(** The request names a region outside the taxonomy, or a non-empty
    sector outside the region's part of it. *)
Definition unresolved (region : string) (sector : option string) : Prop :=
  match dict_get region_mapping region with
  | None => True
  | Some by_sector =>
      exists name, sector = Some name /\ name <> "" /\
                   dict_get by_sector name = None
  end.

(** The message reported for an unresolved request. *)
Definition unresolved_message (region : string) (sector : option string)
  : string :=
  match dict_get region_mapping region with
  | None => "Region '" ++ region ++ "' not supported"
  | Some _ =>
      "Sector '" ++ default "" sector ++ "' not supported for region '"
      ++ region ++ "'"
  end.

Section WithWorld.
Variable W : World.
Variable E : Engine.

(** First loop: fetch a month of daily data per ticker; a failed fetch
    is logged and skipped. *)
Fixpoint fetch_loop (tickers : list string) (stock_data : dict DataFrame)
  : M (dict DataFrame) :=
  match tickers with
  | [] => ret stock_data
  | ticker :: rest =>
      let* stock_data :=
        catch (let* data := get_stock_data W ticker "1mo" "1d" in
               ret (dict_set stock_data ticker data))
              (fun _ => ret stock_data) in
      fetch_loop rest stock_data
  end.

(** Second loop: metrics of every non-empty frame; the accumulator is
    [(metrics, volatilities, betas, variances)]. *)
Definition metrics_step (market_data : DataFrame)
    (acc : dict TickerRisk * list fnum * list fnum * list fnum)
    (entry : string * DataFrame)
  : dict TickerRisk * list fnum * list fnum * list fnum :=
  let '(ms, volatilities, betas, variances) := acc in
  let '(ticker, data) := entry in
  if empty data then acc
  else
    let returns := dropna (pct_change (Close data)) in
    let volatility := calculate_volatility E (Close data) in
    let beta := calculate_beta E (Close data) (Close market_data) in
    let var := calculate_var E returns in
    (dict_set ms ticker
       {| volatility := fmul volatility hundred; beta := beta;
          var_95 := var |},
     (volatilities ++ [fmul volatility hundred])%list,
     (betas ++ [beta])%list,
     (variances ++ [var])%list).

(** The [try] block once region and sector have been accepted. *)
Definition exposure_body (region : string) (sector : option string)
    (tickers : list string) : M ExposureReport :=
  let* stock_data := fetch_loop tickers [] in
  let* market_data := get_stock_data W "^GSPC" "1mo" "1d" in
  let '(ms, volatilities, betas, variances) :=
    fold_left (metrics_step market_data) stock_data ([], [], [], []) in
  let average :=
    {| volatility := mean_or_zero volatilities;
       beta := mean_or_zero betas;
       var_95 := mean_or_zero variances |} in
  let avg_volatility := volatility average in
  let risk_level :=
    if fgtb avg_volatility (of_Z 30) then "Very High"
    else if fgtb avg_volatility (of_Z 20) then "High"
    else if fgtb avg_volatility (of_Z 15) then "Moderate to High"
    else if fgtb avg_volatility (of_Z 10) then "Moderate"
    else "Low" in
  let* asia_tech_exposure := APIReports.get_asia_tech_exposure W in
  ret {| region := region; sector := sector; tickers := tickers;
         metrics := ms; average_metrics := average;
         risk_level := risk_level;
         earnings_surprises :=
           APIReports.earnings_surprises asia_tech_exposure;
         sentiment :=
           if String.eqb region "Asia"
           then Some (APIReports.sentiment asia_tech_exposure)
           else None |}.

(** [AnalysisAgent.analyze_risk_exposure]; it returns a dictionary on
    every path, so the result is not wrapped in [result]. *)
Definition analyze_risk_exposure (region : string) (sector : option string)
  : State -> Exposure * State :=
  fun st =>
    match dict_get region_mapping region with
    | None =>
        (ExposureError ("Region '" ++ region ++ "' not supported"), st)
    | Some by_sector =>
        let name := default "" sector in
        if truthy sector && negb (bool_decide (is_Some (dict_get by_sector name)))
        then
          (ExposureError ("Sector '" ++ name ++ "' not supported for region '"
                          ++ region ++ "'"), st)
        else
          let tickers :=
            if truthy sector then default [] (dict_get by_sector name)
            else concat (dict_values by_sector) in
          match exposure_body region sector tickers st with
          | (Ok r, st') => (Report r, st')
          | (Raise e, st') => (ExposureError (str e), st')
          end
    end.

End WithWorld.
End RiskExposure.

(** ** Portfolio analysis ([AnalysisAgent.analyze_portfolio]) *)

Module PortfolioAnalysis.
Import APIAgent PandasOps Stats.

Record AssetMetrics : Type := {
  volatility : fnum;
  beta : fnum;
  sharpe_ratio : fnum;
  max_drawdown : fnum;
  drawdown_duration : Z;
  var_95 : fnum
}.

(** An entry of [individual_metrics]: the metrics or [{'error': message}]. *)
Inductive AssetEntry : Type :=
| AssetError (message : string)
| Asset (m : AssetMetrics).

Record PortfolioStats : Type := {
  pf_volatility : fnum;
  pf_beta : fnum;
  pf_sharpe_ratio : fnum;
  pf_max_drawdown : fnum;
  pf_drawdown_duration : Z;
  pf_var_95 : fnum;
  correlation_matrix : dict (dict fnum)
}.

Record PortfolioMetrics : Type := {
  tickers : list string;
  weights : list Qc;
  individual_metrics : dict AssetEntry;
  portfolio_metrics : PortfolioStats
}.

Inductive PortfolioResult : Type :=
| PortfolioError (message : string)
| Metrics (m : PortfolioMetrics).

(** [sum(weights)] *)
Definition qsum (ws : list Qc) : Qc := fold_left Qcplus ws 0%Qc.

Definition Qc_of_nat (n : nat) : Qc := Q2Qc (inject_Z (Z.of_nat n)).

(** [[1.0 / len(portfolio_tickers) for _ in portfolio_tickers]] *)
Definition equal_weights (tickers : list string) : list Qc :=
  map (fun _ => (1 / Qc_of_nat (length tickers))%Qc) tickers.

(** [[w / sum(weights) for w in weights]]; dividing a float by zero
    raises *)
Definition normalize (ws : list Qc) : result (list Qc) :=
  match ws with
  | [] => Ok []
  | _ =>
      if Qc_eqb (qsum ws) 0%Qc then Raise ZeroDivisionError
      else Ok (map (fun w => (w / qsum ws)%Qc) ws)
  end.

(** *** Alignment of series *)

Definition label_key (l : label) : Z * Z :=
  match l with Stamp t => (0, t) | Pos i => (1, i) end.

Definition label_le (a b : label) : Prop :=
  let '(ka, va) := label_key a in
  let '(kb, vb) := label_key b in
  ka < kb \/ (ka = kb /\ va <= vb).

#[export] Instance label_le_dec : RelDecision label_le.
Proof.
  intros a b. unfold label_le.
  destruct (label_key a), (label_key b). apply _.
Defined.

Definition lookup_label (l : label) (s : Series) : option fnum :=
  snd <$> find (fun row : label * fnum => bool_decide (fst row = l)) s.

(** [x + y] under [fill_value=0]: a value missing on one side counts as
    zero, a value missing on both sides stays missing *)
Definition fill_add (x y : fnum) : fnum :=
  if is_nan x && is_nan y then NaN
  else fadd (if is_nan x then Fin 0%Qc else x)
            (if is_nan y then Fin 0%Qc else y).

Fixpoint add_rows (a b : Series) : Series :=
  match a, b with
  | (l, x) :: a', (_, y) :: b' => (l, fill_add x y) :: add_rows a' b'
  | _, _ => []
  end.

(** [a.add(b, fill_value=0)]: row by row when both carry the same index,
    otherwise over the sorted union of the two indexes *)
Definition series_add (a b : Series) : Series :=
  if decide (index a = index b) then add_rows a b
  else
    map (fun l => (l, fill_add (default NaN (lookup_label l a))
                               (default NaN (lookup_label l b))))
        (merge_sort label_le (remove_dups (index a ++ index b))).

(** [pd.Series(c, index=s.index)] *)
Definition constant_like (c : fnum) (s : Series) : Series :=
  map (fun row : label * fnum => (fst row, c)) s.

(** *** Correlation *)

Definition finite (x : fnum) : option Qc :=
  match x with Fin q => Some q | _ => None end.

Definition both_finite (x y : fnum) : option (Qc * Qc) :=
  match finite x, finite y with
  | Some p, Some q => Some (p, q)
  | _, _ => None
  end.

Fixpoint paired_rows (a b : Series) : list (Qc * Qc) :=
  match a, b with
  | (_, x) :: a', (_, y) :: b' =>
      match both_finite x y with
      | Some p => p :: paired_rows a' b'
      | None => paired_rows a' b'
      end
  | _, _ => []
  end.

(** Rows of the frame in which both columns hold a finite number; the
    columns line up row by row when the two series carry the same index,
    and by label otherwise. *)
Definition paired (a b : Series) : list (Qc * Qc) :=
  if decide (index a = index b) then paired_rows a b
  else
    omap (fun row : label * fnum =>
            both_finite (snd row)
                        (default NaN (lookup_label (fst row) b))) a.

Definition qmean (l : list Qc) : Qc := (qsum l / Qc_of_nat (length l))%Qc.

(** Sum of the products of the deviations from the two means. *)
Definition codeviation (ps : list (Qc * Qc)) : Qc :=
  let mx := qmean (map fst ps) in
  let my := qmean (map snd ps) in
  qsum (map (fun p : Qc * Qc => ((fst p - mx) * (snd p - my))%Qc) ps).

Definition twice (l : list Qc) : list (Qc * Qc) := map (fun x => (x, x)) l.

(** *** Vocabulary of the identical-series scenario *)

Definition half : Qc := Q2Qc (1 # 2).

Definition finite_values (s : Series) : list Qc := omap finite (values s).

(** Sum of the squared deviations of the finite values of a series from
    their mean: zero exactly when they are all equal. *)
Definition spread (s : Series) : Qc := codeviation (twice (finite_values s)).

(** [matrix[col][row]] *)
Definition entry (matrix : dict (dict fnum)) (col row : string)
  : option fnum :=
  dict_get matrix col ≫= fun rows => dict_get rows row.

(** A row that holds a value. *)
Definition not_nan (row : label * fnum) : Prop := is_nan (snd row) = false.

(** The square root is exact on the squares of rationals. *)
Definition exact_on_squares (E : Engine) : Prop :=
  forall x : Qc, (0 <= x)%Qc -> sqrt E (x * x)%Qc = x.

Section WithEngine.
Variable W : World.
Variable E : Engine.
Variable R : Release.

(** Pearson correlation of two columns of a frame, as [DataFrame.corr]
    computes it: over the rows where both are finite, the co-deviation
    over the root of the product of the two squared deviations; NaN
    without such rows or when that root is zero. *)
Definition corr (a b : Series) : fnum :=
  match paired a b with
  | [] => NaN
  | ps =>
      let ssx := codeviation (twice (map fst ps)) in
      let ssy := codeviation (twice (map snd ps)) in
      let divisor := sqrt E (ssx * ssy)%Qc in
      if Qc_eqb divisor 0%Qc then NaN
      else Fin (codeviation ps / divisor)%Qc
  end.

(** [pd.DataFrame(returns_data).corr().round(2).to_dict()] *)
Definition correlation_dict (returns_data : dict Series) : dict (dict fnum) :=
  map (fun col : string * Series =>
         (fst col,
          map (fun row : string * Series =>
                 (fst row, APIReports.fround 2 (corr (snd row) (snd col))))
              returns_data))
      returns_data.

(** One turn of the loop over the tickers; the accumulator is
    [(returns_data, individual_metrics)]. *)
Definition asset_step (market_data : DataFrame) (ticker : string)
    (acc : dict Series * dict AssetEntry)
  : M (dict Series * dict AssetEntry) :=
  let '(returns_data, individual) := acc in
  fun st =>
    match get_stock_data W ticker "1y" "1d" st with
    | (Raise e, st') =>
        (Ok (returns_data, dict_set individual ticker (AssetError (str e))),
         st')
    | (Ok data, st') =>
        let returns := dropna (pct_change (Close data)) in
        let volatility := calculate_volatility E (Close data) in
        let beta := calculate_beta E (Close data) (Close market_data) in
        let sharpe := calculate_sharpe_ratio E returns in
        let drawdown := Analytics.calculate_drawdown R (Close data) in
        let var := calculate_var E returns in
        (Ok (dict_set returns_data ticker returns,
             dict_set individual ticker
               (Asset {| volatility := fmul volatility Analytics.hundred;
                         beta := beta;
                         sharpe_ratio := sharpe;
                         max_drawdown := Analytics.max_drawdown drawdown;
                         drawdown_duration := Analytics.duration drawdown;
                         var_95 := var |})),
         st')
    end.

Fixpoint asset_loop (market_data : DataFrame) (tickers : list string)
    (acc : dict Series * dict AssetEntry)
  : M (dict Series * dict AssetEntry) :=
  match tickers with
  | [] => ret acc
  | ticker :: rest =>
      let* acc := asset_step market_data ticker acc in
      asset_loop market_data rest acc
  end.

(** One turn of the blending loop over [zip(tickers, weights)]. *)
Definition blend_step (returns_data : dict Series) (acc : Series)
    (pair : string * Qc) : Series :=
  match dict_get returns_data (fst pair) with
  | Some returns => series_add acc (scalar fmul returns (Fin (snd pair)))
  | None => acc
  end.

(** [individual_metrics[ticker].get('beta', 0) * weight], summed *)
Definition beta_step (individual : dict AssetEntry) (acc : fnum)
    (pair : string * Qc) : fnum :=
  match dict_get individual (fst pair) with
  | Some (Asset m) => fadd acc (fmul (beta m) (Fin (snd pair)))
  | Some (AssetError _) => fadd acc (fmul (of_Z 0) (Fin (snd pair)))
  | None => acc
  end.

(** The value series: 1.0 in the first row, then each row the previous
    value times one plus the row's return. *)
Fixpoint compound (prev : fnum) (returns : Series) : Series :=
  match returns with
  | [] => []
  | (l, r) :: rest =>
      let v := fmul prev (fadd Analytics.one r) in
      (l, v) :: compound v rest
  end.

Definition portfolio_value (returns : Series) : Series :=
  match returns with
  | [] => []
  | (l, _) :: rest => (l, Analytics.one) :: compound Analytics.one rest
  end.

(** The part of the [try] block after the per-ticker loop. *)
Definition aggregate (tickers : list string) (ws : list Qc)
    (returns_data : dict Series) (individual : dict AssetEntry)
  : result PortfolioMetrics :=
  match dict_values returns_data with
  | [] => Raise StopIteration
  | first :: _ =>
      let portfolio_returns :=
        fold_left (blend_step returns_data) (zip tickers ws)
                  (constant_like (Fin 0%Qc) first) in
      let portfolio_volatility := fmul (std E portfolio_returns) (sqrt_252 E) in
      let portfolio_drawdown :=
        Analytics.calculate_drawdown R (portfolio_value portfolio_returns) in
      Ok {| tickers := tickers;
            weights := ws;
            individual_metrics := individual;
            portfolio_metrics :=
              {| pf_volatility := fmul portfolio_volatility Analytics.hundred;
                 pf_beta :=
                   fold_left (beta_step individual) (zip tickers ws)
                             (Fin 0%Qc);
                 pf_sharpe_ratio := calculate_sharpe_ratio E portfolio_returns;
                 pf_max_drawdown := Analytics.max_drawdown portfolio_drawdown;
                 pf_drawdown_duration := Analytics.duration portfolio_drawdown;
                 pf_var_95 := calculate_var E portfolio_returns;
                 correlation_matrix := correlation_dict returns_data |} |}
  end.

(** The [try] block of [analyze_portfolio]. *)
Definition analyze_portfolio_body (portfolio_tickers : list string)
    (weights : option (list Qc)) : M PortfolioMetrics :=
  let weights :=
    match weights with
    | None => equal_weights portfolio_tickers
    | Some ws => ws
    end in
  let* weights := APIReports.lift (normalize weights) in
  let* market_data := get_stock_data W "^GSPC" "1y" "1d" in
  let* acc := asset_loop market_data portfolio_tickers ([], []) in
  APIReports.lift
    (aggregate portfolio_tickers weights (fst acc) (snd acc)).

(** [AnalysisAgent.analyze_portfolio] *)
Definition analyze_portfolio (portfolio_tickers : list string)
    (weights : option (list Qc)) : State -> PortfolioResult * State :=
  fun st =>
    match analyze_portfolio_body portfolio_tickers weights st with
    | (Ok m, st') => (Metrics m, st')
    | (Raise e, st') => (PortfolioError (str e), st')
    end.

End WithEngine.
End PortfolioAnalysis.

(** ** Local keyword-scoring intent classifier
    (src/services/language_services.py, [LanguageService.analyze_query_intent]) *)

Module PyStr.

(** Python [str] methods on strings of ASCII characters. *)

Definition is_upper_char (c : ascii) : bool :=
  let n := nat_of_ascii c in (65 <=? n)%nat && (n <=? 90)%nat.

Definition is_lower_char (c : ascii) : bool :=
  let n := nat_of_ascii c in (97 <=? n)%nat && (n <=? 122)%nat.

Definition lower_char (c : ascii) : ascii :=
  if is_upper_char c then ascii_of_nat (nat_of_ascii c + 32) else c.

(** [s.lower()] *)
Fixpoint lower (s : string) : string :=
  match s with
  | EmptyString => EmptyString
  | String c s' => String (lower_char c) (lower s')
  end.

(** [s.startswith(p)] *)
Fixpoint startswith (p s : string) : bool :=
  match p, s with
  | EmptyString, _ => true
  | String _ _, EmptyString => false
  | String a p', String b s' => Ascii.eqb a b && startswith p' s'
  end.

(** [sub in s] *)
Fixpoint contains (sub s : string) : bool :=
  startswith sub s ||
  match s with
  | EmptyString => false
  | String _ s' => contains sub s'
  end.

(** Occurrences of [sub] that start in [s] once [skip] more characters,
    covered by the previous match, have been passed over. *)
Fixpoint count_skip (sub s : string) (skip : nat) : nat :=
  match s with
  | EmptyString => 0
  | String _ s' =>
      match skip with
      | S k => count_skip sub s' k
      | O =>
          if startswith sub s
          then S (count_skip sub s' (String.length sub - 1))
          else count_skip sub s' 0
      end
  end.

(** [s.count(sub)]: non-overlapping occurrences, scanning from the left *)
Definition count (s sub : string) : nat :=
  match sub with
  | EmptyString => S (String.length s)
  | _ => count_skip sub s 0
  end.

(** [s.isupper()]: at least one cased character and no lower-case one *)
Fixpoint has_upper (s : string) : bool :=
  match s with
  | EmptyString => false
  | String c s' => is_upper_char c || has_upper s'
  end.

Fixpoint has_lower (s : string) : bool :=
  match s with
  | EmptyString => false
  | String c s' => is_lower_char c || has_lower s'
  end.

Definition isupper (s : string) : bool := has_upper s && negb (has_lower s).

Definition is_space (c : ascii) : bool :=
  let n := nat_of_ascii c in
  ((9 <=? n)%nat && (n <=? 13)%nat) || ((28 <=? n)%nat && (n <=? 32)%nat).

(** [s.split()]: the maximal runs of non-blank characters; [cur] is the
    word being read, reversed *)
Fixpoint split_acc (s : string) (cur : list ascii) : list string :=
  let flush := match cur with
               | [] => []
               | _ => [string_of_list_ascii (rev cur)]
               end in
  match s with
  | EmptyString => flush
  | String c s' =>
      if is_space c then flush ++ split_acc s' []
      else split_acc s' (c :: cur)
  end.

Definition split (s : string) : list string := split_acc s [].

(** [x in l] for a list of strings *)
Definition mem (x : string) (l : list string) : bool :=
  existsb (String.eqb x) l.

End PyStr.

Module LanguageService.
Import PyStr.

Record Intent : Type := {
  primary_intent : string;
  entities : list string;
  timeframe : string;
  requires_numeric_data : bool;
  confidence : Qc
}.

(** The keyword table, in the order the keywords are registered. *)
Definition intents : dict string :=
  [ ("portfolio", "portfolio_analysis");
    ("risk", "risk_assessment");
    ("exposure", "risk_assessment");
    ("market", "market_info");
    ("indices", "market_info");
    ("sector", "market_info");
    ("stock", "stock_specific");
    ("price", "stock_specific");
    ("economic", "economic_data");
    ("treasury", "economic_data");
    ("yield", "economic_data");
    ("earnings", "stock_specific") ].

Definition entity_table : dict string :=
  [ ("asia", "Asia");
    ("europe", "Europe");
    ("america", "North America");
    ("tech", "Technology");
    ("technology", "Technology");
    ("financial", "Finance");
    ("finance", "Finance");
    ("healthcare", "Healthcare");
    ("consumer", "Consumer");
    ("energy", "Energy") ].

(** One turn of the loop over [intents.items()]; the state is
    [(primary_intent, max_count)]. *)
Definition score_step (query_lower : string) (acc : string * nat)
    (entry : string * string) : string * nat :=
  let '(keyword, intent) := entry in
  if contains keyword query_lower then
    let n := count query_lower keyword in
    if (snd acc <? n)%nat then (intent, n) else acc
  else acc.

Definition score_loop (table : dict string) (query_lower : string)
  : string * nat :=
  fold_left (score_step query_lower) table ("unknown", 0%nat).

Definition entity_step (query_lower : string) (found : list string)
    (entry : string * string) : list string :=
  let '(keyword, entity) := entry in
  if contains keyword query_lower && negb (mem entity found)
  then found ++ [entity] else found.

Definition ticker_step (found : list string) (word : string) : list string :=
  if isupper word
     && (1 <=? String.length word)%nat && (String.length word <=? 5)%nat
     && negb (mem word found)
  then found ++ [word] else found.

Definition find_timeframe (query_lower : string) : string :=
  if contains "today" query_lower then "today"
  else if contains "week" query_lower then "week"
  else if contains "month" query_lower then "month"
  else if contains "year" query_lower then "year"
  else "current".

Definition numeric_words : list string :=
  ["price"; "percent"; "change"; "value"; "number"; "amount";
   "how much"; "how many"].

(** [LanguageService.analyze_query_intent] *)
Definition analyze_query_intent (query : string) : Intent :=
  let query_lower := lower query in
  let found := fold_left (entity_step query_lower) entity_table [] in
  let found := fold_left ticker_step (split query) found in
  {| primary_intent := fst (score_loop intents query_lower);
     entities := found;
     timeframe := find_timeframe query_lower;
     requires_numeric_data :=
       existsb (fun keyword => contains keyword query_lower) numeric_words;
     confidence := Q2Qc (8 # 10) |}.

(** The classifier as the specification words it: each intent is scored
    by the occurrences of all its keywords together. *)
Definition intent_score (table : dict string) (query_lower intent : string)
  : nat :=
  list_sum (map (fun entry : string * string =>
                   if String.eqb (snd entry) intent
                   then count query_lower (fst entry) else 0%nat)
                table).

(** Highest-scoring non-zero intent; among equals the one whose keyword
    is registered first wins, as a later intent must score strictly
    higher to take over. *)
Definition spec_primary_intent (table : dict string) (query_lower : string)
  : string :=
  fst (fold_left
         (fun (acc : string * nat) (entry : string * string) =>
            let n := intent_score table query_lower (snd entry) in
            if (snd acc <? n)%nat then (snd entry, n) else acc)
         table ("unknown", 0%nat)).

End LanguageService.

(** ** Router (src/orchestrator/router.py) *)

Module RouterTypes.
Import APIReports RiskExposure.

(** Values of the intent dictionary, as parsed from JSON. *)
#[warnings="-register-all"]
Inductive pyval : Type :=
| PNone
| PBool (b : bool)
| PInt (z : Z)
| PFloat (x : fnum)
| PStr (s : string)
| PList (l : list pyval).

Definition type_name (v : pyval) : string :=
  match v with
  | PNone => "NoneType"
  | PBool _ => "bool"
  | PInt _ => "int"
  | PFloat _ => "float"
  | PStr _ => "str"
  | PList _ => "list"
  end.

(** [v == s] for a string literal [s] *)
Definition is_str (v : pyval) (s : string) : bool :=
  match v with
  | PStr s' => String.eqb s' s
  | _ => false
  end.

(** [for x in v]: the items [v] yields *)
Definition iterate (v : pyval) : result (list pyval) :=
  match v with
  | PList l => Ok l
  | PStr s => Ok (map (fun c => PStr (String c EmptyString))
                      (list_ascii_of_string s))
  | _ => Raise (TypeError ("'" ++ type_name v ++ "' object is not iterable"))
  end.

(** [v.method()] for a method only strings have *)
Definition as_str (method : string) (v : pyval) : result string :=
  match v with
  | PStr s => Ok s
  | _ => Raise (AttributeError ("'" ++ type_name v
                                ++ "' object has no attribute '"
                                ++ method ++ "'"))
  end.

Record NewsItem : Type := {
  title : string;
  link : string;
  publisher : string;
  published : string
}.

Record StockQuote : Type := {
  stock_price : fnum;
  stock_change_percent : fnum
}.

(** What an entry of the context says; the source renders it into the
    entry's [content] string. *)
Inductive Content : Type :=
| Retrieved (text : string)
| MarketIndices (indices : dict IndexQuote)
| SectorPerformance (sectors : dict fnum)
| PortfolioData (portfolio : Portfolio)
| RiskExposureOf (region : string) (sector : option string) (e : Exposure)
| AsiaTechExposure (a : AsiaTech)
| StockData (ticker : string) (price change : fnum)
| StockNews (ticker : string) (items : list NewsItem)
| EconomicIndicators (indicators : dict fnum).

Record ContextItem : Type := {
  content : Content;
  (** [metadata["type"]] *)
  kind : string
}.

(** The [data] of a response. *)
Inductive Payload : Type :=
| DataMarket (indices : dict IndexQuote) (sectors : dict fnum)
| DataPortfolio (portfolio : Portfolio)
| DataExposure (e : Exposure)
| DataStocks (stocks : dict StockQuote)
| DataIndicators (indicators : dict fnum)
| DataEmpty.

(** A response dictionary: [{text, data}], or the degraded
    [{text, source, error}] of the earlier router. *)
Inductive Response : Type :=
| Answer (text : string) (data : Payload)
| Degraded (text : string) (source : string) (error : string).

(** The collaborators of the router besides the API and analysis agents. *)
Record Services : Type := {
  (** [retriever_agent.retrieve(query, k=5)] *)
  retrieve : string -> result (list ContextItem);
  (** [language_agent.generate_response(query, context)]; it catches
      every exception and answers with an apology, so it is total *)
  generate_response : string -> option (list ContextItem) -> string;
  (** [yf.Ticker(ticker).news], each item with its timestamp rendered *)
  news : string -> result (list NewsItem)
}.

End RouterTypes.

(** The first definition of [AgentRouter.route_query] in router.py
    (lines 38-82): a catch-all around the dispatch. The class body breaks
    off inside its first handler, so the handlers are parameters here. *)
Module RouterDraft.
Import RouterTypes.

Record Handlers : Type := {
  _handle_market_info : string -> pyval -> M Response;
  _handle_portfolio_analysis : string -> pyval -> M Response;
  _handle_risk_assessment : string -> pyval -> M Response;
  _handle_stock_specific : string -> pyval -> M Response;
  _handle_economic_data : string -> pyval -> M Response;
  _fallback_retrieval : string -> pyval -> M Response
}.

Section WithServices.
Variable S : Services.
Variable H : Handlers.

Definition dispatch (query : string) (intent : dict pyval) : M Response :=
  let primary_intent := default (PStr "unknown")
                                (dict_get intent "primary_intent") in
  let entities := default (PList []) (dict_get intent "entities") in
  let confidence := default (PFloat (of_Z 0)) (dict_get intent "confidence") in
  if is_str primary_intent "market_info"
  then _handle_market_info H query entities
  else if is_str primary_intent "portfolio_analysis"
  then _handle_portfolio_analysis H query entities
  else if is_str primary_intent "risk_assessment"
  then _handle_risk_assessment H query entities
  else if is_str primary_intent "stock_specific"
  then _handle_stock_specific H query entities
  else if is_str primary_intent "economic_data"
  then _handle_economic_data H query entities
  else _fallback_retrieval H query confidence.

Definition route_query (query : string) (intent : dict pyval) : M Response :=
  catch (dispatch query intent)
        (fun e =>
           let response := generate_response S query None in
           ret (Degraded response "language_agent" (str e))).

End WithServices.
End RouterDraft.

(** The second, complete definition of the router (lines 115-432), which
    is the one the handlers below belong to. *)
Module Router.
Import APIAgent APIReports RiskExposure PyStr RouterTypes.

Definition item (c : Content) (k : string) : ContextItem :=
  {| content := c; kind := k |}.

Definition region_words : list string :=
  ["asia"; "europe"; "north america"; "emerging markets"].
Definition sector_words : list string :=
  ["technology"; "finance"; "healthcare"; "consumer"; "energy"].

(** The loop over the entities in [_handle_risk_assessment]; the state is
    [(region, sector)]. *)
Fixpoint scan_entities (entities : list pyval)
    (acc : option string * option string)
  : result (option string * option string) :=
  match entities with
  | [] => Ok acc
  | entity :: rest =>
      rbind (as_str "lower" entity) (fun s =>
      if mem (lower s) region_words
      then scan_entities rest (Some s, snd acc)
      else
        (* the [elif] calls [entity.lower()] once more *)
        if mem (lower s) sector_words
        then scan_entities rest (fst acc, Some s)
        else scan_entities rest acc)
  end.

(** [[e for e in entities if e.isupper() and len(e) <= 5]], as the loop
    of [_handle_stock_specific] builds it *)
Fixpoint upper_tickers (entities : list pyval) (tickers : list string)
  : result (list string) :=
  match entities with
  | [] => Ok tickers
  | entity :: rest =>
      rbind (as_str "isupper" entity) (fun s =>
      if isupper s && (String.length s <=? 5)%nat
      then upper_tickers rest (tickers ++ [s])%list
      else upper_tickers rest tickers)
  end.

Definition common_stocks : dict string :=
  [ ("apple", "AAPL"); ("microsoft", "MSFT"); ("google", "GOOGL");
    ("amazon", "AMZN"); ("tesla", "TSLA"); ("facebook", "META");
    ("nvidia", "NVDA"); ("tsmc", "TSM"); ("samsung", "005930.KS");
    ("alibaba", "BABA"); ("tencent", "0700.HK") ].

Definition named_step (query_lower : string) (tickers : list string)
    (entry : string * string) : list string :=
  let '(name, ticker) := entry in
  if contains name query_lower && negb (mem ticker tickers)
  then (tickers ++ [ticker])%list else tickers.

Section WithServices.
Variable W : World.
Variable E : Engine.
Variable S : Services.

(** [APIAgent.get_stock_news]: at most five items, none on failure *)
Definition get_stock_news (ticker : string) : list NewsItem :=
  match news S ticker with
  | Ok items => take 5 items
  | Raise _ => []
  end.

Definition _handle_market_info (query : string) (entities : pyval)
    (context : list ContextItem) : M Response :=
  let* indices := get_market_indices W in
  let* sectors := get_sector_performance W in
  let context := (context ++ [item (MarketIndices indices) "market_indices"])%list in
  let context :=
    (context ++ [item (SectorPerformance sectors) "sector_performance"])%list in
  let text := generate_response S query (Some context) in
  ret (Answer text (DataMarket indices sectors)).

Definition _handle_portfolio_analysis (query : string) (entities : pyval)
    (context : list ContextItem) : M Response :=
  let* portfolio := get_portfolio_data W in
  let context :=
    (context ++ [item (PortfolioData portfolio) "portfolio_data"])%list in
  let text := generate_response S query (Some context) in
  ret (Answer text (DataPortfolio portfolio)).

Definition _handle_risk_assessment (query : string) (entities : pyval)
    (context : list ContextItem) : M Response :=
  let* items := lift (iterate entities) in
  let* found := lift (scan_entities items (None, None)) in
  let region :=
    match fst found with
    | Some (String c r) => String c r
    | _ => "Asia"
    end in
  let sector :=
    if negb (truthy (snd found)) && contains "tech" (lower query)
    then Some "Technology" else snd found in
  fun st =>
    let '(exposure, st) := analyze_risk_exposure W E region sector st in
    let context :=
      (context ++ [item (RiskExposureOf region sector exposure)
                        "risk_exposure"])%list in
    (if contains "asia" (lower query) && contains "tech" (lower query)
     then
       let* asia_tech := get_asia_tech_exposure W in
       let context :=
         (context ++ [item (AsiaTechExposure asia_tech)
                           "asia_tech_exposure"])%list in
       ret (Answer (generate_response S query (Some context))
                   (DataExposure exposure))
     else
       ret (Answer (generate_response S query (Some context))
                   (DataExposure exposure))) st.

(** One turn of the loop over the tickers in [_handle_stock_specific];
    a failure is logged and the ticker skipped. *)
Definition stock_step (ticker : string)
    (acc : dict StockQuote * list ContextItem)
  : M (dict StockQuote * list ContextItem) :=
  let '(stock_data, context) := acc in
  fun st =>
    match get_stock_data W ticker "1d" "1h" st with
    | (Raise _, st') => (Ok (stock_data, context), st')
    | (Ok data, st') =>
        let '(stock_data, context) :=
          if empty data then (stock_data, context)
          else
            let latest_price := last_close data in
            let prev_price :=
              if (1 <? rows data)%nat then prev_close data
              else last_close data in
            let pct_change := percent_over latest_price prev_price in
            (dict_set stock_data ticker
               {| stock_price := latest_price;
                  stock_change_percent := pct_change |},
             (context ++ [item (StockData ticker latest_price pct_change)
                               "stock_data"])%list) in
        let context :=
          match get_stock_news ticker with
          | [] => context
          | found =>
              (context ++ [item (StockNews ticker (take 3 found))
                                "stock_news"])%list
          end in
        (Ok (stock_data, context), st')
    end.

Fixpoint stock_loop (tickers : list string)
    (acc : dict StockQuote * list ContextItem)
  : M (dict StockQuote * list ContextItem) :=
  match tickers with
  | [] => ret acc
  | ticker :: rest =>
      let* acc := stock_step ticker acc in
      stock_loop rest acc
  end.

Definition _handle_stock_specific (query : string) (entities : pyval)
    (context : list ContextItem) : M Response :=
  let* items := lift (iterate entities) in
  let* tickers := lift (upper_tickers items []) in
  let tickers := fold_left (named_step (lower query)) common_stocks tickers in
  let* acc := stock_loop tickers ([], context) in
  let text := generate_response S query (Some (snd acc)) in
  ret (Answer text (DataStocks (fst acc))).

Definition _handle_economic_data (query : string) (entities : pyval)
    (context : list ContextItem) : M Response :=
  let* indicators := get_economic_indicators W in
  let context :=
    (context ++ [item (EconomicIndicators indicators)
                      "economic_indicators"])%list in
  let text := generate_response S query (Some context) in
  ret (Answer text (DataIndicators indicators)).

Definition _handle_default (query : string) (context : list ContextItem)
  : M Response :=
  ret (Answer (generate_response S query (Some context)) DataEmpty).

(** [AgentRouter.route_query] *)
Definition route_query (query : string) (intent : dict pyval) : M Response :=
  let primary_intent := default (PStr "unknown")
                                (dict_get intent "primary_intent") in
  let entities := default (PList []) (dict_get intent "entities") in
  let* context := lift (retrieve S query) in
  if is_str primary_intent "market_info"
  then _handle_market_info query entities context
  else if is_str primary_intent "portfolio_analysis"
  then _handle_portfolio_analysis query entities context
  else if is_str primary_intent "risk_assessment"
  then _handle_risk_assessment query entities context
  else if is_str primary_intent "stock_specific"
  then _handle_stock_specific query entities context
  else if is_str primary_intent "economic_data"
  then _handle_economic_data query entities context
  else _handle_default query context.

End WithServices.
End Router.

(** ** Concrete worlds and engines, for evaluating the code *)

Module Scenarios.

(** A provider that is down, and a clock that advances by one second per
    reading. *)
Definition provider_down : World :=
  {| clock := fun n => Z.of_nat n * 1000000;
     history := fun _ _ _ _ => Raise (ProviderError "No data found");
     calendar := fun _ => Ok false;
     earnings := fun _ => Ok None |}.

(** Clock readings at 0 s, 100 s, 400 s and 401 s; the provider answers
    the n-th fetch with a one-row frame whose close is n. *)
Definition steady : World :=
  {| clock := fun n =>
       match n with
       | O => 0
       | 1%nat => 100 * 1000000
       | 2%nat => 400 * 1000000
       | _ => 401 * 1000000
       end;
     history := fun n _ _ _ =>
       Ok {| Close := [(Stamp 0, of_Z (Z.of_nat n))] |};
     calendar := fun _ => Ok false;
     earnings := fun _ => Ok None |}.

(** Square root of a rational by integer square roots of numerator and
    denominator: exact on squares of rationals. *)
Definition csqrt (a : Qc) : Qc :=
  Q2Qc (Z.sqrt (Qnum (this a)) # Pos.sqrt (Qden (this a))).

Definition plain_engine : Engine :=
  {| sqrt := csqrt;
     calculate_beta := fun _ _ => of_Z 1;
     calculate_sharpe_ratio := fun _ => of_Z 0;
     calculate_var := fun _ => of_Z 0 |}.

Definition day : Z := 86400.

(** Three daily closes 100, 110, 99 for every symbol; TSM reported
    earnings of 110 against an estimate of 100, 2330.TW earnings of 100.5
    against 100. *)
Definition trading : World :=
  {| clock := fun n => Z.of_nat n * 1000000;
     history := fun _ _ _ _ =>
       Ok {| Close := [ (Stamp 0, of_Z 100); (Stamp day, of_Z 110);
                        (Stamp (2 * day), of_Z 99) ] |};
     calendar := fun _ => Ok true;
     earnings := fun ticker =>
       if String.eqb ticker "TSM"
       then Ok (Some {| Earnings := of_Z 110; Estimate := Some (of_Z 100) |})
       else if String.eqb ticker "2330.TW"
       then Ok (Some {| Earnings := Fin (Q2Qc (201 # 2));
                        Estimate := Some (of_Z 100) |})
       else Ok None |}.

(** Every symbol closes at 100 on three days running. *)
Definition flat : World :=
  {| clock := fun n => Z.of_nat n * 1000000;
     history := fun _ _ _ _ =>
       Ok {| Close := [ (Stamp 0, of_Z 100); (Stamp day, of_Z 100);
                        (Stamp (2 * day), of_Z 100) ] |};
     calendar := fun _ => Ok false;
     earnings := fun _ => Ok None |}.

Definition pandas3 : PandasOps.Release := {| PandasOps.all_na_raises := true |}.

(** A retriever with nothing to offer, a narrator with one answer, no
    news. *)
Definition quiet : RouterTypes.Services :=
  {| RouterTypes.retrieve := fun _ => Ok [];
     RouterTypes.generate_response := fun _ _ => "(narrative)";
     RouterTypes.news := fun _ => Ok [] |}.

(** An intent as the language model may hand it back: the entity list
    holds a number. *)
Definition numeric_entity_intent : dict RouterTypes.pyval :=
  [ ("primary_intent", RouterTypes.PStr "risk_assessment");
    ("entities", RouterTypes.PList [RouterTypes.PInt 42]);
    ("confidence", RouterTypes.PFloat (Fin (Q2Qc (9 # 10)))) ].

(** The report inside an exposure dictionary; an empty report stands in
    for an error dictionary. *)
Definition report_of (x : RiskExposure.Exposure) : RiskExposure.ExposureReport :=
  match x with
  | RiskExposure.Report r => r
  | RiskExposure.ExposureError _ =>
      {| RiskExposure.region := ""; RiskExposure.sector := None;
         RiskExposure.tickers := []; RiskExposure.metrics := [];
         RiskExposure.average_metrics :=
           {| RiskExposure.volatility := NaN; RiskExposure.beta := NaN;
              RiskExposure.var_95 := NaN |};
         RiskExposure.risk_level := "";
         RiskExposure.earnings_surprises := [];
         RiskExposure.sentiment := None |}
  end.

(** Likewise for the result of a portfolio analysis. *)
Definition metrics_of (x : PortfolioAnalysis.PortfolioResult)
  : PortfolioAnalysis.PortfolioMetrics :=
  match x with
  | PortfolioAnalysis.Metrics m => m
  | PortfolioAnalysis.PortfolioError _ =>
      {| PortfolioAnalysis.tickers := []; PortfolioAnalysis.weights := [];
         PortfolioAnalysis.individual_metrics := [];
         PortfolioAnalysis.portfolio_metrics :=
           {| PortfolioAnalysis.pf_volatility := NaN;
              PortfolioAnalysis.pf_beta := NaN;
              PortfolioAnalysis.pf_sharpe_ratio := NaN;
              PortfolioAnalysis.pf_max_drawdown := NaN;
              PortfolioAnalysis.pf_drawdown_duration := 0;
              PortfolioAnalysis.pf_var_95 := NaN;
              PortfolioAnalysis.correlation_matrix := [] |} |}
  end.

End Scenarios.

(** ** Market data ingestion (src/data_ingestion/market_data.py) *)

Module MarketDataIngestion.
Import APIAgent.

Section WithWorld.
Variable W : World.

(** The [try] block of [get_stock_data]: fetch, cache, return; the
    handler logs and answers with an empty frame. *)
Definition fetch_or_empty (ticker period interval : string) : M DataFrame :=
  catch
    (let* data := yf_history W ticker period interval in
     let* t := now W in
     let* _ := store (cache_key ticker period interval) data
                     (t + cache_duration) in
     ret data)
    (fun _ => ret {| Close := [] |}).

(** [MarketDataIngestion.get_stock_data] *)
Definition get_stock_data (ticker period interval : string) : M DataFrame :=
  fun st =>
    let key := cache_key ticker period interval in
    match cache st !! key with
    | Some data =>
        (let* t := now W in
         fun st' =>
           if Z.ltb t (default 0 (cache_expiry st' !! key))
           then ret data st'
           else fetch_or_empty ticker period interval st') st
    | None => fetch_or_empty ticker period interval st
    end.

Definition sectors : dict string :=
  [ ("Technology", "XLK"); ("Healthcare", "XLV"); ("Financial", "XLF");
    ("Consumer Discretionary", "XLY"); ("Consumer Staples", "XLP");
    ("Energy", "XLE"); ("Utilities", "XLU"); ("Materials", "XLB");
    ("Industrial", "XLI"); ("Real Estate", "XLRE");
    ("Communication", "XLC") ].

Fixpoint get_sector_performance_loop (table : dict string)
    (result : dict fnum) : M (dict fnum) :=
  match table with
  | [] => ret result
  | (sector, ticker) :: rest =>
      let* result :=
        catch
          (let* data := get_stock_data ticker "5d" "1d" in
           if empty data then ret (dict_set result sector (of_Z 0))
           else
             ret (dict_set result sector
                    (APIReports.fround 2
                       (fmul (fdiv (fsub (APIReports.last_close data)
                                         (APIReports.first_close data))
                                   (APIReports.first_close data))
                             (of_Z 100)))))
          (fun _ => ret (dict_set result sector (of_Z 0))) in
      get_sector_performance_loop rest result
  end.

(** [MarketDataIngestion.get_sector_performance] *)
Definition get_sector_performance : M (dict fnum) :=
  get_sector_performance_loop sectors [].

End WithWorld.
End MarketDataIngestion.

(** ** Morning brief (src/agents/analysis_agent.py) *)

Module MorningBrief.
Import APIAgent APIReports RiskExposure.

Record Brief : Type := {
  (** the clock reading that is rendered as the date *)
  date : Z;
  indices : dict IndexQuote;
  economic_indicators : dict fnum;
  region_exposure : Exposure;
  asia_tech : AsiaTech
}.

(** The dictionary handed back: the brief, or [{'error': ..., 'date': ...}]. *)
Inductive BriefResult : Type :=
| BriefError (message : string) (date : Z)
| Compiled (b : Brief).

Section WithWorld.
Variable W : World.
Variable E : Engine.

(** The [try] block of [generate_morning_brief]. *)
Definition brief_body (region : string) (sector : option string) : M Brief :=
  let* indices := get_market_indices W in
  let* exposure :=
    (fun st => let '(x, st') := analyze_risk_exposure W E region sector st in
               (Ok x, st')) in
  let* indicators := get_economic_indicators W in
  let* asia_tech := get_asia_tech_exposure W in
  let* today := now W in
  ret {| date := today; indices := indices;
         economic_indicators := indicators;
         region_exposure := exposure; asia_tech := asia_tech |}.

(** [AnalysisAgent.generate_morning_brief] *)
Definition generate_morning_brief (region : string) (sector : option string)
  : State -> BriefResult * State :=
  fun st =>
    match brief_body region sector st with
    | (Ok b, st') => (Compiled b, st')
    | (Raise e, st') =>
        (* the handler reads the clock for the date *)
        (BriefError (str e) (clock W (ticks st')), tick st')
    end.

End WithWorld.
End MorningBrief.

(** ** Orchestrator (src/orchestrator/main.py, src/agents/language_agent.py) *)

Module Orchestrator.
Import RouterTypes.

(** What [json.loads] makes of the model's answer: an object, or any
    other JSON value. *)
Inductive Json : Type :=
| JObject (d : dict pyval)
| JOther (v : pyval).

(** The language model behind [LanguageAgent.analyze_query_intent]: the
    parsed completion, or the exception of the call or of the parsing. *)
Record Llm : Type := {
  complete : string -> result Json
}.

(** [LanguageAgent.analyze_query_intent] *)
Definition analyze_query_intent (L : Llm) (query : string) : Json :=
  match complete L query with
  | Ok intent_analysis => intent_analysis
  | Raise e =>
      JObject [ ("primary_intent", PStr "unknown");
                ("entities", PList []);
                ("timeframe", PStr "current");
                ("requires_numeric_data", PBool true);
                ("confidence", PFloat (of_Z 0));
                ("error", PStr (str e)) ]
  end.

(** Truth value of a JSON value. *)
Definition truth (v : pyval) : bool :=
  match v with
  | PNone => false
  | PBool b => b
  | PInt z => negb (z =? 0)
  | PFloat x => negb (feqb x (of_Z 0))
  | PStr s => negb (String.eqb s "")
  | PList l => match l with [] => false | _ => true end
  end.

(** What the endpoint sends back: the router's response, or a
    [JSONResponse] with a status code and an error text. *)
Inductive Reply : Type :=
| Routed (response : Response)
| Status (code : Z) (error : string).

Section WithServices.
Variable W : World.
Variable E : Engine.
Variable S : Services.
Variable L : Llm.

(** [router.route_query(query, intent)]: the router starts with
    [intent.get], which only an object has. *)
Definition route (query : string) (intent : Json) : M Response :=
  match intent with
  | JObject d => Router.route_query W E S query d
  | JOther v =>
      raise (AttributeError ("'" ++ type_name v
                             ++ "' object has no attribute 'get'"))
  end.

(** [process_query], on a request whose query, when present and truthy,
    is a string; the scheduling of the background ingestion does not
    bear on the reply and is left out.  Other truthy queries are outside
    this model ([None]). *)
Definition process_query (request : dict pyval)
  : State -> option (Reply * State) :=
  fun st =>
    let query := default (PStr "") (dict_get request "query") in
    if negb (truth query) then Some (Status 400 "No query provided", st)
    else
      match query with
      | PStr q =>
          Some
            match route q (analyze_query_intent L q) st with
            | (Ok response, st') => (Routed response, st')
            | (Raise e, st') =>
                (Status 500 ("Error processing query: " ++ str e), st')
            end
      | _ => None
      end.

End WithServices.
End Orchestrator.

(** ** Vocabulary of the further properties *)

Module CacheInvariants.

(** Every cached frame satisfies [P]. *)
Definition cache_all (P : DataFrame -> Prop) (st : State) : Prop :=
  forall k d, cache st !! k = Some d -> P d.

(** Every frame the provider answers with satisfies [P]. *)
Definition world_all (P : DataFrame -> Prop) (W : World) : Prop :=
  forall n t p i d, history W n t p i = Ok d -> P d.

(** The provider fails on every request. *)
Definition provider_fails (W : World) : Prop :=
  forall n t p i, exists e, history W n t p i = Raise e.

(** The frame has exactly one row, and its close is a finite number other
    than zero. *)
Definition single_quote (d : DataFrame) : Prop :=
  exists l c, Close d = [(l, Fin c)] /\ c <> 0%Qc.

(** The frame has no rows. *)
Definition no_rows (d : DataFrame) : Prop := Close d = [].

(** An index whose lookup failed: price and change zero, and an error
    text. *)
Definition failed_index (row : string * string)
    (entry : string * APIReports.IndexQuote) : Prop :=
  fst entry = snd row /\ APIReports.price (snd entry) = of_Z 0 /\
  APIReports.change_percent (snd entry) = of_Z 0 /\
  is_Some (APIReports.quote_error (snd entry)).

(** The provider answers every request, with a frame that has no rows. *)
Definition provider_blank (W : World) : Prop :=
  forall n t p i, exists d, history W n t p i = Ok d /\ Close d = [].

(** The frame has at most two rows. *)
Definition short_frame (d : DataFrame) : Prop := (length (Close d) <= 2)%nat.

(** The provider has the benchmark's year of daily closes and nothing
    else. *)
Definition benchmark_only (W : World) : Prop :=
  (forall n, is_ok (history W n "^GSPC" "1y" "1d") = true) /\
  (forall n t p i, t <> "^GSPC" -> is_ok (history W n t p i) = false).

(** The provider answers every request. *)
Definition provider_answers (W : World) : Prop :=
  forall n t p i, is_ok (history W n t p i) = true.

(** The frame is indexed by timestamps. *)
Definition dated_frame (d : DataFrame) : Prop := Analytics.dated (Close d).

End CacheInvariants.

Module Ranks.

(** The five sentiment labels from most bearish to most bullish. *)
Definition sentiment_rank (label : string) : Z :=
  if String.eqb label "bullish" then 4
  else if String.eqb label "slightly bullish" then 3
  else if String.eqb label "neutral" then 2
  else if String.eqb label "slightly bearish" then 1
  else 0.

(** The five risk levels from lowest to highest. *)
Definition risk_rank (label : string) : Z :=
  if String.eqb label "Very High" then 4
  else if String.eqb label "High" then 3
  else if String.eqb label "Moderate to High" then 2
  else if String.eqb label "Moderate" then 1
  else 0.

End Ranks.

Module IntentVocabulary.
Import PyStr LanguageService.

(** An entity the table assigns to a keyword of the lower-cased query. *)
Definition tabled (query e : string) : Prop :=
  exists kw, In (kw, e) entity_table /\ contains kw (lower query) = true.

(** A word of the query in upper case, of one to five characters. *)
Definition tickerlike (query e : string) : Prop :=
  In e (split query) /\ isupper e = true /\
  (1 <= String.length e <= 5)%nat.

End IntentVocabulary.

Module RouterVocabulary.
Import RouterTypes.

Definition is_string (v : pyval) : bool :=
  match v with PStr _ => true | _ => false end.

(** The entities can be iterated and every item is a string. *)
Definition well_formed (entities : pyval) : bool :=
  match iterate entities with
  | Ok items => forallb is_string items
  | Raise _ => false
  end.

(** The two intents whose handlers read the entities. *)
Definition reads_entities (primary_intent : pyval) : bool :=
  is_str primary_intent "risk_assessment"
  || is_str primary_intent "stock_specific".

(** The intent a payload belongs to. *)
Definition payload_tag (data : Payload) : string :=
  match data with
  | DataMarket _ _ => "market_info"
  | DataPortfolio _ => "portfolio_analysis"
  | DataExposure _ => "risk_assessment"
  | DataStocks _ => "stock_specific"
  | DataIndicators _ => "economic_data"
  | DataEmpty => "unknown"
  end.

(** The intent as the router reads it: one of the five it knows, or
    unknown. *)
Definition intent_tag (primary_intent : pyval) : string :=
  match primary_intent with
  | PStr s =>
      if PyStr.mem s ["market_info"; "portfolio_analysis"; "risk_assessment";
                      "stock_specific"; "economic_data"]
      then s else "unknown"
  | _ => "unknown"
  end.

End RouterVocabulary.

(** ** Further worlds *)

Module Cases.

(** Every symbol has a single row, closing at 100. *)
Definition one_row : World :=
  {| clock := fun n => Z.of_nat n * 1000000;
     history := fun _ _ _ _ => Ok {| Close := [(Stamp 0, of_Z 100)] |};
     calendar := fun _ => Ok false;
     earnings := fun _ => Ok None |}.

(** The provider answers, but with frames that have no rows. *)
Definition blank : World :=
  {| clock := fun n => Z.of_nat n * 1000000;
     history := fun _ _ _ _ => Ok {| Close := [] |};
     calendar := fun _ => Ok false;
     earnings := fun _ => Ok None |}.

(** Earnings as in [Scenarios.trading], but no prices: every lookup of a
    price history fails. *)
Definition prices_down : World :=
  {| clock := fun n => Z.of_nat n * 1000000;
     history := fun _ _ _ _ => Raise (ProviderError "No data found");
     calendar := calendar Scenarios.trading;
     earnings := earnings Scenarios.trading |}.

(** Every symbol gains ten percent a day, except TSM, whose closes are
    missing. *)
Definition one_gap : World :=
  {| clock := fun n => Z.of_nat n * 1000000;
     history := fun _ ticker _ _ =>
       if String.eqb ticker "TSM"
       then Ok {| Close := [(Stamp 0, NaN); (Stamp Scenarios.day, NaN)] |}
       else Ok {| Close := [(Stamp 0, of_Z 100);
                            (Stamp Scenarios.day, of_Z 110)] |};
     calendar := fun _ => Ok false;
     earnings := fun _ => Ok None |}.

(** The loop of the Asia tech report in that world, from a fresh agent,
    and the two dictionaries it leaves. *)
Definition gap_run
  : result (dict APIReports.StockMove * dict APIReports.Surprise) * State :=
  APIReports.asia_tech_loop one_gap APIReports.asia_tech_stocks ([], []) init.
Definition gap_moves : dict APIReports.StockMove :=
  match fst gap_run with Ok x => fst x | Raise _ => [] end.
Definition gap_surprises : dict APIReports.Surprise :=
  match fst gap_run with Ok x => snd x | Raise _ => [] end.

(** Only the benchmark is known to the provider. *)
Definition lone_benchmark : World :=
  {| clock := fun n => Z.of_nat n * 1000000;
     history := fun _ ticker _ _ =>
       if String.eqb ticker "^GSPC"
       then Ok {| Close := [(Stamp 0, of_Z 100);
                            (Stamp Scenarios.day, of_Z 110)] |}
       else Raise (ProviderError ("No data found for " ++ ticker));
     calendar := fun _ => Ok false;
     earnings := fun _ => Ok None |}.

(** A risk question whose entity names a region in lower case. *)
Definition lower_case_region_intent : dict RouterTypes.pyval :=
  [ ("primary_intent", RouterTypes.PStr "risk_assessment");
    ("entities", RouterTypes.PList [RouterTypes.PStr "emerging markets"]);
    ("confidence", RouterTypes.PFloat (Fin (Q2Qc (9 # 10)))) ].

(** The response of the router, where it answers. *)
Definition answer_of (r : result RouterTypes.Response)
  : string * RouterTypes.Payload :=
  match r with
  | Ok (RouterTypes.Answer text data) => (text, data)
  | _ => ("", RouterTypes.DataEmpty)
  end.

(** A language model that is down, and one that hands back the intent of
    [Scenarios.numeric_entity_intent]. *)
Definition llm_down : Orchestrator.Llm :=
  {| Orchestrator.complete := fun _ => Raise (ProviderError "Connection error.") |}.
Definition llm_numeric : Orchestrator.Llm :=
  {| Orchestrator.complete := fun _ =>
       Ok (Orchestrator.JObject Scenarios.numeric_entity_intent) |}.

End Cases.

(* ===================================================================== *)
(** * Properties *)
(* ===================================================================== *)

(** ** Quote cache *)

Module QuoteCacheFacts.
Import APIAgent.
Section WithWorld.
Variable W : World.

Lemma get_stock_data_hit st ticker period interval data :
  cache st !! cache_key ticker period interval = Some data ->
  live W st (cache_key ticker period interval) = true ->
  get_stock_data W ticker period interval st = (Ok data, tick st).
Proof.
  unfold live, get_stock_data. intros Hc Hl. rewrite Hc in *.
  unfold bind, now. cbn. rewrite Hl. reflexivity.
Qed.

Lemma get_stock_data_miss st ticker period interval :
  live W st (cache_key ticker period interval) = false ->
  get_stock_data W ticker period interval st =
  fetch_and_cache W ticker period interval
    (at_fetch st (cache_key ticker period interval)).
Proof.
  unfold live, get_stock_data, at_fetch. intros Hl.
  destruct (cache st !! _) eqn:Hc; [|reflexivity].
  unfold bind, now. cbn. rewrite Hl. reflexivity.
Qed.

Lemma fetch_and_cache_ok st ticker period interval data :
  history W (length (upstream st)) ticker period interval = Ok data ->
  fetch_and_cache W ticker period interval st =
  (Ok data,
   {| cache := <[cache_key ticker period interval := data]> (cache st);
      cache_expiry :=
        <[cache_key ticker period interval :=
            clock W (ticks st) + cache_duration]> (cache_expiry st);
      ticks := S (ticks st);
      upstream := upstream st ++ [(ticker, period, interval)] |}).
Proof.
  intros H. unfold fetch_and_cache, catch, bind, yf_history, now, store, ret.
  cbn. rewrite H. reflexivity.
Qed.

Lemma fetch_and_cache_raise st ticker period interval e :
  history W (length (upstream st)) ticker period interval = Raise e ->
  fetch_and_cache W ticker period interval st =
  (Raise e,
   {| cache := cache st; cache_expiry := cache_expiry st;
      ticks := ticks st;
      upstream := upstream st ++ [(ticker, period, interval)] |}).
Proof.
  intros H. unfold fetch_and_cache, catch, bind, yf_history, raise.
  cbn. rewrite H. reflexivity.
Qed.

Lemma at_fetch_upstream st key : upstream (at_fetch st key) = upstream st.
Proof. unfold at_fetch. destruct (cache st !! key); reflexivity. Qed.

Lemma at_fetch_cache st key : cache (at_fetch st key) = cache st.
Proof. unfold at_fetch. destruct (cache st !! key); reflexivity. Qed.

Lemma at_fetch_expiry st key :
  cache_expiry (at_fetch st key) = cache_expiry st.
Proof. unfold at_fetch. destruct (cache st !! key); reflexivity. Qed.

Lemma get_multiple_stocks_loop_total tickers period :
  forall acc st, exists d st',
    get_multiple_stocks_loop W tickers period acc st = (Ok d, st').
Proof.
  induction tickers as [|t rest IH]; intros acc st; cbn.
  - eexists _, _. reflexivity.
  - unfold bind at 1. unfold catch at 1. unfold bind at 1.
    destruct (get_stock_data W t period "1h" st) as [[d|e] st1]; cbn;
      apply IH.
Qed.

End WithWorld.
End QuoteCacheFacts.

Module QuoteCacheClaims.
Import APIAgent QuoteCacheFacts Scenarios.




(** C3: after a first call that fetched [d1], a second call for the same
    key made less than [cache_duration] after the entry was stored
    returns [d1] and the two calls have issued exactly one upstream
    fetch; a call that finds the entry with its expiry in the past
    issues one more fetch and replaces the series and the expiry. *)
Theorem cache_one_fetch_until_expiry
    (W : World) (st st3 : State) (ticker period interval : string)
    (d1 d3 : DataFrame) :
  let key := cache_key ticker period interval in
  let call1 := get_stock_data W ticker period interval st in
  let stored_at := clock W (ticks (at_fetch st key)) in
  let call2 := get_stock_data W ticker period interval (snd call1) in
  let call3 := get_stock_data W ticker period interval st3 in
  forall
    (Hfirst : live W st key = false)
    (Hok1 : history W (length (upstream st)) ticker period interval = Ok d1)
    (Hwithin : clock W (ticks (snd call1)) - stored_at < cache_duration)
    (Hentry : cache st3 !! key = Some d1)
    (Hexpiry : cache_expiry st3 !! key = Some (stored_at + cache_duration))
    (Hlate : stored_at + cache_duration < clock W (ticks st3))
    (Hok3 : history W (length (upstream st3)) ticker period interval
            = Ok d3),
    fst call1 = Ok d1 /\
    cache_expiry (snd call1) !! key = Some (stored_at + cache_duration) /\
    fst call2 = Ok d1 /\
    upstream (snd call2) = (upstream st ++ [(ticker, period, interval)])%list /\
    cache (snd call2) = cache (snd call1) /\
    fst call3 = Ok d3 /\
    upstream (snd call3)
      = (upstream st3 ++ [(ticker, period, interval)])%list /\
    cache (snd call3) !! key = Some d3 /\
    cache_expiry (snd call3) !! key
      = Some (clock W (S (ticks st3)) + cache_duration).
Proof.
  intros key call1 stored_at call2 call3
    Hfirst Hok1 Hwithin Hentry Hexpiry Hlate Hok3.
  assert (E1 : call1 = fetch_and_cache W ticker period interval
                         (at_fetch st key))
    by (apply get_stock_data_miss; exact Hfirst).
  rewrite (fetch_and_cache_ok W _ _ _ _ d1) in E1
    by (rewrite at_fetch_upstream; exact Hok1).
  assert (Hc1 : cache (snd call1) !! key = Some d1)
    by (rewrite E1; cbn; apply lookup_insert_eq).
  assert (He1 : cache_expiry (snd call1) !! key
                = Some (stored_at + cache_duration))
    by (rewrite E1; cbn; apply lookup_insert_eq).
  assert (E2 : call2 = (Ok d1, tick (snd call1))).
  { apply get_stock_data_hit; [exact Hc1|].
    unfold live. fold key. rewrite Hc1, He1. cbn. apply Z.ltb_lt. lia. }
  assert (E3 : call3 = fetch_and_cache W ticker period interval
                         (at_fetch st3 key)).
  { apply get_stock_data_miss. unfold live. fold key.
    rewrite Hentry, Hexpiry. cbn. apply Z.ltb_ge. lia. }
  rewrite (fetch_and_cache_ok W _ _ _ _ d3) in E3
    by (rewrite at_fetch_upstream; exact Hok3).
  assert (Ht3 : ticks (at_fetch st3 key) = S (ticks st3))
    by (unfold at_fetch; rewrite Hentry; reflexivity).
  rewrite E2, E3. rewrite E1 at 1. cbn. fold key.
  rewrite at_fetch_upstream, Ht3.
  repeat split.
  - exact He1.
  - rewrite E1. cbn. rewrite at_fetch_upstream. reflexivity.
  - apply lookup_insert_eq.
  - apply lookup_insert_eq.
Qed.

Lemma cache_one_fetch_until_expiry_witness :
  let call1 := get_stock_data steady "TSM" "1d" "1h" init in
  let call2 := get_stock_data steady "TSM" "1d" "1h" (snd call1) in
  let call3 := get_stock_data steady "TSM" "1d" "1h" (snd call2) in
  fst call2 = fst call1 /\
  upstream (snd call2) = [("TSM", "1d", "1h")] /\
  upstream (snd call3) = [("TSM", "1d", "1h"); ("TSM", "1d", "1h")] /\
  fst call3 = Ok {| Close := [(Stamp 0, of_Z 1)] |}.
Proof.
  pose proof (cache_one_fetch_until_expiry steady init
    (snd (get_stock_data steady "TSM" "1d" "1h"
           (snd (get_stock_data steady "TSM" "1d" "1h" init))))
    "TSM" "1d" "1h"
    {| Close := [(Stamp 0, of_Z 0)] |}
    {| Close := [(Stamp 0, of_Z 1)] |}) as H.
  cbn zeta in H.
  specialize (H eq_refl eq_refl eq_refl eq_refl eq_refl eq_refl eq_refl).
  destruct H as (H1 & _ & H2 & H3 & _ & H4 & H5 & _).
  cbn zeta. split; [|split; [|split]].
  - rewrite H2, H1. reflexivity.
  - exact H3.
  - rewrite H5. reflexivity.
  - exact H4.
Defined.

End QuoteCacheClaims.

(** ** Intent classifier *)

Module IntentFacts.
Import PyStr LanguageService.

Lemma count_skip_absent sub s :
  contains sub s = false -> forall skip, count_skip sub s skip = 0%nat.
Proof.
  induction s as [|c s IH]; intros H skip; [reflexivity|].
  cbn in H. apply orb_false_iff in H as [Hp Hc].
  cbn [count_skip]. destruct skip as [|k]; [|apply IH, Hc].
  rewrite Hp. apply IH, Hc.
Qed.

Lemma count_absent s sub : contains sub s = false -> count s sub = 0%nat.
Proof.
  destruct sub as [|c sub]; [destruct s; discriminate|].
  intros H. unfold count. apply count_skip_absent, H.
Qed.

(** The membership guard of the loop is subsumed by the comparison. *)
Lemma score_step_count lq a m kw it :
  score_step lq (a, m) (kw, it) =
  if (m <? count lq kw)%nat then (it, count lq kw) else (a, m).
Proof.
  unfold score_step. cbn [snd].
  destruct (contains kw lq) eqn:Hc; [reflexivity|].
  rewrite (count_absent _ _ Hc). reflexivity.
Qed.

(** The loop returns the first entry of the table whose keyword count is
    maximal and above the initial bound, if there is one. *)
Lemma score_fold_first_best lq (l : dict string) :
  forall a m,
    let r := fold_left (score_step lq) l (a, m) in
    (r = (a, m) /\
     forall kw it, In (kw, it) l -> (count lq kw <= m)%nat) \/
    (exists i kw,
        l !! i = Some (kw, fst r) /\ snd r = count lq kw /\
        (m < count lq kw)%nat /\
        forall j kw' it', l !! j = Some (kw', it') ->
          (count lq kw' <= count lq kw)%nat /\
          ((j < i)%nat -> (count lq kw' < count lq kw)%nat)).
Proof.
  induction l as [|[kw it] l IH]; intros a m; cbn zeta.
  - left. split; [reflexivity|]. intros ? ? [].
  - cbn [fold_left]. rewrite score_step_count.
    destruct (m <? count lq kw)%nat eqn:Hlt.
    + apply Nat.ltb_lt in Hlt. right.
      destruct (IH it (count lq kw))
        as [[-> Hall]|(i & kw1 & Hi & Hs & Hm & Hj)].
      * exists 0%nat, kw. cbn [fst snd].
        split; [reflexivity|]. split; [reflexivity|]. split; [exact Hlt|].
        intros j kw' it' H. split; [|lia].
        destruct j as [|j]; cbn in H; [injection H as <- _; lia|].
        apply (Hall kw' it'). apply list_elem_of_In.
        eapply list_elem_of_lookup_2, H.
      * exists (S i), kw1.
        split; [exact Hi|]. split; [exact Hs|]. split; [lia|].
        intros j kw' it' H.
        destruct j as [|j]; cbn in H; [injection H as <- _; lia|].
        destruct (Hj j kw' it' H) as [H1 H2]. split; [exact H1|].
        intros Hji. apply H2. lia.
    + apply Nat.ltb_ge in Hlt.
      destruct (IH a m) as [[-> Hall]|(i & kw1 & Hi & Hs & Hm & Hj)].
      * left. split; [reflexivity|]. intros kw' it' [E|Hin].
        -- injection E as <- _. exact Hlt.
        -- apply (Hall kw' it' Hin).
      * right. exists (S i), kw1.
        split; [exact Hi|]. split; [exact Hs|]. split; [exact Hm|].
        intros j kw' it' H.
        destruct j as [|j]; cbn in H; [injection H as <- _; lia|].
        destruct (Hj j kw' it' H) as [H1 H2]. split; [exact H1|].
        intros Hji. apply H2. lia.
Qed.

End IntentFacts.

Module IntentClaims.
Import PyStr LanguageService IntentFacts.

(** C9, as stated, fails: in "stock price earnings market market" the
    keywords of stock_specific occur three times and those of market_info
    twice, yet the classifier answers market_info, because "market" alone
    occurs twice and no single keyword occurs more often. *)
Lemma keyword_totals_do_not_decide :
  let q := "stock price earnings market market" in
  intent_score intents (lower q) "stock_specific" = 3%nat /\
  intent_score intents (lower q) "market_info" = 2%nat /\
  spec_primary_intent intents (lower q) = "stock_specific" /\
  primary_intent (analyze_query_intent q) = "market_info".
Proof. vm_compute. repeat split. Qed.

(** C9, amended: the classifier returns "unknown" when no registered
    keyword occurs in the lower-cased query; otherwise it returns the
    intent of the single keyword with the most non-overlapping occurrences
    there, the earliest-registered one among keywords of equal count. *)
Theorem primary_intent_first_best_keyword (query : string) :
  let q := lower query in
  let r := primary_intent (analyze_query_intent query) in
  (r = "unknown" /\
   forall kw it, In (kw, it) intents -> count q kw = 0%nat) \/
  (exists i kw,
      intents !! i = Some (kw, r) /\ (0 < count q kw)%nat /\
      forall j kw' it', intents !! j = Some (kw', it') ->
        (count q kw' <= count q kw)%nat /\
        ((j < i)%nat -> (count q kw' < count q kw)%nat)).
Proof.
  cbn zeta. cbn [analyze_query_intent primary_intent]. unfold score_loop.
  destruct (score_fold_first_best (lower query) intents "unknown" 0%nat)
    as [[E Hall]|(i & kw & Hi & _ & Hm & Hj)].
  - left. rewrite E. split; [reflexivity|].
    intros kw it Hin. specialize (Hall kw it Hin). lia.
  - right. exists i, kw. auto.
Qed.

End IntentClaims.

(** ** Order on floats *)

Module FloatFacts.

Lemma fleb_le x y : fleb x y = true <-> le x y.
Proof.
  unfold fleb, fltb, feqb, Qc_ltb, Qc_eqb.
  destruct x as [a| | |], y as [b| | |]; cbn; try tauto; try (split; [discriminate|tauto]).
  rewrite orb_true_iff, !bool_decide_eq_true. split.
  - intros [H| ->]; [apply Qclt_le_weak, H|apply Qcle_refl].
  - intros H. destruct (Qc_dec a b) as [[Hlt|Hgt]|Heq]; auto.
    exfalso. eapply Qclt_not_le; eassumption.
Qed.

Lemma fltb_le x y : fltb x y = true -> le x y.
Proof. intros H. apply fleb_le. unfold fleb. rewrite H. reflexivity. Qed.

Lemma not_fltb_le x y :
  is_nan x = false -> is_nan y = false -> fltb x y = false -> le y x.
Proof.
  unfold fltb, Qc_ltb.
  destruct x as [a| | |], y as [b| | |]; cbn; try tauto; try discriminate.
  intros _ _ H. apply bool_decide_eq_false in H. apply Qcnot_lt_le, H.
Qed.

Lemma le_trans x y z : le x y -> le y z -> le x z.
Proof.
  destruct x as [a| | |], y as [b| | |], z as [c| | |]; cbn; try tauto.
  apply Qcle_trans.
Qed.

Lemma le_refl x : is_nan x = false -> le x x.
Proof. destruct x; cbn; try tauto; try discriminate. intros _. apply Qcle_refl. Qed.

Lemma le_not_nan x y : le x y -> is_nan x = false /\ is_nan y = false.
Proof. destruct x, y; cbn; tauto. Qed.

End FloatFacts.

(** ** Drawdown *)

Module DrawdownFacts.
Import PandasOps Analytics FloatFacts.

Lemma min_skipna_In vs :
  is_nan (min_skipna vs) = false -> In (min_skipna vs) vs.
Proof.
  induction vs as [|x vs IH]; cbn; [discriminate|].
  destruct (is_nan x) eqn:Hx; [intros H; right; apply IH, H|].
  destruct (is_nan (min_skipna vs)) eqn:Hm; [intros _; left; reflexivity|].
  destruct (fltb (min_skipna vs) x); intros _; [right; apply IH|left]; reflexivity.
Qed.

Lemma min_skipna_le vs x :
  In x vs -> is_nan x = false -> le (min_skipna vs) x.
Proof.
  induction vs as [|y vs IH]; cbn; [tauto|].
  intros [->|Hin] Hx.
  - rewrite Hx. destruct (is_nan (min_skipna vs)) eqn:Hm; [apply le_refl, Hx|].
    destruct (fltb (min_skipna vs) x) eqn:Hlt;
      [apply fltb_le, Hlt|apply le_refl, Hx].
  - specialize (IH Hin Hx).
    destruct (le_not_nan _ _ IH) as [Hm _].
    destruct (is_nan y) eqn:Hy; [exact IH|]. rewrite Hm.
    destruct (fltb (min_skipna vs) y) eqn:Hlt; [exact IH|].
    eapply le_trans; [|exact IH]. apply not_fltb_le; assumption.
Qed.

Lemma dd_from_cons cur l x s :
  dd_from cur ((l, x) :: s) =
  if is_nan x then NaN :: dd_from cur s
  else dd_entry x (next_max cur x) :: dd_from (next_max cur x) s.
Proof.
  unfold dd_from. cbn [cummax_from]. fold (next_max cur x).
  destruct (is_nan x) eqn:Hx; [|reflexivity].
  destruct x; try discriminate. reflexivity.
Qed.

Lemma hundred_pos : (0 < Q2Qc (inject_Z 100))%Qc.
Proof. reflexivity. Qed.

Lemma dd_entry_self q : q <> 0%Qc -> dd_entry (Fin q) (Fin q) = zero.
Proof.
  intros Hq. unfold dd_entry, fdiv, Qc_eqb.
  rewrite bool_decide_eq_false_2 by exact Hq.
  cbn. unfold zero. f_equal.
  change (Q2Qc (inject_Z 1)) with 1%Qc.
  generalize (Q2Qc (inject_Z 100)). intros h. field. exact Hq.
Qed.

Lemma dd_entry_below a c :
  (0 < c)%Qc -> (a <= c)%Qc -> le (dd_entry (Fin a) (Fin c)) zero.
Proof.
  intros Hc Hac. unfold dd_entry, fdiv, Qc_eqb.
  rewrite bool_decide_eq_false_2 by (intros ->; apply (Qclt_not_eq _ _ Hc); reflexivity).
  cbn. change (Q2Qc (inject_Z 1)) with 1%Qc.
  assert (H1 : (a / c <= 1)%Qc).
  { unfold Qcdiv. rewrite <- (Qcmult_inv_r c)
      by (intros ->; apply (Qclt_not_eq _ _ Hc); reflexivity).
    apply Qcmult_le_mono_nonneg_r; [apply Qclt_le_weak, Qcinv_pos, Hc|exact Hac]. }
  assert (H2 : (a / c + - 1 <= 0)%Qc).
  { apply Qcle_minus_iff. apply Qcle_minus_iff in H1.
    replace (0 + - (a / c + - 1))%Qc with (1 + - (a / c))%Qc by ring.
    exact H1. }
  rewrite <- (Qcmult_0_l (Q2Qc (inject_Z 100))).
  apply Qcmult_le_mono_nonneg_r; [apply Qclt_le_weak, hundred_pos|exact H2].
Qed.

Lemma sgn_neg a : (a < 0)%Qc -> sgn a = -1.
Proof.
  unfold Qclt, Qlt, sgn. change (this 0%Qc) with 0%Q. cbn.
  intros H. apply Z.sgn_neg. lia.
Qed.

Lemma sgn_pos a : (0 < a)%Qc -> sgn a = 1.
Proof.
  unfold Qclt, Qlt, sgn. change (this 0%Qc) with 0%Q. cbn.
  intros H. apply Z.sgn_pos. lia.
Qed.

Lemma dd_entry_own_max a :
  le (dd_entry (Fin a) (Fin a)) zero \/
  (is_nan (dd_entry (Fin a) (Fin a)) = true /\ ~ negfin (Fin a)).
Proof.
  destruct (decide (a = 0%Qc)) as [->|Hne].
  - right. split; [reflexivity|]. cbn. intros H. revert H. apply Qcle_not_lt, Qcle_refl.
  - left. rewrite dd_entry_self by exact Hne. apply Qcle_refl.
Qed.

Lemma dd_step cur x :
  is_nan x = false ->
  negfin cur \/
  le (dd_entry x (next_max cur x)) zero \/
  (is_nan (dd_entry x (next_max cur x)) = true /\ ~ negfin (next_max cur x)).
Proof.
  intros Hx. destruct x as [a| | |]; try discriminate; clear Hx.
  - (* a finite price *)
    destruct cur as [c| | |]; unfold next_max; cbn [is_nan fltb].
    + unfold Qc_ltb. case_bool_decide as Hlt.
      * right. apply dd_entry_own_max.
      * apply Qcnot_lt_le in Hlt.
        destruct (Qc_dec c 0%Qc) as [[Hc|Hc]|Hc].
        -- left. exact Hc.
        -- right. left. apply dd_entry_below; assumption.
        -- subst c. right.
           destruct (Qcle_lt_or_eq _ _ Hlt) as [Ha| ->].
           ++ left. unfold dd_entry, fdiv. cbn. rewrite (sgn_neg a Ha). exact I.
           ++ right. split; [reflexivity|]. cbn. apply Qcle_not_lt, Qcle_refl.
    + right. left. apply fleb_le. reflexivity.
    + right. apply dd_entry_own_max.
    + right. apply dd_entry_own_max.
  - (* +inf *)
    right. right.
    destruct cur as [c| | |]; unfold next_max; cbn; split; auto.
  - (* -inf *)
    destruct cur as [c| | |]; unfold next_max; cbn [is_nan fltb].
    + destruct (Qc_dec c 0%Qc) as [[Hc|Hc]|Hc].
      * left. exact Hc.
      * right. left. unfold dd_entry, fdiv, Qc_eqb.
        rewrite bool_decide_eq_false_2
          by (intros ->; apply (Qclt_not_eq _ _ Hc); reflexivity).
        cbn [fsign]. rewrite (sgn_pos c Hc). exact I.
      * subst c. right. left. exact I.
    + right. right. split; [reflexivity|]. cbn. tauto.
    + right. right. split; [reflexivity|]. cbn. tauto.
    + right. right. split; [reflexivity|]. cbn. tauto.
Qed.

Lemma dd_from_nonpos_entry s :
  forall cur,
    negfin cur \/
    (forall d, In d (dd_from cur s) -> is_nan d = true) \/
    (exists z, In z (dd_from cur s) /\ le z zero).
Proof.
  induction s as [|[l x] s IH]; intros cur.
  - right. left. intros d [].
  - rewrite dd_from_cons. destruct (is_nan x) eqn:Hx.
    + destruct (IH cur) as [H|[H|(z & Hz & Hle)]].
      * left. exact H.
      * right. left. intros d [<-|Hin]; [reflexivity|apply H, Hin].
      * right. right. exists z. split; [right; exact Hz|exact Hle].
    + destruct (dd_step cur x Hx) as [H|[H|[Hnan Hneg]]].
      * left. exact H.
      * right. right. eexists. split; [left; reflexivity|exact H].
      * destruct (IH (next_max cur x)) as [H|[H|(z & Hz & Hle)]].
        -- contradiction.
        -- right. left. intros d [<-|Hin]; [exact Hnan|apply H, Hin].
        -- right. right. exists z. split; [right; exact Hz|exact Hle].
Qed.

Lemma drawdown_series_values prices :
  values (drawdown_series prices) = dd_from NaN prices.
Proof. reflexivity. Qed.

(** A drawdown series with any value at all has a minimum at or below
    zero. *)
Lemma drawdown_min_nonpos prices :
  is_nan (min_skipna (values (drawdown_series prices))) = false ->
  le (min_skipna (values (drawdown_series prices))) zero.
Proof.
  rewrite drawdown_series_values. intros Hm.
  destruct (dd_from_nonpos_entry prices NaN) as [[]|[H|(z & Hz & Hle)]].
  - pose proof (H _ (min_skipna_In _ Hm)) as Hn. congruence.
  - eapply le_trans; [|exact Hle].
    apply min_skipna_le; [exact Hz|]. apply (le_not_nan _ _ Hle).
Qed.

Lemma idx_of_ok R extreme what s k :
  idx_of R extreme what s = Ok k ->
  k = None \/ is_nan (extreme (values s)) = false.
Proof.
  unfold idx_of. destruct s as [|row s]; [discriminate|].
  destruct (is_nan (extreme _)) eqn:Hm; [|auto].
  destruct (all_na_raises R); [discriminate|].
  intros [= <-]. auto.
Qed.

Lemma calculate_drawdown_body_ok R prices d :
  calculate_drawdown_body R prices = Ok d ->
  max_drawdown d = min_skipna (values (drawdown_series prices)) /\
  is_nan (min_skipna (values (drawdown_series prices))) = false.
Proof.
  unfold calculate_drawdown_body, idxmin.
  destruct (idx_of R min_skipna "argmin" (drawdown_series prices))
    as [k|e] eqn:Hk; [|discriminate].
  cbn [rbind]. destruct (idx_of_ok _ _ _ _ _ Hk) as [->|Hm];
    [discriminate|].
  destruct (iloc_to k prices) as [before|e]; [|discriminate]. cbn [rbind].
  destruct (idxmax R before) as [peak|e]; [|discriminate]. cbn [rbind].
  intros [= <-]. split; [reflexivity|exact Hm].
Qed.

Lemma first_label_dated v s k :
  dated s -> first_label v s = Some k -> exists t, k = Stamp t.
Proof.
  unfold first_label.
  induction 1 as [|[l x] s Hl Hs IH]; simpl; [discriminate|].
  destruct (feqb x v); [|exact IH].
  simpl. intros [= <-]. destruct l; [eauto|destruct Hl].
Qed.

Lemma dated_drawdown_series s : dated s -> dated (drawdown_series s).
Proof.
  intros Hd. unfold drawdown_series, cummax. generalize NaN.
  induction Hd as [|[l x] s Hl Hs IH]; intros cur; [constructor|].
  cbn [cummax_from]. destruct (is_nan x); cbn; constructor; auto; apply IH.
Qed.

(** On a series indexed by dates, as every frame of the provider is, the
    positional slice up to the date of the trough raises, so the result
    is the failure default. *)
Lemma calculate_drawdown_on_dates R prices :
  dated prices ->
  calculate_drawdown R prices = {| max_drawdown := Fin 0%Qc; duration := 0 |}.
Proof.
  intros Hd. unfold calculate_drawdown, calculate_drawdown_body, idxmin.
  destruct (idx_of R min_skipna "argmin" (drawdown_series prices))
    as [k|e] eqn:Hk; [|reflexivity].
  cbn [rbind]. destruct k as [k|]; [|reflexivity].
  assert (Hs : exists t, k = Stamp t).
  { unfold idx_of in Hk. destruct (drawdown_series prices) eqn:Hs;
      [discriminate|]. rewrite <- Hs in Hk.
    destruct (is_nan _); [destruct (all_na_raises R); discriminate|].
    injection Hk as Hk.
    apply (first_label_dated _ _ _ (dated_drawdown_series _ Hd) Hk). }
  destruct Hs as [t ->]. reflexivity.
Qed.

End DrawdownFacts.

Module DrawdownClaims.
Import PandasOps Analytics FloatFacts DrawdownFacts.


End DrawdownClaims.

(** ** Risk exposure *)

Module RiskFacts.
Import APIAgent APIReports RiskExposure.

Lemma dict_set_In {V} (d : dict V) k v k' v' :
  In (k', v') (dict_set d k v) -> (k' = k /\ v' = v) \/ In (k', v') d.
Proof.
  induction d as [|[k0 v0] d IH]; cbn.
  - intros [[= <- <-]|[]]. auto.
  - destruct (String.eqb k0 k) eqn:Hk.
    + apply String.eqb_eq in Hk as ->.
      intros [[= <- <-]|Hin]; auto.
    + intros [E|Hin]; [auto|]. destruct (IH Hin); auto.
Qed.

Section WithWorld.
Variable W : World.

Lemma read_earnings_sourced t d :
  In t asia_tech_stocks -> calendar W t = Ok true ->
  sourced W d -> sourced W (read_earnings W t d).
Proof.
  intros Ht Hc Hd. unfold read_earnings.
  destruct (earnings W t) as [[row|]|e] eqn:He; try exact Hd.
  intros t' s' Hin. apply dict_set_In in Hin as [[-> ->]|Hin].
  - split; [exact Ht|]. split; [exact Hc|]. exists row. auto.
  - apply Hd, Hin.
Qed.

Lemma asia_tech_step_sourced t acc st acc' st' :
  In t asia_tech_stocks -> sourced W (snd acc) ->
  asia_tech_step W t acc st = (Ok acc', st') -> sourced W (snd acc').
Proof.
  intros Ht Hd. destruct acc as [sd su]. unfold asia_tech_step.
  destruct (get_stock_data W t "5d" "1h" st) as [[data|e] st1].
  - destruct (calendar W t) as [[|]|e] eqn:Hc; intros [= <- _]; cbn;
      try exact Hd.
    apply read_earnings_sourced; assumption.
  - intros [= <- _]. exact Hd.
Qed.

Lemma asia_tech_loop_sourced tickers :
  forall acc st acc' st',
    (forall t, In t tickers -> In t asia_tech_stocks) ->
    sourced W (snd acc) ->
    asia_tech_loop W tickers acc st = (Ok acc', st') ->
    sourced W (snd acc').
Proof.
  induction tickers as [|t rest IH]; intros acc st acc' st' Hsub Hd; cbn.
  - intros [= <- _]. exact Hd.
  - unfold bind.
    destruct (asia_tech_step W t acc st) as [[acc1|e] st1] eqn:Hs;
      [|discriminate].
    apply IH.
    + intros t' Ht'. apply Hsub. right. exact Ht'.
    + eapply asia_tech_step_sourced; [|exact Hd|exact Hs].
      apply Hsub. left. reflexivity.
Qed.

End WithWorld.

Lemma significant_fold (l : dict Surprise) :
  forall acc name v,
    In (name, v) (fold_left significant_step l acc) ->
    In (name, v) acc \/
    exists t s, In (t, s) l /\ significant t s name v.
Proof.
  induction l as [|[t s] l IH]; intros acc name v; cbn [fold_left].
  - auto.
  - intros Hin. apply IH in Hin as [Hin|(t' & s' & Hin & Hs)].
    + unfold significant_step in Hin.
      destruct (fgtb (estimate s) (of_Z 0)) eqn:He; [|auto].
      destruct (fgtb (fabs (surprise_percent s)) (of_Z 1)) eqn:Ha; [|auto].
      apply dict_set_In in Hin as [[-> ->]|Hin]; [|auto].
      right. exists t, s. split; [left; reflexivity|].
      repeat split; assumption.
    + right. exists t', s'. split; [right; exact Hin|exact Hs].
Qed.

Lemma get_asia_tech_exposure_surprises W st a st' :
  get_asia_tech_exposure W st = (Ok a, st') ->
  forall name v, In (name, v) (APIReports.earnings_surprises a) ->
    exists t row,
      In t asia_tech_stocks /\ calendar W t = Ok true /\
      earnings W t = Ok (Some row) /\
      significant t (surprise_of_row row) name v.
Proof.
  unfold get_asia_tech_exposure, bind.
  destruct (asia_tech_loop W asia_tech_stocks ([], []) st)
    as [[[sd su]|e] st1] eqn:Hl; [|discriminate].
  intros [= <- _] name v Hin. cbn in Hin.
  apply significant_fold in Hin as [[]|(t & s & Hin & Hs)].
  assert (Hsrc : sourced W su).
  { apply (asia_tech_loop_sourced W _ _ _ _ _ (fun _ H => H)) in Hl;
      [exact Hl|]. intros ? ? []. }
  destruct (Hsrc t s Hin) as (Ht & Hc & row & He & ->).
  exists t, row. auto.
Qed.

Section WithEngine.
Variable W : World.
Variable E : Engine.

(** The inline threshold chain is the specification's table. *)
Lemma chain_is_classify (avg : fnum) :
  (if fgtb avg (of_Z 30) then "Very High"
   else if fgtb avg (of_Z 20) then "High"
   else if fgtb avg (of_Z 15) then "Moderate to High"
   else if fgtb avg (of_Z 10) then "Moderate"
   else "Low") = classify avg.
Proof.
  unfold classify, risk_thresholds. cbn [find fst snd].
  repeat (destruct (fgtb avg _); [reflexivity|]). reflexivity.
Qed.

Lemma exposure_body_ok region sector tickers st r st' :
  exposure_body W E region sector tickers st = (Ok r, st') ->
  risk_level r = classify (volatility (average_metrics r)) /\
  exists st0 a,
    get_asia_tech_exposure W st0 = (Ok a, st') /\
    earnings_surprises r = APIReports.earnings_surprises a /\
    sentiment r = (if String.eqb region "Asia"
                   then Some (APIReports.sentiment a) else None).
Proof.
  unfold exposure_body, bind.
  destruct (fetch_loop W tickers [] st) as [[sd|e] st1]; [|discriminate].
  destruct (get_stock_data W "^GSPC" "1mo" "1d" st1) as [[md|e] st2];
    [|discriminate].
  destruct (fold_left (metrics_step E md) sd ([], [], [], []))
    as [[[ms vs] bs] vrs].
  destruct (get_asia_tech_exposure W st2) as [[a|e] st3] eqn:Ha;
    [|discriminate].
  intros [= <- <-]. cbn [risk_level average_metrics volatility
                         earnings_surprises sentiment].
  split; [apply chain_is_classify|].
  exists st2, a. auto.
Qed.

Lemma analyze_risk_exposure_report region sector st r st' :
  analyze_risk_exposure W E region sector st = (Report r, st') ->
  exists tickers,
    exposure_body W E region sector tickers st = (Ok r, st').
Proof.
  unfold analyze_risk_exposure.
  destruct (dict_get region_mapping region) as [by_sector|]; [|discriminate].
  destruct (truthy sector && _); [discriminate|].
  match goal with
  | |- context [exposure_body W E region sector ?ts st] =>
      destruct (exposure_body W E region sector ts st) as [[r0|e] st0] eqn:Hb
  end; [|discriminate].
  intros [= <- <-]. eexists. exact Hb.
Qed.

End WithEngine.
End RiskFacts.

Module RiskClaims.
Import APIAgent APIReports RiskExposure RiskFacts Scenarios.

(** C6: the risk_level of every report produced by analyze_risk_exposure
    is the label the threshold table assigns to the report's average
    volatility (above 30 Very High, above 20 High, above 15 Moderate to
    High, above 10 Moderate, otherwise Low); the averages 35, 25, 17, 12
    and 5 get the five labels in that order. *)
Theorem risk_level_by_thresholds
    (W : World) (E : Engine) (region : string) (sector : option string)
    (st st' : State) (r : ExposureReport)
    (Hrun : analyze_risk_exposure W E region sector st = (Report r, st')) :
  risk_level r = classify (volatility (average_metrics r)) /\
  map classify [of_Z 35; of_Z 25; of_Z 17; of_Z 12; of_Z 5]
  = ["Very High"; "High"; "Moderate to High"; "Moderate"; "Low"].
Proof.
  split; [|reflexivity].
  destruct (analyze_risk_exposure_report W E _ _ _ _ _ Hrun) as [ts Hb].
  apply (exposure_body_ok W E _ _ _ _ _ _ Hb).
Qed.

Lemma risk_level_by_thresholds_witness :
  let run := analyze_risk_exposure trading plain_engine "Europe"
               (Some "Finance") init in
  let r := report_of (fst run) in
  fst run = Report r /\
  risk_level r = classify (volatility (average_metrics r)) /\
  risk_level r = "Very High".
Proof.
  cbn zeta.
  set (run := analyze_risk_exposure trading plain_engine "Europe"
                (Some "Finance") init).
  assert (Hrun : run = (Report (report_of (fst run)), snd run))
    by (vm_compute; reflexivity).
  destruct (risk_level_by_thresholds trading plain_engine _ _ _ _ _ Hrun)
    as [Hr _].
  split; [vm_compute; reflexivity|]. split; [exact Hr|].
  vm_compute. reflexivity.
Defined.




(** C10: whatever region and sector were requested, the earnings
    surprises of a report are those of one get_asia_tech_exposure run,
    and so is the sentiment, which is present exactly for region Asia;
    every reported surprise stems from a ticker of the fixed Asia tech
    list, whose estimate is strictly positive and whose percentage
    surprise exceeds 1.0 in absolute value. *)
Theorem surprises_from_asia_tech
    (W : World) (E : Engine) (region : string) (sector : option string)
    (st st' : State) (r : ExposureReport)
    (Hrun : analyze_risk_exposure W E region sector st = (Report r, st')) :
  exists st0 a,
    get_asia_tech_exposure W st0 = (Ok a, st') /\
    earnings_surprises r = APIReports.earnings_surprises a /\
    sentiment r = (if String.eqb region "Asia"
                   then Some (APIReports.sentiment a) else None) /\
    forall name v, In (name, v) (earnings_surprises r) ->
      exists t row,
        In t asia_tech_stocks /\ calendar W t = Ok true /\
        earnings W t = Ok (Some row) /\
        significant t (surprise_of_row row) name v.
Proof.
  destruct (analyze_risk_exposure_report W E _ _ _ _ _ Hrun) as [ts Hb].
  destruct (exposure_body_ok W E _ _ _ _ _ _ Hb)
    as (_ & st0 & a & Ha & Hs & Hm).
  exists st0, a. repeat split; try assumption.
  intros name v Hin. rewrite Hs in Hin.
  apply (get_asia_tech_exposure_surprises W _ _ _ Ha name v Hin).
Qed.

Lemma surprises_from_asia_tech_witness :
  let run := analyze_risk_exposure trading plain_engine "Europe"
               (Some "Finance") init in
  let r := report_of (fst run) in
  fst run = Report r /\
  tickers r = ["HSBA.L"; "BNP.PA"; "SAN.MC"; "BBVA.MC"; "DBK.DE"] /\
  map fst (earnings_surprises r) = ["TSM"] /\
  sentiment r = None /\
  exists st0 a,
    get_asia_tech_exposure trading st0 = (Ok a, snd run) /\
    earnings_surprises r = APIReports.earnings_surprises a.
Proof.
  cbn zeta.
  set (run := analyze_risk_exposure trading plain_engine "Europe"
                (Some "Finance") init).
  assert (Hrun : run = (Report (report_of (fst run)), snd run))
    by (vm_compute; reflexivity).
  destruct (surprises_from_asia_tech trading plain_engine _ _ _ _ _ Hrun)
    as (st0 & a & Ha & Hs & _).
  split; [vm_compute; reflexivity|].
  split; [vm_compute; reflexivity|].
  split; [vm_compute; reflexivity|].
  split; [vm_compute; reflexivity|].
  exists st0, a. split; assumption.
Defined.

End RiskClaims.

(** ** Portfolio analysis *)

Module PortfolioFacts.
Import APIAgent PandasOps Stats PortfolioAnalysis.

Lemma fold_plus_div (S : Qc) (l : list Qc) :
  forall a, fold_left Qcplus (map (fun w => (w / S)%Qc) l) (a / S)%Qc
            = (fold_left Qcplus l a / S)%Qc.
Proof.
  induction l as [|w l IH]; intros a; cbn [map fold_left]; [reflexivity|].
  rewrite <- IH. f_equal. unfold Qcdiv. ring.
Qed.

Lemma qsum_map_div (S : Qc) (l : list Qc) :
  qsum (map (fun w => (w / S)%Qc) l) = (qsum l / S)%Qc.
Proof.
  unfold qsum. rewrite <- fold_plus_div. f_equal. unfold Qcdiv. ring.
Qed.

Lemma normalize_ok ws ws' :
  normalize ws = Ok ws' -> ws <> [] ->
  ws' = map (fun w => (w / qsum ws)%Qc) ws /\ qsum ws' = 1%Qc.
Proof.
  unfold normalize. destruct ws as [|w ws]; [congruence|].
  unfold Qc_eqb. case_bool_decide as Hs; [discriminate|].
  intros [= <-] _. split; [reflexivity|].
  etransitivity; [apply (qsum_map_div (qsum (w :: ws)) (w :: ws))|].
  unfold Qcdiv. apply Qcmult_inv_r, Hs.
Qed.

Lemma Qc_of_nat_S n : Qc_of_nat (S n) = (Qc_of_nat n + 1)%Qc.
Proof.
  apply Qc_is_canon. unfold Qc_of_nat, Qcplus, Q2Qc. cbn [this].
  rewrite !Qred_correct. unfold Qeq, Qplus, inject_Z. cbn [Qnum Qden]. lia.
Qed.

Lemma Qc_of_nat_pos n : (0 < Qc_of_nat (S n))%Qc.
Proof.
  unfold Qclt, Qc_of_nat, Q2Qc. cbn [this].
  rewrite !Qred_correct. unfold Qlt, inject_Z. cbn [Qnum Qden]. lia.
Qed.

Lemma fold_plus_const {A} (c : Qc) (l : list A) :
  forall a, fold_left Qcplus (map (fun _ => c) l) a
            = (a + Qc_of_nat (length l) * c)%Qc.
Proof.
  induction l as [|x l IH]; intros a; cbn [map fold_left length].
  - change (Qc_of_nat 0) with 0%Qc. ring.
  - rewrite IH, Qc_of_nat_S. ring.
Qed.

Lemma equal_weights_sum tickers :
  tickers <> [] -> qsum (equal_weights tickers) = 1%Qc.
Proof.
  intros Hne. unfold qsum, equal_weights. rewrite fold_plus_const.
  destruct tickers as [|t ts]; [congruence|].
  rewrite Qcplus_0_l. unfold Qcdiv. rewrite Qcmult_1_l.
  apply Qcmult_inv_r. apply not_eq_sym, Qclt_not_eq, Qc_of_nat_pos.
Qed.

Lemma equal_weights_normalized tickers :
  tickers <> [] -> normalize (equal_weights tickers) = Ok (equal_weights tickers).
Proof.
  intros Hne. unfold normalize.
  destruct (equal_weights tickers) as [|w ws] eqn:Hw.
  - destruct tickers; [congruence|discriminate].
  - rewrite <- Hw, (equal_weights_sum _ Hne).
    unfold Qc_eqb. rewrite bool_decide_eq_false_2 by discriminate.
    f_equal. rewrite <- (map_id (equal_weights tickers)) at 2.
    apply map_ext. intros w0. unfold Qcdiv.
    change (/ 1)%Qc with 1%Qc. apply Qcmult_1_r.
Qed.

Section WithEngine.
Variable W : World.
Variable E : Engine.
Variable R : Release.

Lemma aggregate_weights tickers ws rd ind pm :
  aggregate E R tickers ws rd ind = Ok pm -> weights pm = ws.
Proof.
  unfold aggregate. destruct (dict_values rd); [discriminate|].
  intros [= <-]. reflexivity.
Qed.

Lemma analyze_portfolio_weights tickers supplied st pm st' :
  analyze_portfolio W E R tickers supplied st = (Metrics pm, st') ->
  normalize (match supplied with
             | None => equal_weights tickers
             | Some ws => ws
             end) = Ok (weights pm).
Proof.
  unfold analyze_portfolio, analyze_portfolio_body, bind, APIReports.lift.
  destruct (normalize _) as [ws|e]; [|discriminate].
  destruct (get_stock_data W "^GSPC" "1y" "1d" st) as [[md|e] st1];
    [|discriminate].
  destruct (asset_loop W E R md tickers ([], []) st1) as [[acc|e] st2];
    [|discriminate].
  destruct (aggregate E R tickers ws (fst acc) (snd acc)) as [pm'|e] eqn:Ha;
    [|discriminate].
  intros [= <- _]. f_equal. symmetry. apply (aggregate_weights _ _ _ _ _ Ha).
Qed.

End WithEngine.
End PortfolioFacts.

Module BlendFacts.
Import APIAgent PandasOps Stats PortfolioAnalysis PortfolioFacts.

Lemma dropna_not_nan s : Forall not_nan (dropna s).
Proof.
  apply Forall_forall. intros row Hin. unfold dropna in Hin.
  apply list_elem_of_filter in Hin. apply Hin.
Qed.

Lemma half_twice : (half + half = 1)%Qc.
Proof. apply Qc_is_canon. reflexivity. Qed.

Lemma blend_value x :
  is_nan x = false ->
  fill_add (fill_add (Fin 0%Qc) (fmul x (Fin half))) (fmul x (Fin half)) = x.
Proof.
  destruct x as [q| | |]; try discriminate; intros _; [|reflexivity..].
  unfold fill_add, fmul, fadd. cbn [is_nan andb]. f_equal.
  rewrite Qcplus_0_l, <- Qcmult_plus_distr_r, half_twice. apply Qcmult_1_r.
Qed.

Lemma index_constant_like c s : index (constant_like c s) = index s.
Proof. unfold index, constant_like. rewrite map_map. reflexivity. Qed.

Lemma index_scalar op s c : index (scalar op s c) = index s.
Proof.
  unfold index, scalar. rewrite map_map. apply map_ext. intros [l x].
  reflexivity.
Qed.

Lemma index_add_rows a :
  forall b, index a = index b -> index (add_rows a b) = index a.
Proof.
  induction a as [|[l x] a IH]; intros [|[l' y] b]; cbn; try congruence.
  intros [= _ H]. f_equal. apply IH, H.
Qed.

Lemma series_add_same a b :
  index a = index b -> series_add a b = add_rows a b.
Proof. intros H. unfold series_add. rewrite decide_True by exact H. reflexivity. Qed.

Lemma blend_rows s :
  Forall not_nan s ->
  add_rows (add_rows (constant_like (Fin 0%Qc) s) (scalar fmul s (Fin half)))
           (scalar fmul s (Fin half)) = s.
Proof.
  induction 1 as [|[l x] s Hx Hs IH]; [reflexivity|].
  cbn [constant_like scalar map add_rows fst].
  rewrite (blend_value x Hx). f_equal. apply IH.
Qed.

(** Two equal series blended half and half give the series back. *)
Lemma blend_identical s :
  Forall not_nan s ->
  fold_left (blend_step [("AAA", s); ("BBB", s)])
            [("AAA", half); ("BBB", half)] (constant_like (Fin 0%Qc) s) = s.
Proof.
  intros Hs. cbn [fold_left]. unfold blend_step. cbn [fst snd dict_get].
  change (String.eqb "AAA" "AAA") with true.
  change (String.eqb "AAA" "BBB") with false.
  change (String.eqb "BBB" "BBB") with true. cbn iota.
  assert (H1 : index (constant_like (Fin 0%Qc) s)
               = index (scalar fmul s (Fin half)))
    by (rewrite index_constant_like, index_scalar; reflexivity).
  rewrite (series_add_same _ _ H1).
  rewrite series_add_same
    by (rewrite (index_add_rows _ _ H1), index_constant_like, index_scalar;
        reflexivity).
  apply blend_rows, Hs.
Qed.

Lemma paired_rows_self s : paired_rows s s = twice (finite_values s).
Proof.
  induction s as [|[l x] s IH]; [reflexivity|].
  cbn [paired_rows]. unfold finite_values, twice in *. cbn [values map omap].
  destruct x; cbn; rewrite IH; reflexivity.
Qed.

Lemma paired_self s : paired s s = twice (finite_values s).
Proof.
  unfold paired. rewrite decide_True by reflexivity. apply paired_rows_self.
Qed.

Lemma map_fst_twice l : map fst (twice l) = l.
Proof. unfold twice. rewrite map_map. apply map_id. Qed.

Lemma map_snd_twice l : map snd (twice l) = l.
Proof. unfold twice. rewrite map_map. apply map_id. Qed.

Lemma square_nonneg (a : Qc) : (0 <= a * a)%Qc.
Proof.
  destruct (Qclt_le_dec a 0) as [Hneg|Hpos].
  - replace (a * a)%Qc with ((- a) * (- a))%Qc by ring.
    assert (0 <= - a)%Qc.
    { apply Qclt_le_weak in Hneg. apply Qcopp_le_compat in Hneg.
      exact Hneg. }
    apply Qcmult_nonneg_nonneg; assumption.
  - apply Qcmult_nonneg_nonneg; assumption.
Qed.

Lemma fold_plus_nonneg l :
  Forall (fun x : Qc => (0 <= x)%Qc) l ->
  forall a, (0 <= a)%Qc -> (0 <= fold_left Qcplus l a)%Qc.
Proof.
  induction 1 as [|x l Hx Hl IH]; intros a Ha; cbn [fold_left]; [exact Ha|].
  apply IH. apply Qcplus_nonneg_nonneg; assumption.
Qed.

Lemma codeviation_twice l :
  codeviation (twice l)
  = qsum (map (fun x : Qc => ((x - qmean l) * (x - qmean l))%Qc) l).
Proof.
  unfold codeviation. rewrite map_fst_twice, map_snd_twice.
  unfold twice. rewrite map_map. reflexivity.
Qed.

Lemma codeviation_twice_nonneg l : (0 <= codeviation (twice l))%Qc.
Proof.
  rewrite codeviation_twice. unfold qsum. apply fold_plus_nonneg.
  - apply Forall_forall. intros y Hy. apply list_elem_of_In in Hy.
    apply in_map_iff in Hy as (x & <- & _). apply square_nonneg.
  - apply Qcle_refl.
Qed.

Section WithEngine.
Variable E : Engine.
Hypothesis Hsqrt : exact_on_squares E.

(** A series correlates perfectly with itself, unless its finite values
    are all equal (or absent): then the correlation is undefined. *)
Lemma corr_self s :
  corr E s s = if Qc_eqb (spread s) 0%Qc then NaN else Fin 1%Qc.
Proof.
  unfold corr, spread. rewrite paired_self.
  destruct (finite_values s) as [|x fs]; [reflexivity|].
  change (twice (x :: fs)) with ((x, x) :: twice fs) at 1.
  cbv iota beta zeta.
  change ((x, x) :: twice fs) with (twice (x :: fs)).
  rewrite map_fst_twice, map_snd_twice.
  set (v := codeviation (twice (x :: fs))).
  rewrite (Hsqrt v) by apply codeviation_twice_nonneg.
  unfold Qc_eqb. case_bool_decide as Hv; [reflexivity|].
  f_equal. unfold Qcdiv. apply Qcmult_inv_r, Hv.
Qed.

Lemma fround_one : APIReports.fround 2 (Fin 1%Qc) = Fin 1%Qc.
Proof. unfold APIReports.fround. f_equal. apply Qc_is_canon. reflexivity. Qed.

Lemma correlation_entry_identical s :
  entry (correlation_dict E [("AAA", s); ("BBB", s)]) "AAA" "BBB"
  = Some (if Qc_eqb (spread s) 0%Qc then NaN else Fin 1%Qc).
Proof.
  unfold entry, correlation_dict. cbn [map fst snd dict_get].
  change (String.eqb "AAA" "AAA") with true. cbn [mbind option_bind dict_get].
  change (String.eqb "AAA" "BBB") with false.
  change (String.eqb "BBB" "BBB") with true. cbn iota.
  rewrite corr_self. destruct (Qc_eqb (spread s) 0%Qc); [reflexivity|].
  rewrite fround_one. reflexivity.
Qed.

End WithEngine.

Lemma normalize_halves : normalize [half; half] = Ok [half; half].
Proof.
  assert (Hs : qsum [half; half] = 1%Qc) by (apply Qc_is_canon; reflexivity).
  unfold normalize. rewrite Hs. unfold Qc_eqb.
  rewrite bool_decide_eq_false_2 by apply Q_apart_0_1.
  cbn [map]. unfold Qcdiv. change (/ 1)%Qc with 1%Qc.
  rewrite Qcmult_1_r. reflexivity.
Qed.

End BlendFacts.

Module ScenarioFacts.
Import Scenarios.

Lemma pos_sqrt_square d : Pos.sqrt (d * d) = d.
Proof.
  assert (H : Z.sqrt (Zpos d * Zpos d) = Zpos d) by (apply Z.sqrt_square; lia).
  cbn in H. injection H as H. exact H.
Qed.

Lemma csqrt_square (x : Qc) : (0 <= x)%Qc -> csqrt (x * x) = x.
Proof.
  intros Hx. destruct x as [[n d] Hc].
  assert (Hn : 0 <= n).
  { unfold Qcle, Qle in Hx. change (this 0%Qc) with 0%Q in Hx.
    cbn in Hx. lia. }
  assert (Hg : Z.gcd n (Zpos d) = 1) by (apply (Qred_identity2 _ Hc)).
  assert (Hg2 : Z.gcd (n * n) (Zpos (d * d)) = 1).
  { rewrite Pos2Z.inj_mul.
    apply Z.coprime_mul_l; apply Z.coprime_mul_r; exact Hg. }
  apply Qc_is_canon. unfold csqrt, Qcmult, Q2Qc. cbn [this].
  assert (Hr : Qred ((n # d) * (n # d)) = (n * n # d * d)%Q).
  { apply Qred_identity. exact Hg2. }
  rewrite Hr. cbn [Qnum Qden].
  rewrite Z.sqrt_square by exact Hn. rewrite pos_sqrt_square.
  apply Qred_correct.
Qed.

Lemma plain_engine_exact : PortfolioAnalysis.exact_on_squares plain_engine.
Proof. intros x Hx. apply csqrt_square, Hx. Qed.

End ScenarioFacts.

Module PortfolioClaims.
Import APIAgent PandasOps Stats PortfolioAnalysis PortfolioFacts BlendFacts.
Import Scenarios ScenarioFacts.






End PortfolioClaims.

(** ** Router *)

Module RouterFacts.
Import RouterTypes.

(** The earlier router answers every query: a raise of the dispatch is
    turned into the degraded response that records the error. *)
Lemma draft_route_query_catches
    (S : Services) (H : RouterDraft.Handlers) (query : string)
    (intent : dict pyval) (st : State) :
  exists r st',
    RouterDraft.route_query S H query intent st = (Ok r, st') /\
    forall e st1,
      RouterDraft.dispatch H query intent st = (Raise e, st1) ->
      r = Degraded (generate_response S query None) "language_agent" (str e)
      /\ st' = st1.
Proof.
  unfold RouterDraft.route_query, catch.
  destruct (RouterDraft.dispatch H query intent st) as [[r|e] st1].
  - exists r, st1. split; [reflexivity|]. intros e st2 [=].
  - eexists _, _. split; [reflexivity|].
    intros e' st2 [= <- <-]. split; reflexivity.
Qed.

(** The later router has no handler of its own: what its dispatch
    raises, it raises. *)
Lemma route_query_risk_assessment
    (W : World) (E : Engine) (S : Services) (query : string)
    (intent : dict pyval) (context : list ContextItem) (st : State) :
  retrieve S query = Ok context ->
  dict_get intent "primary_intent" = Some (PStr "risk_assessment") ->
  Router.route_query W E S query intent st
  = Router._handle_risk_assessment W E S query
      (default (PList []) (dict_get intent "entities")) context st.
Proof.
  intros Hr Hi. unfold Router.route_query, bind, APIReports.lift.
  rewrite Hr, Hi. reflexivity.
Qed.

End RouterFacts.

Module RouterClaims.
Import RouterTypes RouterFacts Scenarios.

(** C1 on the router in force: with a risk_assessment intent whose
    entity list holds the number 42, the handler's [entity.lower()]
    raises AttributeError, and route_query hands it to its caller
    instead of returning a response dictionary. *)
Theorem route_query_propagates_handler_error :
  fst (Router.route_query trading plain_engine quiet
         "How risky is our Asia exposure?" numeric_entity_intent init)
  = Raise (AttributeError "'int' object has no attribute 'lower'").
Proof. vm_compute. reflexivity. Qed.

End RouterClaims.

(* ===================================================================== *)
(** * Further properties of the code *)
(* ===================================================================== *)

(** ** Insertion-ordered dictionaries *)

Module DictFacts.

Lemma dict_get_set_eq {V} (d : dict V) k v :
  dict_get (dict_set d k v) k = Some v.
Proof.
  induction d as [|[k0 v0] d IH]; cbn.
  - rewrite String.eqb_refl. reflexivity.
  - destruct (String.eqb k0 k) eqn:Hk; cbn; rewrite Hk; [reflexivity|exact IH].
Qed.

Lemma dict_get_set_ne {V} (d : dict V) k v k' :
  k <> k' -> dict_get (dict_set d k v) k' = dict_get d k'.
Proof.
  intros Hne. induction d as [|[k0 v0] d IH]; cbn.
  - destruct (String.eqb k k') eqn:Hk; [|reflexivity].
    apply String.eqb_eq in Hk. contradiction.
  - destruct (String.eqb k0 k) eqn:Hk; cbn.
    + apply String.eqb_eq in Hk as ->.
      destruct (String.eqb k k') eqn:Hk'; [|reflexivity].
      apply String.eqb_eq in Hk'. contradiction.
    + rewrite IH. reflexivity.
Qed.

Lemma dict_get_In {V} (d : dict V) k v :
  dict_get d k = Some v -> In (k, v) d.
Proof.
  induction d as [|[k0 v0] d IH]; cbn; [discriminate|].
  destruct (String.eqb k0 k) eqn:Hk.
  - apply String.eqb_eq in Hk as ->. intros [= <-]. left. reflexivity.
  - intros H. right. apply IH, H.
Qed.

Lemma In_dict_get {V} (d : dict V) k v :
  In (k, v) d -> is_Some (dict_get d k).
Proof.
  induction d as [|[k0 v0] d IH]; cbn; [tauto|].
  intros [[= -> ->]|Hin].
  - rewrite String.eqb_refl. eauto.
  - destruct (String.eqb k0 k); [eauto|apply IH, Hin].
Qed.

(** Keys stay distinct under assignment. *)
Lemma dict_set_keys_In {V} (d : dict V) k v k' :
  In k' (map fst (dict_set d k v)) <-> k' = k \/ In k' (map fst d).
Proof.
  induction d as [|[k0 v0] d IH]; cbn.
  - intuition congruence.
  - destruct (String.eqb k0 k) eqn:Hk; cbn.
    + apply String.eqb_eq in Hk as ->. intuition congruence.
    + rewrite IH. intuition congruence.
Qed.

Lemma dict_set_NoDup {V} (d : dict V) k v :
  NoDup (map fst d) -> NoDup (map fst (dict_set d k v)).
Proof.
  induction d as [|[k0 v0] d IH]; cbn; intros Hd.
  - constructor; [apply not_elem_of_nil|constructor].
  - apply NoDup_cons in Hd as [Hk0 Hd].
    destruct (String.eqb k0 k) eqn:Hk; cbn.
    + apply NoDup_cons. split; assumption.
    + apply NoDup_cons. split; [|apply IH, Hd].
      rewrite list_elem_of_In, dict_set_keys_In.
      intros [->|Hin].
      * rewrite String.eqb_refl in Hk. discriminate.
      * apply Hk0. apply list_elem_of_In, Hin.
Qed.

End DictFacts.

(** ** Quote cache, continued *)

Module QuoteCacheExtras.
Import APIAgent QuoteCacheFacts DictFacts Scenarios.

(** X1: the cache key is the three arguments joined by underscores, so two
    different requests may share it: once one of them has been fetched,
    the other is answered from the cache with the first one's series for
    as long as the entry lives. *)
Theorem colliding_key_served
    (W : World) (st : State) (t p i t' p' i' : string) (d : DataFrame)
    (Hkey : cache_key t p i = cache_key t' p' i')
    (Hmiss : live W st (cache_key t p i) = false)
    (Hok : history W (length (upstream st)) t p i = Ok d)
    (Hsoon : clock W (ticks (snd (get_stock_data W t p i st)))
             < clock W (ticks (at_fetch st (cache_key t p i)))
               + cache_duration) :
  get_stock_data W t' p' i' (snd (get_stock_data W t p i st))
  = (Ok d, tick (snd (get_stock_data W t p i st))).
Proof.
  assert (E : get_stock_data W t p i st
              = fetch_and_cache W t p i (at_fetch st (cache_key t p i)))
    by (apply get_stock_data_miss; exact Hmiss).
  rewrite (fetch_and_cache_ok W _ _ _ _ d) in E
    by (rewrite at_fetch_upstream; exact Hok).
  rewrite E in *. cbn [snd ticks] in *.
  apply get_stock_data_hit.
  - rewrite <- Hkey. cbn [cache]. apply lookup_insert_eq.
  - unfold live. rewrite <- Hkey. cbn [cache cache_expiry ticks].
    rewrite !lookup_insert_eq. cbn. apply Z.ltb_lt. exact Hsoon.
Qed.

Lemma colliding_key_served_witness :
  let first := get_stock_data steady "A_B" "1d" "1h" init in
  ("A_B", "1d") <> ("A", "B_1d") /\
  fst (get_stock_data steady "A" "B_1d" "1h" (snd first)) = fst first /\
  upstream (snd (get_stock_data steady "A" "B_1d" "1h" (snd first)))
  = [("A_B", "1d", "1h")].
Proof.
  cbn zeta.
  pose proof (colliding_key_served steady init "A_B" "1d" "1h"
                "A" "B_1d" "1h" {| Close := [(Stamp 0, of_Z 0)] |}
                eq_refl eq_refl eq_refl eq_refl) as H.
  split; [discriminate|]. rewrite H. split; reflexivity.
Defined.

(** X2: every cached key has an expiry and every expiry a cached series: a
    lookup keeps the two maps over the same keys, so the default expiry
    of the membership test is never what decides a hit. *)
Theorem cache_maps_share_keys
    (W : World) (st : State) (t p i : string)
    (Hdom : dom (cache st) = dom (cache_expiry st)) :
  dom (cache (snd (get_stock_data W t p i st)))
  = dom (cache_expiry (snd (get_stock_data W t p i st))).
Proof.
  destruct (live W st (cache_key t p i)) eqn:Hl.
  - unfold live in Hl. destruct (cache st !! cache_key t p i) eqn:Hc;
      [|discriminate].
    rewrite (get_stock_data_hit W _ _ _ _ _ Hc)
      by (unfold live; rewrite Hc; exact Hl).
    exact Hdom.
  - rewrite get_stock_data_miss by exact Hl.
    destruct (history W (length (upstream (at_fetch st (cache_key t p i))))
                t p i) as [d|e] eqn:Hh.
    + rewrite (fetch_and_cache_ok W _ _ _ _ d Hh). cbn [snd cache cache_expiry].
      rewrite !dom_insert_L, at_fetch_cache, at_fetch_expiry, Hdom.
      reflexivity.
    + rewrite (fetch_and_cache_raise W _ _ _ _ e Hh). cbn [snd cache cache_expiry].
      rewrite at_fetch_cache, at_fetch_expiry. exact Hdom.
Qed.

Lemma cache_maps_share_keys_witness :
  dom (cache (snd (get_stock_data steady "TSM" "1d" "1h" init)))
  = dom (cache_expiry (snd (get_stock_data steady "TSM" "1d" "1h" init))).
Proof.
  apply (cache_maps_share_keys steady init "TSM" "1d" "1h"). reflexivity.
Defined.

(** X3: a series handed back is never stale: either no fetch was issued and
    it is the cached series of an entry that has not expired, or exactly
    one fetch was issued and it is the provider's fresh answer, now
    cached. *)
Theorem returned_series_is_live_or_fresh
    (W : World) (st st' : State) (t p i : string) (d : DataFrame)
    (Hrun : get_stock_data W t p i st = (Ok d, st')) :
  (upstream st' = upstream st /\
   live W st (cache_key t p i) = true /\
   cache st !! cache_key t p i = Some d) \/
  (upstream st' = (upstream st ++ [(t, p, i)])%list /\
   live W st (cache_key t p i) = false /\
   history W (length (upstream st)) t p i = Ok d /\
   cache st' !! cache_key t p i = Some d).
Proof.
  destruct (live W st (cache_key t p i)) eqn:Hl.
  - left. unfold live in Hl.
    destruct (cache st !! cache_key t p i) as [d0|] eqn:Hc; [|discriminate].
    rewrite (get_stock_data_hit W _ _ _ _ _ Hc) in Hrun
      by (unfold live; rewrite Hc; exact Hl).
    injection Hrun as <- <-. auto.
  - right. rewrite get_stock_data_miss in Hrun by exact Hl.
    destruct (history W (length (upstream (at_fetch st (cache_key t p i))))
                t p i) as [d0|e] eqn:Hh.
    + rewrite (fetch_and_cache_ok W _ _ _ _ d0 Hh) in Hrun.
      injection Hrun as <- <-. cbn [upstream cache].
      rewrite at_fetch_upstream in *.
      repeat split; try assumption. apply lookup_insert_eq.
    + rewrite (fetch_and_cache_raise W _ _ _ _ e Hh) in Hrun. discriminate.
Qed.

Lemma returned_series_is_live_or_fresh_witness :
  let run := get_stock_data steady "TSM" "1d" "1h" init in
  upstream (snd run) = [("TSM", "1d", "1h")] /\
  cache (snd run) !! cache_key "TSM" "1d" "1h"
  = Some {| Close := [(Stamp 0, of_Z 0)] |}.
Proof.
  cbn zeta.
  destruct (returned_series_is_live_or_fresh steady init
              (snd (get_stock_data steady "TSM" "1d" "1h" init))
              "TSM" "1d" "1h" {| Close := [(Stamp 0, of_Z 0)] |} eq_refl)
    as [(_ & Hl & _)|(Hu & _ & _ & Hc)]; [discriminate|].
  split; [exact Hu|exact Hc].
Defined.

Lemma get_multiple_stocks_loop_keys (W : World) tickers period :
  forall acc st d st',
    get_multiple_stocks_loop W tickers period acc st = (Ok d, st') ->
    forall t, In t (map fst d) <-> In t tickers \/ In t (map fst acc).
Proof.
  induction tickers as [|t0 rest IH]; intros acc st d st' Hrun t; cbn in Hrun.
  - injection Hrun as <- _. cbn. tauto.
  - unfold bind at 1 in Hrun. unfold catch at 1 in Hrun.
    unfold bind at 1 in Hrun.
    destruct (get_stock_data W t0 period "1h" st) as [[d0|e] st1];
      cbn in Hrun; apply IH with (t := t) in Hrun;
      rewrite Hrun, dict_set_keys_In; cbn; intuition congruence.
Qed.

(** X4: get_multiple_stocks answers for exactly the tickers it was asked
    about, whatever the provider does: the result holds an entry (a
    series, or None after a failed lookup) under each requested ticker
    and under nothing else. *)
Theorem get_multiple_stocks_covers_request
    (W : World) (tickers : list string) (period : string) (st : State) :
  exists d,
    fst (get_multiple_stocks W tickers period st) = Ok d /\
    forall t, In t tickers <-> is_Some (dict_get d t).
Proof.
  unfold get_multiple_stocks.
  destruct (get_multiple_stocks_loop_total W tickers period [] st)
    as (d & st' & Hrun).
  exists d. rewrite Hrun. split; [reflexivity|]. intros t.
  pose proof (get_multiple_stocks_loop_keys W _ _ _ _ _ _ Hrun t) as Hk.
  cbn in Hk. split.
  - intros Hin. assert (Hd : In t (map fst d)) by (apply Hk; auto).
    apply in_map_iff in Hd as ([k v] & <- & Hin').
    apply (In_dict_get _ _ _ Hin').
  - intros [v Hv]. apply dict_get_In in Hv.
    assert (Hd : In t (map fst d))
      by (apply in_map_iff; exists (t, v); auto).
    apply Hk in Hd as [Hd|[]]. exact Hd.
Qed.

End QuoteCacheExtras.

(** ** Frames that flow through the cache *)

Module FrameFacts.
Import APIAgent QuoteCacheFacts CacheInvariants.

Section WithWorld.
Variable W : World.
Variable P : DataFrame -> Prop.
Hypothesis HW : world_all P W.

(** What holds of every frame of the provider and of the cache holds of
    every frame a lookup returns, and of the cache afterwards. *)
Lemma get_stock_data_all t p i st r st' :
  cache_all P st ->
  get_stock_data W t p i st = (r, st') ->
  cache_all P st' /\ forall d, r = Ok d -> P d.
Proof.
  intros Hc Hrun.
  destruct (live W st (cache_key t p i)) eqn:Hl.
  - unfold live in Hl.
    destruct (cache st !! cache_key t p i) as [d0|] eqn:Hk; [|discriminate].
    rewrite (get_stock_data_hit W _ _ _ _ _ Hk) in Hrun
      by (unfold live; rewrite Hk; exact Hl).
    injection Hrun as <- <-. split; [exact Hc|].
    intros d [= <-]. apply (Hc _ _ Hk).
  - rewrite get_stock_data_miss in Hrun by exact Hl.
    destruct (history W (length (upstream (at_fetch st (cache_key t p i))))
                t p i) as [d0|e] eqn:Hh.
    + rewrite (fetch_and_cache_ok W _ _ _ _ d0 Hh) in Hrun.
      injection Hrun as <- <-. split.
      * intros k d. cbn [cache]. rewrite at_fetch_cache.
        destruct (decide (cache_key t p i = k)) as [<-|Hne].
        -- rewrite lookup_insert_eq. intros [= <-]. apply (HW _ _ _ _ _ Hh).
        -- rewrite lookup_insert_ne by exact Hne. apply Hc.
      * intros d [= <-]. apply (HW _ _ _ _ _ Hh).
    + rewrite (fetch_and_cache_raise W _ _ _ _ e Hh) in Hrun.
      injection Hrun as <- <-. split; [|discriminate].
      intros k d. cbn [cache]. rewrite at_fetch_cache. apply Hc.
Qed.

End WithWorld.

(** With the provider down and nothing cached, every lookup raises and
    the cache stays empty. *)
Lemma get_stock_data_down W t p i st :
  provider_fails W -> cache st = ∅ ->
  exists e st', get_stock_data W t p i st = (Raise e, st') /\ cache st' = ∅.
Proof.
  intros Hdown Hc.
  assert (Hl : live W st (cache_key t p i) = false)
    by (unfold live; rewrite Hc, lookup_empty; reflexivity).
  rewrite get_stock_data_miss by exact Hl.
  destruct (Hdown (length (upstream (at_fetch st (cache_key t p i)))) t p i)
    as [e He].
  rewrite (fetch_and_cache_raise W _ _ _ _ e He).
  eexists _, _. split; [reflexivity|]. cbn [cache].
  rewrite at_fetch_cache. exact Hc.
Qed.

End FrameFacts.

(** ** Reports of the API agent *)

Module ReportExtras.
Import APIAgent APIReports CacheInvariants Ranks FrameFacts DictFacts.
Import FloatFacts Scenarios.

Lemma get_market_indices_loop_total W table :
  forall acc st, exists d st',
    get_market_indices_loop W table acc st = (Ok d, st').
Proof.
  induction table as [|[symbol name] rest IH]; intros acc st; cbn.
  - eexists _, _. reflexivity.
  - unfold bind at 1. unfold catch at 1. unfold bind at 1.
    destruct (get_stock_data W symbol "1d" "1d" st) as [[d|e] st1]; cbn.
    + destruct (empty d); cbn; apply IH.
    + apply IH.
Qed.

Lemma get_sector_performance_loop_total W table :
  forall acc st, exists d st',
    get_sector_performance_loop W table acc st = (Ok d, st').
Proof.
  induction table as [|[symbol name] rest IH]; intros acc st; cbn.
  - eexists _, _. reflexivity.
  - unfold bind at 1. unfold catch at 1. unfold bind at 1.
    destruct (get_stock_data W symbol "5d" "1h" st) as [[d|e] st1]; cbn.
    + destruct (empty d); cbn; apply IH.
    + apply IH.
Qed.

Lemma get_economic_indicators_loop_total W table :
  forall acc st, exists d st',
    get_economic_indicators_loop W table acc st = (Ok d, st').
Proof.
  induction table as [|[symbol name] rest IH]; intros acc st; cbn.
  - eexists _, _. reflexivity.
  - unfold bind at 1. unfold catch at 1. unfold bind at 1.
    destruct (get_stock_data W symbol "1d" "1h" st) as [[d|e] st1]; cbn.
    + destruct (empty d); cbn; apply IH.
    + apply IH.
Qed.

Lemma asia_tech_step_total W t acc st :
  exists acc' st', asia_tech_step W t acc st = (Ok acc', st').
Proof.
  destruct acc as [sd su]. unfold asia_tech_step.
  destruct (get_stock_data W t "5d" "1h" st) as [[d|e] st1].
  - destruct (calendar W t) as [[|]|e]; eexists _, _; reflexivity.
  - eexists _, _. reflexivity.
Qed.

Lemma asia_tech_loop_total W tickers :
  forall acc st, exists acc' st',
    asia_tech_loop W tickers acc st = (Ok acc', st').
Proof.
  induction tickers as [|t rest IH]; intros acc st; cbn.
  - eexists _, _. reflexivity.
  - unfold bind.
    destruct (asia_tech_step_total W t acc st) as (acc1 & st1 & ->).
    apply IH.
Qed.

Lemma get_asia_tech_exposure_total W st :
  exists a st', get_asia_tech_exposure W st = (Ok a, st').
Proof.
  unfold get_asia_tech_exposure, bind.
  destruct (asia_tech_loop_total W asia_tech_stocks ([], []) st)
    as ([sd su] & st1 & ->).
  eexists _, _. reflexivity.
Qed.

(** X5: no provider error escapes the reports of the API agent: the market
    indices, the sector performance, the economic indicators, the Asia
    tech exposure and the portfolio data are returned whatever the
    provider does. *)
Theorem api_reports_never_raise (W : World) (st : State) :
  is_ok (fst (get_market_indices W st)) = true /\
  is_ok (fst (get_sector_performance W st)) = true /\
  is_ok (fst (get_economic_indicators W st)) = true /\
  is_ok (fst (get_asia_tech_exposure W st)) = true /\
  is_ok (fst (get_portfolio_data W st)) = true.
Proof.
  repeat split.
  - unfold get_market_indices.
    destruct (get_market_indices_loop_total W indices [] st) as (d & s & ->).
    reflexivity.
  - unfold get_sector_performance.
    destruct (get_sector_performance_loop_total W sector_etfs [] st)
      as (d & s & ->).
    reflexivity.
  - unfold get_economic_indicators.
    destruct (get_economic_indicators_loop_total W indicators [] st)
      as (d & s & ->).
    reflexivity.
  - destruct (get_asia_tech_exposure_total W st) as (a & s & ->). reflexivity.
  - unfold get_portfolio_data, bind.
    destruct (get_asia_tech_exposure_total W st) as (a & s & ->). reflexivity.
Qed.

Section Indices.
Variable W : World.
Variable P : DataFrame -> Prop.
Variable Q : IndexQuote -> Prop.
Hypothesis HW : world_all P W.
Hypothesis Hquote : forall d, P d -> empty d = false ->
  Q {| price := last_close d;
       change_percent :=
         percent_over (last_close d)
           (if (1 <? rows d)%nat then prev_close d else last_close d);
       quote_error := None |}.
Hypothesis Hfail : forall e,
  Q {| price := of_Z 0; change_percent := of_Z 0;
       quote_error := Some (str e) |}.

(** The loop of [get_market_indices] keeps what holds of every frame and
    of every entry written so far. *)
Lemma get_market_indices_loop_inv table :
  forall acc st,
    cache_all P st ->
    (forall name q, In (name, q) acc -> Q q) ->
    exists d st',
      get_market_indices_loop W table acc st = (Ok d, st') /\
      cache_all P st' /\ forall name q, In (name, q) d -> Q q.
Proof.
  induction table as [|[symbol name] rest IH]; intros acc st Hc Hacc; cbn.
  - eexists _, _. repeat split; assumption.
  - unfold bind at 1. unfold catch at 1. unfold bind at 1.
    destruct (get_stock_data W symbol "1d" "1d" st) as [r st1] eqn:Hrun.
    destruct (get_stock_data_all W P HW _ _ _ _ _ _ Hc Hrun) as [Hc1 Hd].
    destruct r as [d|e]; cbn.
    + destruct (empty d) eqn:He; cbn.
      * apply IH; assumption.
      * apply IH; [assumption|].
        intros n q Hin. apply RiskFacts.dict_set_In in Hin as [[_ ->]|Hin].
        -- apply Hquote; [apply Hd; reflexivity|exact He].
        -- apply (Hacc _ _ Hin).
    + apply IH; [assumption|].
      intros n q Hin. apply RiskFacts.dict_set_In in Hin as [[_ ->]|Hin].
      * apply Hfail.
      * apply (Hacc _ _ Hin).
Qed.

End Indices.

Lemma percent_over_self (c : Qc) :
  c <> 0%Qc -> percent_over (Fin c) (Fin c) = Fin 0%Qc.
Proof.
  intros Hc. unfold percent_over, fsub, fadd, fneg, fdiv, fmul, of_Z, Qc_eqb.
  rewrite bool_decide_eq_false_2 by exact Hc.
  f_equal. field. exact Hc.
Qed.

(** X6: the index report asks for one day at a daily interval.  When every
    frame it gets holds that one row (with a finite close other than
    zero), every index of the report shows a change of zero, because the
    last row is then compared with itself. *)
Theorem one_row_index_shows_no_change (W : World) (st : State)
    (HW : world_all single_quote W) (Hc : cache_all single_quote st) :
  exists d, fst (get_market_indices W st) = Ok d /\
    forall name q, In (name, q) d -> change_percent q = Fin 0%Qc.
Proof.
  destruct (get_market_indices_loop_inv W single_quote
              (fun q => change_percent q = Fin 0%Qc) HW) with
    (table := indices) (acc := @nil (string * IndexQuote)) (st := st)
    as (d & st' & Hrun & _ & Hd).
  - intros d (l & c & Hd & Hne) _. cbn.
    unfold rows, last_close, values. rewrite Hd. cbn.
    apply percent_over_self, Hne.
  - intros e. reflexivity.
  - exact Hc.
  - intros ? ? [].
  - exists d. unfold get_market_indices. rewrite Hrun. split; [reflexivity|].
    exact Hd.
Qed.

Lemma one_row_index_shows_no_change_witness :
  exists d, fst (get_market_indices Cases.one_row init) = Ok d /\
    forall name q, In (name, q) d -> change_percent q = Fin 0%Qc.
Proof.
  apply one_row_index_shows_no_change.
  - intros n t p i d. cbn. intros [= <-]. eexists _, _.
    split; [reflexivity|].
    intros H. apply (f_equal this) in H. vm_compute in H. discriminate.
  - intros k d. cbn. rewrite lookup_empty. discriminate.
Defined.

Lemma cache_all_empty P st : cache st = ∅ -> cache_all P st.
Proof. intros Hc k d. rewrite Hc, lookup_empty. discriminate. Qed.

Lemma provider_fails_world_all P W : provider_fails W -> world_all P W.
Proof.
  intros Hdown n t p i d Hd. destruct (Hdown n t p i) as [e He]. congruence.
Qed.

Lemma dict_set_fresh {V} (d : dict V) k v :
  ~ In k (map fst d) -> dict_set d k v = (d ++ [(k, v)])%list.
Proof.
  induction d as [|[k0 v0] d IH]; cbn; intros Hk; [reflexivity|].
  destruct (String.eqb k0 k) eqn:E.
  - apply String.eqb_eq in E. tauto.
  - rewrite IH by tauto. reflexivity.
Qed.

Section Down.
Variable W : World.
Hypothesis Hdown : provider_fails W.

Lemma get_sector_performance_loop_down table :
  forall acc st, cache st = ∅ ->
    exists st',
      get_sector_performance_loop W table acc st =
        (Ok (fold_left (fun acc e => dict_set acc (snd e) (of_Z 0)) table acc),
         st') /\ cache st' = ∅.
Proof.
  induction table as [|[symbol name] rest IH]; intros acc st Hc; cbn.
  - eexists. split; [reflexivity|exact Hc].
  - unfold bind at 1. unfold catch at 1. unfold bind at 1.
    destruct (get_stock_data_down W symbol "5d" "1h" st Hdown Hc)
      as (e & st1 & -> & Hc1).
    cbn. apply IH, Hc1.
Qed.

Lemma get_economic_indicators_loop_down table :
  forall acc st, cache st = ∅ ->
    exists st',
      get_economic_indicators_loop W table acc st =
        (Ok (fold_left (fun acc e => dict_set acc (snd e) (of_Z 0)) table acc),
         st') /\ cache st' = ∅.
Proof.
  induction table as [|[symbol name] rest IH]; intros acc st Hc; cbn.
  - eexists. split; [reflexivity|exact Hc].
  - unfold bind at 1. unfold catch at 1. unfold bind at 1.
    destruct (get_stock_data_down W symbol "1d" "1h" st Hdown Hc)
      as (e & st1 & -> & Hc1).
    cbn. apply IH, Hc1.
Qed.

Lemma get_market_indices_loop_down table :
  NoDup (map snd table) ->
  forall acc st, cache st = ∅ ->
    (forall name, In name (map snd table) -> ~ In name (map fst acc)) ->
    exists d st',
      get_market_indices_loop W table acc st = (Ok (acc ++ d)%list, st') /\
      Forall2 failed_index table d.
Proof.
  induction table as [|[symbol name] rest IH]; intros Hnd acc st Hc Hacc; cbn.
  - exists [], st. rewrite app_nil_r. split; [reflexivity|constructor].
  - unfold bind at 1. unfold catch at 1. unfold bind at 1.
    destruct (get_stock_data_down W symbol "1d" "1d" st Hdown Hc)
      as (e & st1 & -> & Hc1).
    cbn. cbn in Hnd. apply NoDup_cons in Hnd as [Hname Hnd].
    rewrite dict_set_fresh by (apply Hacc; left; reflexivity).
    destruct (IH Hnd (acc ++ [(name, {| price := of_Z 0;
                                        change_percent := of_Z 0;
                                        quote_error := Some (str e) |})])%list
                st1 Hc1) as (d & st2 & -> & Hd).
    + intros n Hn. rewrite map_app, in_app_iff. cbn.
      intros [Hin|[<-|[]]].
      * apply (Hacc n); [right; exact Hn|exact Hin].
      * apply Hname, list_elem_of_In, Hn.
    + eexists _, st2. rewrite <- app_assoc. split; [reflexivity|].
      constructor; [|exact Hd].
      repeat split. cbn. eauto.
Qed.

Lemma asia_tech_loop_down tickers :
  forall st, cache st = ∅ ->
    exists st',
      asia_tech_loop W tickers ([], []) st = (Ok ([], []), st') /\
      cache st' = ∅.
Proof.
  induction tickers as [|t rest IH]; intros st Hc; cbn.
  - eexists. split; [reflexivity|exact Hc].
  - unfold bind at 1. unfold asia_tech_step.
    destruct (get_stock_data_down W t "5d" "1h" st Hdown Hc)
      as (e & st1 & -> & Hc1).
    apply IH, Hc1.
Qed.

End Down.

(** X7: with the provider down and nothing cached, the sector report lists
    every sector and the indicator report every indicator with the value
    zero, and the index report lists every index with price zero, change
    zero and an error text: only the index report tells a failure from a
    flat reading. *)
Theorem failed_lookups_read_as_zero (W : World) (st : State)
    (Hdown : provider_fails W) (Hc : cache st = ∅) :
  fst (get_sector_performance W st) =
    Ok (map (fun row => (snd row, of_Z 0)) sector_etfs) /\
  fst (get_economic_indicators W st) =
    Ok (map (fun row => (snd row, of_Z 0)) indicators) /\
  exists d, fst (get_market_indices W st) = Ok d /\
            Forall2 failed_index indices d.
Proof.
  split; [|split].
  - unfold get_sector_performance.
    destruct (get_sector_performance_loop_down W Hdown sector_etfs [] st Hc)
      as (st' & -> & _).
    reflexivity.
  - unfold get_economic_indicators.
    destruct (get_economic_indicators_loop_down W Hdown indicators [] st Hc)
      as (st' & -> & _).
    reflexivity.
  - unfold get_market_indices.
    destruct (get_market_indices_loop_down W Hdown indices) with
      (acc := @nil (string * IndexQuote)) (st := st)
      as (d & st' & -> & Hd).
    + unfold indices. cbn. repeat (apply NoDup_cons; split;
        [rewrite list_elem_of_In; cbn; intuition discriminate|]).
      apply NoDup_nil. exact I.
    + exact Hc.
    + intros ? _ [].
    + exists d. split; [reflexivity|exact Hd].
Qed.

Lemma failed_lookups_read_as_zero_witness :
  fst (get_sector_performance provider_down init) =
    Ok (map (fun row => (snd row, of_Z 0)) sector_etfs) /\
  fst (get_economic_indicators provider_down init) =
    Ok (map (fun row => (snd row, of_Z 0)) indicators) /\
  exists d, fst (get_market_indices provider_down init) = Ok d /\
            Forall2 failed_index indices d.
Proof.
  apply failed_lookups_read_as_zero.
  - intros n t p i. eexists. reflexivity.
  - reflexivity.
Defined.

Lemma round_half_even_zero (q : Q) : Qnum q = 0 -> round_half_even q = 0.
Proof.
  intros Hq. unfold round_half_even. rewrite Hq. cbn.
  rewrite Z.div_0_l by discriminate. reflexivity.
Qed.

Lemma fround_zero digits : fround digits (of_Z 0) = Fin 0%Qc.
Proof.
  unfold fround, of_Z. f_equal. apply Qc_is_canon.
  change (this (Q2Qc (inject_Z 0))) with 0%Q.
  unfold Q2Qc at 1. cbn [this]. rewrite Qred_correct.
  rewrite round_half_even_zero by reflexivity.
  unfold Qdiv. apply Qmult_0_l.
Qed.

(** X8: the earnings lookup of a ticker sits behind its price lookup.  With
    the provider of prices down and nothing cached, the Asia tech report
    names no earnings surprise, whatever the earnings calendar holds, and
    reads neutral with an average change of zero. *)
Theorem price_failure_hides_earnings (W : World) (st : State)
    (Hdown : provider_fails W) (Hc : cache st = ∅) :
  exists a, fst (get_asia_tech_exposure W st) = Ok a /\
    earnings_surprises a = [] /\ sentiment a = "neutral" /\
    avg_price_change a = Fin 0%Qc.
Proof.
  unfold get_asia_tech_exposure, bind.
  destruct (asia_tech_loop_down W Hdown asia_tech_stocks st Hc)
    as (st' & -> & _).
  eexists. split; [reflexivity|]. cbn [earnings_surprises sentiment
    avg_price_change]. repeat split.
  apply (fround_zero 2).
Qed.

Lemma price_failure_hides_earnings_witness :
  exists a,
    fst (get_asia_tech_exposure Cases.prices_down init) = Ok a /\
    earnings_surprises a = [] /\ sentiment a = "neutral" /\
    avg_price_change a = Fin 0%Qc.
Proof.
  apply price_failure_hides_earnings.
  - intros n t p i. eexists. reflexivity.
  - reflexivity.
Defined.

Lemma fgtb_mono c x y : le x y -> fgtb x c = true -> fgtb y c = true.
Proof.
  unfold fgtb, fltb, Qc_ltb.
  destruct c as [q| | |], x as [a| | |], y as [b| | |]; cbn;
    try tauto; try discriminate.
  intros Hab Hq. apply bool_decide_eq_true in Hq.
  apply bool_decide_eq_true. eapply Qclt_le_trans; eassumption.
Qed.

(** X9: the sentiment label never moves against the average change: a larger
    average reads at least as bullish. *)
Theorem sentiment_follows_change (x y : fnum) (Hxy : le x y) :
  sentiment_rank (sentiment_of x) <= sentiment_rank (sentiment_of y).
Proof.
  unfold sentiment_of.
  destruct (fgtb x (of_Z 2)) eqn:E1.
  { rewrite (fgtb_mono _ _ _ Hxy E1). reflexivity. }
  destruct (fgtb x (Fin (Q2Qc (1 # 2)))) eqn:E2.
  { rewrite (fgtb_mono _ _ _ Hxy E2).
    destruct (fgtb y (of_Z 2)); cbn; lia. }
  destruct (fgtb x (Fin (Q2Qc (-1 # 2)))) eqn:E3.
  { rewrite (fgtb_mono _ _ _ Hxy E3).
    destruct (fgtb y (of_Z 2)), (fgtb y (Fin (Q2Qc (1 # 2)))); cbn; lia. }
  destruct (fgtb x (of_Z (-2))) eqn:E4.
  { rewrite (fgtb_mono _ _ _ Hxy E4).
    destruct (fgtb y (of_Z 2)), (fgtb y (Fin (Q2Qc (1 # 2)))),
      (fgtb y (Fin (Q2Qc (-1 # 2)))); cbn; lia. }
  destruct (fgtb y (of_Z 2)), (fgtb y (Fin (Q2Qc (1 # 2)))),
    (fgtb y (Fin (Q2Qc (-1 # 2)))), (fgtb y (of_Z (-2))); cbn; lia.
Qed.

Lemma sentiment_follows_change_witness :
  sentiment_rank (sentiment_of (of_Z (-1))) <=
  sentiment_rank (sentiment_of (of_Z 3)).
Proof.
  apply sentiment_follows_change.
  apply fltb_le. vm_compute. reflexivity.
Defined.

Lemma fadd_nan_l x : fadd NaN x = NaN.
Proof. destruct x; reflexivity. Qed.

Lemma fold_fadd_nan vs : fold_left fadd vs NaN = NaN.
Proof. induction vs as [|v vs IH]; cbn; [reflexivity|exact IH]. Qed.

Lemma fsum_nan vs : forall acc, In NaN vs -> fold_left fadd vs acc = NaN.
Proof.
  induction vs as [|v vs IH]; intros acc; cbn; [tauto|].
  intros [->|Hin].
  - replace (fadd acc NaN) with NaN by (destruct acc; reflexivity).
    apply fold_fadd_nan.
  - apply IH, Hin.
Qed.

(** X10: one stock whose change is not a number decides the whole region: the
    average is then not a number either, every comparison with it fails,
    and the sentiment falls through to bearish. *)
Theorem undefined_change_reads_bearish (W : World) (st st' : State)
    (stock_data : dict StockMove) (surprises : dict Surprise)
    (Hloop : asia_tech_loop W asia_tech_stocks ([], []) st =
               (Ok (stock_data, surprises), st'))
    (Hnan : exists t m, In (t, m) stock_data /\ percent_change m = NaN) :
  exists a, get_asia_tech_exposure W st = (Ok a, st') /\
    sentiment a = "bearish" /\ avg_price_change a = NaN.
Proof.
  unfold get_asia_tech_exposure, bind. rewrite Hloop.
  eexists. split; [reflexivity|].
  cbn [sentiment avg_price_change].
  destruct Hnan as (t & m & Hin & Hm).
  destruct stock_data as [|e rest] eqn:Hsd; [destruct Hin|].
  rewrite <- Hsd in *.
  assert (Hmean : fmean (map (fun e => percent_change (snd e)) stock_data)
                  = NaN).
  { unfold fmean, fsum. rewrite fsum_nan; [reflexivity|].
    rewrite <- Hm. apply (in_map (fun e => percent_change (snd e)) _ _ Hin). }
  rewrite Hmean. split; reflexivity.
Qed.

Lemma undefined_change_reads_bearish_witness :
  exists a,
    get_asia_tech_exposure Cases.one_gap init = (Ok a, snd Cases.gap_run) /\
    sentiment a = "bearish" /\ avg_price_change a = NaN.
Proof.
  assert (Hrun : asia_tech_loop Cases.one_gap asia_tech_stocks ([], []) init
                 = (Ok (Cases.gap_moves, Cases.gap_surprises),
                    snd Cases.gap_run)) by (vm_compute; reflexivity).
  assert (Hnan : exists t m,
             In (t, m) Cases.gap_moves /\ percent_change m = NaN).
  { vm_compute. eexists _, _. split; [left; reflexivity|reflexivity]. }
  exact (undefined_change_reads_bearish Cases.one_gap init
           (snd Cases.gap_run) Cases.gap_moves Cases.gap_surprises
           Hrun Hnan).
Defined.

Section Blank.
Variable W : World.
Hypothesis Hblank : provider_blank W.

Lemma provider_blank_world_all : world_all no_rows W.
Proof.
  intros n t p i d Hd. destruct (Hblank n t p i) as (d' & Hd' & He).
  unfold no_rows. congruence.
Qed.

Lemma get_stock_data_blank t p i st :
  cache_all no_rows st ->
  exists d st', get_stock_data W t p i st = (Ok d, st') /\
                empty d = true /\ cache_all no_rows st'.
Proof.
  intros Hc.
  destruct (get_stock_data W t p i st) as [r st'] eqn:Hrun.
  destruct (get_stock_data_all W no_rows provider_blank_world_all
              _ _ _ _ _ _ Hc Hrun) as [Hc' Hd].
  destruct r as [d|e].
  - exists d, st'. repeat split; [|exact Hc'].
    unfold empty. rewrite (Hd d eq_refl). reflexivity.
  - exfalso. revert Hrun.
    destruct (live W st (cache_key t p i)) eqn:Hl.
    + unfold live in Hl.
      destruct (cache st !! cache_key t p i) as [d0|] eqn:Hk; [|discriminate].
      rewrite (QuoteCacheFacts.get_stock_data_hit W _ _ _ _ _ Hk)
        by (unfold live; rewrite Hk; exact Hl).
      discriminate.
    + rewrite QuoteCacheFacts.get_stock_data_miss by exact Hl.
      destruct (Hblank (length (upstream (at_fetch st (cache_key t p i))))
                  t p i) as (d0 & Hd0 & _).
      rewrite (QuoteCacheFacts.fetch_and_cache_ok W _ _ _ _ d0 Hd0).
      discriminate.
Qed.

Lemma get_market_indices_loop_blank table :
  forall acc st, cache_all no_rows st ->
    exists st', get_market_indices_loop W table acc st = (Ok acc, st').
Proof.
  induction table as [|[symbol name] rest IH]; intros acc st Hc; cbn.
  - eexists. reflexivity.
  - unfold bind at 1. unfold catch at 1. unfold bind at 1.
    destruct (get_stock_data_blank symbol "1d" "1d" st Hc)
      as (d & st1 & -> & -> & Hc1).
    cbn. apply IH, Hc1.
Qed.

Lemma get_sector_performance_loop_blank table :
  forall acc st, cache_all no_rows st ->
    exists st', get_sector_performance_loop W table acc st = (Ok acc, st').
Proof.
  induction table as [|[symbol name] rest IH]; intros acc st Hc; cbn.
  - eexists. reflexivity.
  - unfold bind at 1. unfold catch at 1. unfold bind at 1.
    destruct (get_stock_data_blank symbol "5d" "1h" st Hc)
      as (d & st1 & -> & -> & Hc1).
    cbn. apply IH, Hc1.
Qed.

Lemma get_economic_indicators_loop_blank table :
  forall acc st, cache_all no_rows st ->
    exists st', get_economic_indicators_loop W table acc st = (Ok acc, st').
Proof.
  induction table as [|[symbol name] rest IH]; intros acc st Hc; cbn.
  - eexists. reflexivity.
  - unfold bind at 1. unfold catch at 1. unfold bind at 1.
    destruct (get_stock_data_blank symbol "1d" "1h" st Hc)
      as (d & st1 & -> & -> & Hc1).
    cbn. apply IH, Hc1.
Qed.

End Blank.

(** X11: a frame without rows leaves no trace: when the provider answers every
    request with an empty frame, the index, sector and indicator reports
    come back as empty dictionaries, with neither a value nor an error
    for any name. *)
Theorem empty_frames_leave_no_entry (W : World) (st : State)
    (Hblank : provider_blank W) (Hc : cache_all no_rows st) :
  fst (get_market_indices W st) = Ok [] /\
  fst (get_sector_performance W st) = Ok [] /\
  fst (get_economic_indicators W st) = Ok [].
Proof.
  split; [|split].
  - unfold get_market_indices.
    destruct (get_market_indices_loop_blank W Hblank indices [] st Hc)
      as (st' & ->). reflexivity.
  - unfold get_sector_performance.
    destruct (get_sector_performance_loop_blank W Hblank sector_etfs [] st Hc)
      as (st' & ->). reflexivity.
  - unfold get_economic_indicators.
    destruct (get_economic_indicators_loop_blank W Hblank indicators [] st Hc)
      as (st' & ->). reflexivity.
Qed.

Lemma empty_frames_leave_no_entry_witness :
  fst (get_market_indices Cases.blank init) = Ok [] /\
  fst (get_sector_performance Cases.blank init) = Ok [] /\
  fst (get_economic_indicators Cases.blank init) = Ok [].
Proof.
  apply empty_frames_leave_no_entry.
  - intros n t p i. eexists. split; reflexivity.
  - apply cache_all_empty. reflexivity.
Defined.

End ReportExtras.

(** ** Drawdown and volatility *)

Module SeriesExtras.
Import PandasOps Analytics Stats CacheInvariants.

(** Where the [try] block of [calculate_drawdown] runs to its end, the
    trough is labelled by a position, and the duration branch finds no
    pair of timestamps. *)
Lemma calculate_drawdown_body_duration (R : Release) (prices : Series) d :
  calculate_drawdown_body R prices = Ok d ->
  duration d = 0 /\
  exists i, idxmin R (drawdown_series prices) = Ok (Some (Pos i)).
Proof.
  unfold calculate_drawdown_body.
  destruct (idxmin R (drawdown_series prices)) as [k|e]; [|discriminate].
  cbn [rbind].
  destruct k as [[t|i]|]; [discriminate| |discriminate].
  cbn [iloc_to rbind].
  destruct (idxmax R (slice_to i prices)) as [peak|e]; [|discriminate].
  cbn [rbind]. intros [= <-]. split; [|eauto].
  destruct peak as [[a|a]|]; reflexivity.
Qed.

(** X12: the duration of a drawdown is never computed.  Where the trough is
    labelled by a date the positional slice raises and the default is
    returned; where it is labelled by a position the duration branch
    finds no pair of timestamps.  So the duration is zero for every
    series. *)
Theorem drawdown_duration_is_zero (R : Release) (prices : Series) :
  duration (calculate_drawdown R prices) = 0.
Proof.
  unfold calculate_drawdown.
  destruct (calculate_drawdown_body R prices) as [d|e] eqn:Hb;
    [|reflexivity].
  apply (calculate_drawdown_body_duration _ _ _ Hb).
Qed.

Lemma pct_change_from_length prev s :
  length (pct_change_from prev s) = length s.
Proof.
  revert prev. induction s as [|[l x] s IH]; intros prev; cbn;
    [reflexivity|]. rewrite IH. reflexivity.
Qed.

Lemma dropna_pct_change_length s :
  (length (dropna (pct_change s)) <= length s - 1)%nat.
Proof.
  unfold pct_change. destruct s as [|[l x] s]; cbn [pct_change_from].
  - cbn. lia.
  - unfold dropna, Series. rewrite filter_cons_False.
    + pose proof (length_filter
        (fun row : label * fnum => is_nan (snd row) = false)
        (pct_change_from x s)) as H.
      rewrite pct_change_from_length in H. cbn [length]. lia.
    + cbn. destruct x; cbn; discriminate.
Qed.

Lemma std_short E s : (length s < 2)%nat -> std E s = NaN.
Proof.
  intros Hs. unfold std.
  pose proof (length_filter
    (fun row : label * fnum => is_nan (snd row) = false) s) as H.
  unfold values. rewrite length_map.
  unfold dropna, Series in *.
  destruct (Nat.ltb_spec (length (filter
    (fun row : label * fnum => is_nan (snd row) = false) s)) 2);
    [reflexivity|lia].
Qed.

Lemma fmul_nan_l x : fmul NaN x = NaN.
Proof. destruct x; reflexivity. Qed.

(** X13: the volatility of a series with fewer than two returns is not a
    number: the standard deviation of fewer than two values is undefined,
    no exception is raised, and so the failure default 0.0 is not used. *)
Theorem few_returns_have_no_volatility (E : Engine) (prices : Series)
    (Hfew : (length (dropna (pct_change prices)) < 2)%nat) :
  calculate_volatility E prices = NaN.
Proof.
  unfold calculate_volatility.
  destruct (Nat.ltb_spec (length (dropna (pct_change prices))) 20); [|lia].
  rewrite std_short by exact Hfew. apply fmul_nan_l.
Qed.

Lemma few_returns_have_no_volatility_witness :
  calculate_volatility Scenarios.plain_engine
    [(Stamp 0, of_Z 100); (Stamp Scenarios.day, of_Z 110)] = NaN.
Proof.
  apply few_returns_have_no_volatility. vm_compute. lia.
Defined.

Lemma calculate_volatility_short E prices :
  (length prices <= 2)%nat -> calculate_volatility E prices = NaN.
Proof.
  intros Hs. unfold calculate_volatility.
  pose proof (dropna_pct_change_length prices) as H.
  destruct (Nat.ltb_spec (length (dropna (pct_change prices))) 20); [|lia].
  rewrite std_short by lia. apply fmul_nan_l.
Qed.

End SeriesExtras.

(** ** Risk exposure *)

Module RiskExtras.
Import APIAgent PandasOps Analytics Stats RiskExposure CacheInvariants Ranks.
Import FrameFacts DictFacts FloatFacts SeriesExtras Scenarios.

Section WithWorld.
Variable W : World.
Variable E : Engine.

Section Frames.
Variable P : DataFrame -> Prop.
Hypothesis HW : world_all P W.

(** The fetch loop never raises; it keeps what holds of every frame, and
    the keys of its dictionary are distinct tickers of the request. *)
Lemma fetch_loop_inv tickers :
  forall acc st,
    cache_all P st ->
    (forall k d, In (k, d) acc -> P d) ->
    exists sd st',
      fetch_loop W tickers acc st = (Ok sd, st') /\
      cache_all P st' /\
      (forall k d, In (k, d) sd -> P d) /\
      (forall k, In k (map fst sd) -> In k (map fst acc) \/ In k tickers) /\
      (NoDup (map fst acc) -> NoDup (map fst sd)).
Proof.
  induction tickers as [|t rest IH]; intros acc st Hc Hacc; cbn.
  - exists acc, st. repeat split; auto.
  - unfold bind at 1. unfold catch at 1. unfold bind at 1.
    destruct (get_stock_data W t "1mo" "1d" st) as [r st1] eqn:Hrun.
    destruct (get_stock_data_all W P HW _ _ _ _ _ _ Hc Hrun) as [Hc1 Hd].
    destruct r as [d|e]; cbn.
    + destruct (IH (dict_set acc t d) st1 Hc1) as (sd & st' & -> & ? & ? & Hk & Hn).
      * intros k d0 Hin. apply RiskFacts.dict_set_In in Hin as [[_ ->]|Hin].
        -- apply Hd. reflexivity.
        -- apply (Hacc _ _ Hin).
      * exists sd, st'. repeat split; auto.
        -- intros k Hin. destruct (Hk k Hin) as [Hin'|Hin']; [|auto].
           apply dict_set_keys_In in Hin' as [->|Hin']; auto.
        -- intros Hnd. apply Hn, dict_set_NoDup, Hnd.
    + destruct (IH acc st1 Hc1 Hacc) as (sd & st' & -> & ? & ? & Hk & Hn).
      exists sd, st'. repeat split; auto.
      intros k Hin. destruct (Hk k Hin); auto.
Qed.

End Frames.

(** The metrics loop writes one entry per non-empty frame, under the
    frame's ticker. *)
Lemma metrics_fold_keys md sd :
  forall ms vs bs vrs ms' vs' bs' vrs',
    fold_left (metrics_step E md) sd (ms, vs, bs, vrs) = (ms', vs', bs', vrs') ->
    (forall k, In k (map fst ms') -> In k (map fst ms) \/ In k (map fst sd)) /\
    (NoDup (map fst ms) -> NoDup (map fst ms')).
Proof.
  induction sd as [|[t d] sd IH]; intros ms vs bs vrs ms' vs' bs' vrs'; cbn.
  - intros [= <- <- <- <-]. auto.
  - destruct (empty d).
    + intros H. destruct (IH _ _ _ _ _ _ _ _ H) as [Hk Hn].
      split; [|exact Hn]. intros k Hin. destruct (Hk k Hin); auto.
    + intros H. destruct (IH _ _ _ _ _ _ _ _ H) as [Hk Hn].
      split.
      * intros k Hin. destruct (Hk k Hin) as [Hin'|Hin']; [|auto].
        apply dict_set_keys_In in Hin' as [->|Hin']; auto.
      * intros Hnd. apply Hn, dict_set_NoDup, Hnd.
Qed.

(** On frames of at most two rows every volatility it records is NaN. *)
Lemma metrics_fold_short md sd :
  (forall k d, In (k, d) sd -> short_frame d) ->
  forall ms vs bs vrs ms' vs' bs' vrs',
    Forall (fun v => v = NaN) vs ->
    fold_left (metrics_step E md) sd (ms, vs, bs, vrs) = (ms', vs', bs', vrs') ->
    Forall (fun v => v = NaN) vs'.
Proof.
  induction sd as [|[t d] sd IH]; intros Hsd ms vs bs vrs ms' vs' bs' vrs' Hvs;
    cbn.
  - intros [= <- <- <- <-]. exact Hvs.
  - assert (Hrest : forall k d0, In (k, d0) sd -> short_frame d0)
      by (intros k d0 Hin; apply (Hsd k); right; exact Hin).
    destruct (empty d).
    + apply (IH Hrest); exact Hvs.
    + apply (IH Hrest). apply Forall_app. split; [exact Hvs|].
      constructor; [|constructor].
      rewrite calculate_volatility_short; [reflexivity|].
      apply (Hsd t). left. reflexivity.
Qed.

Lemma mean_of_nans vs :
  Forall (fun v => v = NaN) vs ->
  mean_or_zero vs = of_Z 0 \/ mean_or_zero vs = NaN.
Proof.
  destruct vs as [|v vs]; [left; reflexivity|].
  intros Hvs. right. apply Forall_cons in Hvs as [-> _].
  unfold mean_or_zero, APIReports.fmean, APIReports.fsum.
  rewrite ReportExtras.fsum_nan by (left; reflexivity). reflexivity.
Qed.

(** What a report is made of. *)
Lemma report_anatomy region sector st r st' :
  analyze_risk_exposure W E region sector st = (Report r, st') ->
  exists sd st1 md st2 vs bs vrs,
    fetch_loop W (tickers r) [] st = (Ok sd, st1) /\
    get_stock_data W "^GSPC" "1mo" "1d" st1 = (Ok md, st2) /\
    fold_left (metrics_step E md) sd ([], [], [], [])
      = (metrics r, vs, bs, vrs) /\
    volatility (average_metrics r) = mean_or_zero vs.
Proof.
  intros Hrun.
  destruct (RiskFacts.analyze_risk_exposure_report W E _ _ _ _ _ Hrun)
    as [ts Hb].
  revert Hb. unfold exposure_body, bind.
  destruct (fetch_loop W ts [] st) as [[sd|e] st1] eqn:Hf; [|discriminate].
  destruct (get_stock_data W "^GSPC" "1mo" "1d" st1) as [[md|e] st2] eqn:Hm;
    [|discriminate].
  destruct (fold_left (metrics_step E md) sd ([], [], [], []))
    as [[[ms vs] bs] vrs] eqn:Hfold.
  destruct (APIReports.get_asia_tech_exposure W st2) as [[a|e] st3];
    [|discriminate].
  intros [= <- <-]. cbn [tickers metrics average_metrics volatility].
  exists sd, st1, md, st2, vs, bs, vrs. auto.
Qed.

End WithWorld.

(** X14: a report whose frames all have at most two rows rates the request
    Low: no ticker has a volatility then, the average is zero or not a
    number, and every threshold comparison fails. *)
Theorem thin_history_reads_low_risk
    (W : World) (E : Engine) (region : string) (sector : option string)
    (st st' : State) (r : ExposureReport)
    (HW : world_all short_frame W) (Hc : cache_all short_frame st)
    (Hrun : analyze_risk_exposure W E region sector st = (Report r, st')) :
  risk_level r = "Low".
Proof.
  destruct (report_anatomy W E _ _ _ _ _ Hrun)
    as (sd & st1 & md & st2 & vs & bs & vrs & Hf & _ & Hfold & Havg).
  destruct (fetch_loop_inv W short_frame HW (tickers r) [] st Hc)
    as (sd' & st1' & Hf' & _ & Hsd & _); [intros ? ? []|].
  rewrite Hf in Hf'. injection Hf' as <- <-.
  pose proof (metrics_fold_short E md sd Hsd _ _ _ _ _ _ _ _
                (List.Forall_nil _) Hfold) as Hvs.
  destruct (RiskFacts.analyze_risk_exposure_report W E _ _ _ _ _ Hrun)
    as [ts Hb].
  destruct (RiskFacts.exposure_body_ok W E _ _ _ _ _ _ Hb) as [-> _].
  rewrite Havg.
  destruct (mean_of_nans vs Hvs) as [-> | ->]; vm_compute; reflexivity.
Qed.

Lemma thin_history_reads_low_risk_witness :
  let run := analyze_risk_exposure Cases.one_row plain_engine "Asia"
               (Some "Technology") init in
  fst run = Report (report_of (fst run)) /\
  risk_level (report_of (fst run)) = "Low".
Proof.
  cbn zeta.
  set (run := analyze_risk_exposure Cases.one_row plain_engine "Asia"
                (Some "Technology") init).
  assert (Hrun : run = (Report (report_of (fst run)), snd run))
    by (vm_compute; reflexivity).
  split; [vm_compute; reflexivity|].
  apply (thin_history_reads_low_risk Cases.one_row plain_engine _ _ _ _ _)
    with (3 := Hrun).
  - intros n t p i d. cbn. intros [= <-]. unfold short_frame. cbn. lia.
  - apply ReportExtras.cache_all_empty. reflexivity.
Defined.

(** X15: the metrics of a report are keyed by distinct tickers, each of them a
    ticker of the request, although the request itself may list a ticker
    twice (a whole region repeats the tickers that sit in two sectors). *)
Theorem report_metrics_keys
    (W : World) (E : Engine) (region : string) (sector : option string)
    (st st' : State) (r : ExposureReport)
    (Hrun : analyze_risk_exposure W E region sector st = (Report r, st')) :
  NoDup (map fst (metrics r)) /\
  (forall k, In k (map fst (metrics r)) -> In k (tickers r)) /\
  (length (metrics r) <= length (remove_dups (tickers r)))%nat.
Proof.
  destruct (report_anatomy W E _ _ _ _ _ Hrun)
    as (sd & st1 & md & st2 & vs & bs & vrs & Hf & _ & Hfold & _).
  destruct (fetch_loop_inv W (fun _ => True)) with
    (tickers := tickers r) (acc := @nil (string * DataFrame)) (st := st)
    as (sd' & st1' & Hf' & _ & _ & Hk & Hn).
  - intros ? ? ? ? ? _. exact I.
  - intros ? ? _. exact I.
  - intros ? ? [].
  - rewrite Hf in Hf'. injection Hf' as <- <-.
    destruct (metrics_fold_keys E md sd _ _ _ _ _ _ _ _ Hfold) as [Hk' Hn'].
    assert (Hsub : forall k, In k (map fst (metrics r)) -> In k (tickers r)).
    { intros k Hin. destruct (Hk' k Hin) as [[]|Hin'].
      destruct (Hk k Hin') as [[]|]; assumption. }
    assert (Hnd : NoDup (map fst (metrics r))) by (apply Hn'; constructor).
    split; [exact Hnd|]. split; [exact Hsub|].
    rewrite <- (length_map fst (metrics r)).
    apply submseteq_length, NoDup_submseteq; [exact Hnd|].
    intros k Hin. apply elem_of_remove_dups, list_elem_of_In, Hsub.
    apply list_elem_of_In, Hin.
Qed.

Lemma report_metrics_keys_witness :
  let run := analyze_risk_exposure trading plain_engine "Asia" None init in
  let r := report_of (fst run) in
  fst run = Report r /\
  NoDup (map fst (metrics r)) /\
  (forall k, In k (map fst (metrics r)) -> In k (tickers r)) /\
  (length (metrics r) <= length (remove_dups (tickers r)))%nat /\
  length (tickers r) = 20%nat /\ length (metrics r) = 18%nat.
Proof.
  cbn zeta.
  set (run := analyze_risk_exposure trading plain_engine "Asia" None init).
  assert (Hrun : run = (Report (report_of (fst run)), snd run))
    by (vm_compute; reflexivity).
  destruct (report_metrics_keys trading plain_engine _ _ _ _ _ Hrun)
    as (H1 & H2 & H3).
  split; [vm_compute; reflexivity|].
  split; [exact H1|]. split; [exact H2|]. split; [exact H3|].
  split; vm_compute; reflexivity.
Defined.

Lemma fetch_loop_down W tickers :
  provider_fails W ->
  forall acc st, cache st = ∅ ->
    exists st', fetch_loop W tickers acc st = (Ok acc, st') /\ cache st' = ∅.
Proof.
  intros Hdown. induction tickers as [|t rest IH]; intros acc st Hc; cbn.
  - exists st. auto.
  - unfold bind at 1. unfold catch at 1. unfold bind at 1.
    destruct (get_stock_data_down W t "1mo" "1d" st Hdown Hc)
      as (e & st1 & -> & Hc1).
    cbn. apply IH, Hc1.
Qed.

(** X16: a ticker whose lookup fails is skipped, but the benchmark is looked
    up outside any handler of its own: with the provider down and nothing
    cached, every request for a risk exposure ends in an error
    dictionary. *)
Theorem risk_exposure_needs_benchmark
    (W : World) (E : Engine) (region : string) (sector : option string)
    (st : State) (Hdown : provider_fails W) (Hc : cache st = ∅) :
  exists message,
    fst (analyze_risk_exposure W E region sector st) = ExposureError message.
Proof.
  unfold analyze_risk_exposure.
  destruct (dict_get region_mapping region) as [by_sector|];
    [|eexists; reflexivity].
  destruct (truthy sector && _); [eexists; reflexivity|].
  match goal with
  | |- context [exposure_body W E region sector ?ts st] => set (ts0 := ts)
  end.
  unfold exposure_body, bind.
  destruct (fetch_loop_down W ts0 Hdown [] st Hc) as (st1 & -> & Hc1).
  destruct (get_stock_data_down W "^GSPC" "1mo" "1d" st1 Hdown Hc1)
    as (e & st2 & -> & _).
  eexists. reflexivity.
Qed.

Lemma risk_exposure_needs_benchmark_witness :
  exists message,
    fst (analyze_risk_exposure provider_down plain_engine "Europe" None init)
    = ExposureError message.
Proof.
  apply risk_exposure_needs_benchmark.
  - intros n t p i. eexists. reflexivity.
  - reflexivity.
Defined.

(** X17: the risk level never moves against the average volatility: of two
    reports, the one with the larger average is rated at least as
    high. *)
Theorem risk_level_follows_volatility
    (W1 W2 : World) (E1 E2 : Engine) (region1 region2 : string)
    (sector1 sector2 : option string) (st1 st1' st2 st2' : State)
    (r1 r2 : ExposureReport)
    (Hrun1 : analyze_risk_exposure W1 E1 region1 sector1 st1
             = (Report r1, st1'))
    (Hrun2 : analyze_risk_exposure W2 E2 region2 sector2 st2
             = (Report r2, st2'))
    (Hle : le (volatility (average_metrics r1))
              (volatility (average_metrics r2))) :
  risk_rank (risk_level r1) <= risk_rank (risk_level r2).
Proof.
  destruct (RiskFacts.analyze_risk_exposure_report _ _ _ _ _ _ _ Hrun1)
    as [ts1 Hb1].
  destruct (RiskFacts.analyze_risk_exposure_report _ _ _ _ _ _ _ Hrun2)
    as [ts2 Hb2].
  destruct (RiskFacts.exposure_body_ok _ _ _ _ _ _ _ _ Hb1) as [-> _].
  destruct (RiskFacts.exposure_body_ok _ _ _ _ _ _ _ _ Hb2) as [-> _].
  revert Hle.
  generalize (volatility (average_metrics r1)) as x.
  generalize (volatility (average_metrics r2)) as y.
  intros y x Hxy. rewrite <- !RiskFacts.chain_is_classify.
  pose proof (ReportExtras.fgtb_mono) as Hm.
  destruct (fgtb x (of_Z 30)) eqn:E30.
  { rewrite (Hm _ _ _ Hxy E30). reflexivity. }
  destruct (fgtb x (of_Z 20)) eqn:E20.
  { rewrite (Hm _ _ _ Hxy E20). destruct (fgtb y (of_Z 30)); cbn; lia. }
  destruct (fgtb x (of_Z 15)) eqn:E15.
  { rewrite (Hm _ _ _ Hxy E15).
    destruct (fgtb y (of_Z 30)), (fgtb y (of_Z 20)); cbn; lia. }
  destruct (fgtb x (of_Z 10)) eqn:E10.
  { rewrite (Hm _ _ _ Hxy E10).
    destruct (fgtb y (of_Z 30)), (fgtb y (of_Z 20)), (fgtb y (of_Z 15));
      cbn; lia. }
  destruct (fgtb y (of_Z 30)), (fgtb y (of_Z 20)), (fgtb y (of_Z 15)),
    (fgtb y (of_Z 10)); cbn; lia.
Qed.

Lemma risk_level_follows_volatility_witness :
  let calm := analyze_risk_exposure flat plain_engine "Europe"
                (Some "Finance") init in
  let busy := analyze_risk_exposure trading plain_engine "Europe"
                (Some "Finance") init in
  risk_level (report_of (fst calm)) = "Low" /\
  risk_level (report_of (fst busy)) = "Very High" /\
  risk_rank (risk_level (report_of (fst calm)))
    <= risk_rank (risk_level (report_of (fst busy))).
Proof.
  cbn zeta.
  set (calm := analyze_risk_exposure flat plain_engine "Europe"
                 (Some "Finance") init).
  set (busy := analyze_risk_exposure trading plain_engine "Europe"
                 (Some "Finance") init).
  assert (Hcalm : calm = (Report (report_of (fst calm)), snd calm))
    by (vm_compute; reflexivity).
  assert (Hbusy : busy = (Report (report_of (fst busy)), snd busy))
    by (vm_compute; reflexivity).
  split; [vm_compute; reflexivity|]. split; [vm_compute; reflexivity|].
  apply (risk_level_follows_volatility _ _ _ _ _ _ _ _ _ _ _ _ _ _
           Hcalm Hbusy).
  apply fltb_le. vm_compute. reflexivity.
Defined.

End RiskExtras.

(** ** Portfolio analysis *)

Module PortfolioExtras.
Import APIAgent PandasOps Stats PortfolioAnalysis CacheInvariants.
Import FrameFacts DictFacts FloatFacts SeriesExtras Scenarios.

Lemma append_length a b :
  String.length (a ++ b) = (String.length a + String.length b)%nat.
Proof.
  induction a as [|c a IH]; simpl; [reflexivity|].
  rewrite IH. reflexivity.
Qed.

Lemma append_inj_r t : forall a b, a ++ t = b ++ t -> a = b.
Proof.
  induction a as [|c a IH]; intros [|c' b] H.
  - reflexivity.
  - apply (f_equal String.length) in H. rewrite !append_length in H.
    simpl in H. lia.
  - apply (f_equal String.length) in H. rewrite !append_length in H.
    simpl in H. lia.
  - simpl in H. injection H as -> H. f_equal. apply IH, H.
Qed.

Lemma cache_key_ticker t t' p i : cache_key t p i = cache_key t' p i -> t = t'.
Proof. unfold cache_key. apply append_inj_r. Qed.

Section WithEngine.
Variable W : World.
Variable E : Engine.
Variable R : Release.


Section Frames.
Variable P : DataFrame -> Prop.
Hypothesis HW : world_all P W.
Variable Q : AssetEntry -> Prop.
Variable md : DataFrame.
Hypothesis Hfail : forall message, Q (AssetError message).
Hypothesis Hasset : forall d, P d ->
  Q (Asset {| volatility :=
                fmul (calculate_volatility E (Close d)) Analytics.hundred;
              beta := calculate_beta E (Close d) (Close md);
              sharpe_ratio :=
                calculate_sharpe_ratio E (dropna (pct_change (Close d)));
              max_drawdown :=
                Analytics.max_drawdown
                  (Analytics.calculate_drawdown R (Close d));
              drawdown_duration :=
                Analytics.duration (Analytics.calculate_drawdown R (Close d));
              var_95 := calculate_var E (dropna (pct_change (Close d))) |}).

(** The loop over the tickers never raises, gives every ticker an entry,
    and keeps what holds of every frame and of every entry. *)
Lemma asset_loop_inv tickers :
  forall rd ind st,
    cache_all P st ->
    (forall k a, In (k, a) ind -> Q a) ->
    exists rd' ind' st',
      asset_loop W E R md tickers (rd, ind) st = (Ok (rd', ind'), st') /\
      cache_all P st' /\
      (forall k a, In (k, a) ind' -> Q a) /\
      (forall k, In k (map fst ind') <-> In k (map fst ind) \/ In k tickers).
Proof.
  induction tickers as [|t rest IH]; intros rd ind st Hc Hind; cbn.
  - exists rd, ind, st. repeat split; auto. intros [|[]]; assumption.
  - unfold bind at 1. cbn [asset_step].
    destruct (get_stock_data W t "1y" "1d" st) as [r st1] eqn:Hrun.
    destruct (get_stock_data_all W P HW _ _ _ _ _ _ Hc Hrun) as [Hc1 Hd].
    destruct r as [d|e]; cbv zeta.
    + match goal with
      | |- context [asset_loop W E R md rest (?rd1, ?ind1) st1] =>
          destruct (IH rd1 ind1 st1 Hc1) as (rd' & ind' & st' & Hl & ? & ? & Hk)
      end.
      * intros k a Hin. apply RiskFacts.dict_set_In in Hin as [[_ ->]|Hin].
        -- apply Hasset, Hd. reflexivity.
        -- apply (Hind _ _ Hin).
      * exists rd', ind', st'. split; [exact Hl|]. repeat split; auto;
          rewrite Hk, dict_set_keys_In; intuition.
    + match goal with
      | |- context [asset_loop W E R md rest (?rd1, ?ind1) st1] =>
          destruct (IH rd1 ind1 st1 Hc1) as (rd' & ind' & st' & Hl & ? & ? & Hk)
      end.
      * intros k a Hin. apply RiskFacts.dict_set_In in Hin as [[_ ->]|Hin].
        -- apply Hfail.
        -- apply (Hind _ _ Hin).
      * exists rd', ind', st'. split; [exact Hl|]. repeat split; auto;
          rewrite Hk, dict_set_keys_In; intuition.
Qed.

End Frames.

(** What a successful analysis is made of. *)
Lemma metrics_anatomy portfolio_tickers supplied st m st' :
  analyze_portfolio W E R portfolio_tickers supplied st = (Metrics m, st') ->
  exists md st1 rd,
    get_stock_data W "^GSPC" "1y" "1d" st = (Ok md, st1) /\
    asset_loop W E R md portfolio_tickers ([], []) st1
      = (Ok (rd, individual_metrics m), st') /\
    tickers m = portfolio_tickers /\
    pf_drawdown_duration (portfolio_metrics m) = 0.
Proof.
  unfold analyze_portfolio, analyze_portfolio_body, bind, APIReports.lift.
  destruct (normalize _) as [ws|e]; [|discriminate].
  destruct (get_stock_data W "^GSPC" "1y" "1d" st) as [[md|e] st1] eqn:Hm;
    [|discriminate].
  destruct (asset_loop W E R md portfolio_tickers ([], []) st1)
    as [[[rd ind]|e] st2] eqn:Hl; [|discriminate].
  cbn [fst snd]. unfold aggregate.
  destruct (dict_values rd) as [|first rest]; [discriminate|].
  intros [= <- <-].
  cbn [tickers individual_metrics portfolio_metrics pf_drawdown_duration].
  exists md, st1, rd.
  split; [reflexivity|]. split; [exact Hl|]. split; [reflexivity|].
  unfold Analytics.calculate_drawdown.
  match goal with
  | |- context [Analytics.calculate_drawdown_body R ?s] =>
      destruct (Analytics.calculate_drawdown_body R s) as [d|e] eqn:Hb
  end; [|reflexivity].
  apply (calculate_drawdown_body_duration _ _ _ Hb).
Qed.

(** X19: every ticker of the request has an entry among the individual
    metrics of a successful analysis, be it the metrics or the text of
    the error of its lookup; no other key appears. *)
Theorem every_ticker_gets_an_entry
    (portfolio_tickers : list string) (supplied : option (list Qc))
    (st st' : State) (m : PortfolioMetrics)
    (Hrun : analyze_portfolio W E R portfolio_tickers supplied st
            = (Metrics m, st')) :
  tickers m = portfolio_tickers /\
  forall t, In t portfolio_tickers <->
            is_Some (dict_get (individual_metrics m) t).
Proof.
  destruct (metrics_anatomy _ _ _ _ _ Hrun)
    as (md & st1 & rd & _ & Hl & Ht & _).
  split; [exact Ht|].
  destruct (asset_loop_inv (fun _ => True)) with
    (Q := fun _ : AssetEntry => True) (md := md)
    (tickers := portfolio_tickers) (rd := @nil (string * Series))
    (ind := @nil (string * AssetEntry)) (st := st1)
    as (rd' & ind' & st2 & Hl' & _ & _ & Hk);
    try (unfold world_all, cache_all; intros; exact I).
  assert (Heq : (Ok (rd, individual_metrics m), st') = (Ok (rd', ind'), st2))
    by (rewrite <- Hl; exact Hl').
  injection Heq as <- <- <-.
  intros t. split.
  - intros Hin.
    assert (Hin' : In t (map fst (individual_metrics m)))
      by (apply Hk; right; exact Hin).
    apply in_map_iff in Hin' as ([k a] & Hk' & Hin'). cbn in Hk'. subst k.
    apply (In_dict_get _ _ _ Hin').
  - intros [a Ha]. apply dict_get_In in Ha.
    destruct (proj1 (Hk t)) as [[]|Hin]; [|exact Hin].
    apply in_map_iff. exists (t, a). auto.
Qed.

(** X20: on frames indexed by dates, which is what the provider returns, every
    asset of a successful analysis is reported with a maximum drawdown of
    0.0 and a duration of 0, and the portfolio with a duration of 0: the
    drawdown routine has fallen back on its failure default. *)
Theorem dated_frames_hide_drawdown
    (portfolio_tickers : list string) (supplied : option (list Qc))
    (st st' : State) (m : PortfolioMetrics)
    (HW : world_all dated_frame W) (Hc : cache_all dated_frame st)
    (Hrun : analyze_portfolio W E R portfolio_tickers supplied st
            = (Metrics m, st')) :
  (forall t a, In (t, Asset a) (individual_metrics m) ->
     max_drawdown a = Fin 0%Qc /\ drawdown_duration a = 0) /\
  pf_drawdown_duration (portfolio_metrics m) = 0.
Proof.
  destruct (metrics_anatomy _ _ _ _ _ Hrun)
    as (md & st1 & rd & Hm & Hl & _ & Hd).
  split; [|exact Hd].
  destruct (get_stock_data_all W dated_frame HW _ _ _ _ _ _ Hc Hm)
    as [Hc1 _].
  destruct (asset_loop_inv dated_frame HW
              (fun entry => match entry with
                            | Asset a => max_drawdown a = Fin 0%Qc /\
                                         drawdown_duration a = 0
                            | AssetError _ => True
                            end) md) with
    (tickers := portfolio_tickers) (rd := @nil (string * Series))
    (ind := @nil (string * AssetEntry)) (st := st1)
    as (rd' & ind' & st2 & Hl' & _ & Hq & _).
  - intros. exact I.
  - intros d Hdated.
    rewrite (DrawdownFacts.calculate_drawdown_on_dates R _ Hdated).
    split; reflexivity.
  - exact Hc1.
  - intros ? ? [].
  - assert (Heq : (Ok (rd, individual_metrics m), st')
                  = (Ok (rd', ind'), st2)) by (rewrite <- Hl; exact Hl').
    injection Heq as <- <- <-.
    intros t a Hin. apply (Hq _ _ Hin).
Qed.

End WithEngine.


Lemma every_ticker_gets_an_entry_witness :
  let run := analyze_portfolio Cases.one_gap plain_engine pandas3
               ["TSM"; "SONY"; "TSM"] None init in
  let m := metrics_of (fst run) in
  fst run = Metrics m /\
  tickers m = ["TSM"; "SONY"; "TSM"] /\
  (forall t, In t ["TSM"; "SONY"; "TSM"] <->
             is_Some (dict_get (individual_metrics m) t)) /\
  length (individual_metrics m) = 2%nat.
Proof.
  cbn zeta.
  set (run := analyze_portfolio Cases.one_gap plain_engine pandas3
                ["TSM"; "SONY"; "TSM"] None init).
  assert (Hrun : run = (Metrics (metrics_of (fst run)), snd run))
    by (vm_compute; reflexivity).
  destruct (every_ticker_gets_an_entry Cases.one_gap plain_engine pandas3
              _ _ _ _ _ Hrun) as [H1 H2].
  split; [vm_compute; reflexivity|].
  split; [exact H1|]. split; [exact H2|]. vm_compute. reflexivity.
Defined.

Lemma dated_frames_hide_drawdown_witness :
  let run := analyze_portfolio trading plain_engine pandas3
               ["AAA"; "BBB"] None init in
  let m := metrics_of (fst run) in
  fst run = Metrics m /\
  ((forall t a, In (t, Asset a) (individual_metrics m) ->
      max_drawdown a = Fin 0%Qc /\ drawdown_duration a = 0) /\
   pf_drawdown_duration (portfolio_metrics m) = 0) /\
  min_skipna (values (Analytics.drawdown_series
                        [ (Stamp 0, of_Z 100); (Stamp day, of_Z 110);
                          (Stamp (2 * day), of_Z 99) ]))
  = of_Z (-10).
Proof.
  cbn zeta.
  set (run := analyze_portfolio trading plain_engine pandas3
                ["AAA"; "BBB"] None init).
  assert (Hrun : run = (Metrics (metrics_of (fst run)), snd run))
    by (vm_compute; reflexivity).
  split; [vm_compute; reflexivity|]. split.
  - apply (dated_frames_hide_drawdown trading plain_engine pandas3
             _ _ _ _ _) with (3 := Hrun).
    + intros n t p i d. cbn. intros [= <-].
      repeat constructor.
    + apply ReportExtras.cache_all_empty. reflexivity.
  - vm_compute. f_equal. apply Qc_is_canon. reflexivity.
Defined.

Section Lost.
Variable W : World.
Variable E : Engine.
Variable R : Release.
Hypothesis Hlost : forall n t p i,
  t <> "^GSPC" -> is_ok (history W n t p i) = false.

(** With only the benchmark cached, a lookup of any other ticker goes to
    the provider and fails there; the returns stay empty. *)
Lemma asset_loop_lost md tickers :
  ~ In "^GSPC" tickers ->
  forall ind st,
    (forall k, is_Some (cache st !! k) -> k = cache_key "^GSPC" "1y" "1d") ->
    exists ind' st',
      asset_loop W E R md tickers ([], ind) st = (Ok ([], ind'), st').
Proof.
  induction tickers as [|t rest IH]; intros Hnot ind st Hc; cbn.
  - eexists _, _. reflexivity.
  - assert (Ht : t <> "^GSPC") by (intros ->; apply Hnot; left; reflexivity).
    assert (Hk : cache st !! cache_key t "1y" "1d" = None).
    { destruct (cache st !! cache_key t "1y" "1d") as [d|] eqn:Hd;
        [|reflexivity].
      exfalso. apply Ht, (cache_key_ticker _ _ "1y" "1d"), Hc. eauto. }
    unfold bind at 1. cbn [asset_step].
    rewrite QuoteCacheFacts.get_stock_data_miss
      by (unfold live; rewrite Hk; reflexivity).
    destruct (history W (length (upstream
                (at_fetch st (cache_key t "1y" "1d")))) t "1y" "1d")
      as [d|e] eqn:Hh.
    { pose proof (Hlost (length (upstream
                (at_fetch st (cache_key t "1y" "1d")))) t "1y" "1d" Ht) as H.
      rewrite Hh in H. discriminate. }
    rewrite (QuoteCacheFacts.fetch_and_cache_raise W _ _ _ _ e Hh).
    apply IH.
    + intros Hin. apply Hnot. right. exact Hin.
    + cbn [cache]. rewrite QuoteCacheFacts.at_fetch_cache. exact Hc.
Qed.

End Lost.

(** X21: when the benchmark is the only symbol the provider knows and nothing
    is cached, the analysis of a portfolio fails as a whole, and the
    error dictionary carries an empty text: the failure comes from asking
    an empty dictionary of returns for its first entry, and the texts of
    the lookup errors are dropped with the individual metrics. *)
Theorem lost_lookups_leave_blank_error
    (W : World) (E : Engine) (R : Release) (portfolio_tickers : list string)
    (st : State)
    (Hworld : benchmark_only W) (Hc : cache st = ∅)
    (Hnot : ~ In "^GSPC" portfolio_tickers) :
  fst (analyze_portfolio W E R portfolio_tickers None st)
  = PortfolioError "".
Proof.
  destruct Hworld as [Hbench Hlost].
  unfold analyze_portfolio, analyze_portfolio_body, bind, APIReports.lift.
  assert (Hn : exists ws, normalize (equal_weights portfolio_tickers) = Ok ws).
  { destruct portfolio_tickers as [|t ts] eqn:Ht; [eexists; reflexivity|].
    eexists. apply PortfolioFacts.equal_weights_normalized. discriminate. }
  destruct Hn as [ws ->].
  assert (Hk : cache st !! cache_key "^GSPC" "1y" "1d" = None)
    by (rewrite Hc; apply lookup_empty).
  rewrite QuoteCacheFacts.get_stock_data_miss
    by (unfold live; rewrite Hk; reflexivity).
  destruct (history W (length (upstream
              (at_fetch st (cache_key "^GSPC" "1y" "1d")))) "^GSPC" "1y" "1d")
    as [d|e] eqn:Hh.
  2: { pose proof (Hbench (length (upstream
              (at_fetch st (cache_key "^GSPC" "1y" "1d"))))) as H.
       rewrite Hh in H. discriminate. }
  rewrite (QuoteCacheFacts.fetch_and_cache_ok W _ _ _ _ d Hh).
  match goal with
  | |- context [asset_loop W E R d portfolio_tickers ([], []) ?s] =>
      destruct (asset_loop_lost W E R Hlost d portfolio_tickers Hnot [] s)
        as (ind' & st' & Hl)
  end.
  - intros k. cbn [cache]. rewrite QuoteCacheFacts.at_fetch_cache, Hc.
    destruct (decide (cache_key "^GSPC" "1y" "1d" = k)) as [<-|Hne];
      [reflexivity|].
    rewrite lookup_insert_ne by exact Hne. rewrite lookup_empty.
    intros [? [=]].
  - set (x := asset_loop W E R d portfolio_tickers _ _).
    assert (Hx : x = (Ok ([], ind'), st')) by exact Hl.
    rewrite Hx. reflexivity.
Qed.

Lemma lost_lookups_leave_blank_error_witness :
  fst (analyze_portfolio Cases.lone_benchmark plain_engine pandas3
         ["AAA"; "BBB"] None init)
  = PortfolioError "".
Proof.
  apply lost_lookups_leave_blank_error.
  - split.
    + intros n. reflexivity.
    + intros n t p i Ht. cbn.
      destruct (String.eqb t "^GSPC") eqn:Heq; [|reflexivity].
      apply String.eqb_eq in Heq. contradiction.
  - reflexivity.
  - cbn. intros [H|[H|[]]]; discriminate.
Defined.

End PortfolioExtras.

(** ** Intent classifier *)

Module IntentExtras.
Import PyStr LanguageService IntentVocabulary.

Lemma mem_In x l : mem x l = true <-> In x l.
Proof.
  unfold mem. rewrite existsb_exists. split.
  - intros (y & Hy & E). apply String.eqb_eq in E. subst. exact Hy.
  - intros H. exists x. split; [exact H|apply String.eqb_refl].
Qed.

Lemma mem_not_In x l : mem x l = false <-> ~ In x l.
Proof.
  rewrite <- mem_In. destruct (mem x l); split; congruence.
Qed.

Section WithQuery.
Variable query : string.

Lemma entity_fold_inv table :
  forall found,
    NoDup found ->
    (forall e, In e found -> exists kw, In (kw, e) (entity_table) /\
                                         contains kw (lower query) = true) ->
    (forall entry, In entry table -> In entry entity_table) ->
    let found' := fold_left (entity_step (lower query)) table found in
    NoDup found' /\
    forall e, In e found' -> exists kw, In (kw, e) entity_table /\
                                        contains kw (lower query) = true.
Proof.
  induction table as [|[kw e0] table IH]; intros found Hnd Hsrc Htab; cbn.
  - auto.
  - apply IH.
    + destruct (contains kw (lower query) && negb (mem e0 found)) eqn:Hc;
        [|exact Hnd].
      apply andb_prop in Hc as [_ Hm]. apply negb_true_iff, mem_not_In in Hm.
      apply NoDup_app. repeat split; [exact Hnd| |apply NoDup_singleton].
      intros x Hx Hx'. apply list_elem_of_In in Hx.
      apply list_elem_of_In in Hx' as [->|[]]. contradiction.
    + destruct (contains kw (lower query) && negb (mem e0 found)) eqn:Hc;
        [|exact Hsrc].
      apply andb_prop in Hc as [Hc _].
      intros e Hin. apply in_app_iff in Hin as [Hin|[<-|[]]]; [auto|].
      exists kw. split; [apply Htab; left; reflexivity|exact Hc].
    + intros entry Hin. apply Htab. right. exact Hin.
Qed.

Lemma ticker_fold_inv words :
  forall found,
    NoDup found ->
    (forall e, In e found -> tabled query e \/ tickerlike query e) ->
    (forall w, In w words -> In w (split query)) ->
    let found' := fold_left ticker_step words found in
    NoDup found' /\
    forall e, In e found' -> tabled query e \/ tickerlike query e.
Proof.
  induction words as [|w words IH]; intros found Hnd Hsrc Hw; cbn.
  - auto.
  - apply IH.
    + unfold ticker_step.
      destruct (isupper w && _ && _ && negb (mem w found)) eqn:Hc;
        [|exact Hnd].
      apply andb_prop in Hc as [_ Hm]. apply negb_true_iff, mem_not_In in Hm.
      apply NoDup_app. repeat split; [exact Hnd| |apply NoDup_singleton].
      intros x Hx Hx'. apply list_elem_of_In in Hx.
      apply list_elem_of_In in Hx' as [->|[]]. contradiction.
    + unfold ticker_step.
      destruct (isupper w && _ && _ && negb (mem w found)) eqn:Hc;
        [|exact Hsrc].
      apply andb_prop in Hc as [Hc _]. apply andb_prop in Hc as [Hc H5].
      apply andb_prop in Hc as [Hu H1].
      intros e Hin. apply in_app_iff in Hin as [Hin|[<-|[]]]; [auto|].
      right. repeat split; [apply Hw; left; reflexivity|exact Hu| |].
      * apply Nat.leb_le, H1.
      * apply Nat.leb_le, H5.
    + intros w' Hin. apply Hw. right. exact Hin.
Qed.

End WithQuery.

(** X22: the entities the keyword classifier reports are distinct, and each is
    either the entity the table assigns to a keyword found in the
    lower-cased query, or a word of the query as typed that is in upper
    case and one to five characters long. *)
Theorem entities_distinct_and_sourced (query : string) :
  NoDup (entities (analyze_query_intent query)) /\
  forall e, In e (entities (analyze_query_intent query)) ->
            tabled query e \/ tickerlike query e.
Proof.
  cbn [analyze_query_intent entities].
  destruct (entity_fold_inv query entity_table [])
    as [Hnd Hsrc]; [constructor|intros ? []|auto|].
  apply ticker_fold_inv; [exact Hnd| |auto].
  intros e Hin. left. apply Hsrc, Hin.
Qed.

End IntentExtras.

(** ** Router *)

Module RouterExtras.
Import APIAgent APIReports RiskExposure PyStr RouterTypes Router.
Import RouterVocabulary ReportExtras Scenarios.

Lemma scan_entities_ok items :
  forall acc, is_ok (scan_entities items acc) = forallb is_string items.
Proof.
  induction items as [|v items IH]; intros acc; [reflexivity|].
  destruct v;
    cbn [scan_entities as_str rbind forallb is_string andb is_ok];
    try reflexivity.
  destruct (mem (lower s) region_words); [apply IH|].
  destruct (mem (lower s) sector_words); apply IH.
Qed.

Lemma upper_tickers_ok items :
  forall acc, is_ok (upper_tickers items acc) = forallb is_string items.
Proof.
  induction items as [|v items IH]; intros acc; [reflexivity|].
  destruct v;
    cbn [upper_tickers as_str rbind forallb is_string andb is_ok];
    try reflexivity.
  destruct (isupper s && _); apply IH.
Qed.

Section WithServices.
Variable W : World.
Variable E : Engine.
Variable S : Services.

Lemma stock_loop_total tickers :
  forall acc st, exists acc' st',
    stock_loop W S tickers acc st = (Ok acc', st').
Proof.
  induction tickers as [|t rest IH]; intros acc st; cbn.
  - eexists _, _. reflexivity.
  - unfold bind at 1. destruct acc as [sd ctx]. cbn [stock_step].
    destruct (get_stock_data W t "1d" "1h" st) as [[d|e] st1].
    + destruct (empty d); cbv zeta; apply IH.
    + apply IH.
Qed.

(** The five handlers, one by one: what they return and when. *)
Lemma handle_market_info_answers query entities context st :
  exists text indices sectors st',
    _handle_market_info W S query entities context st
    = (Ok (Answer text (DataMarket indices sectors)), st').
Proof.
  unfold _handle_market_info, bind, get_market_indices,
    get_sector_performance.
  destruct (get_market_indices_loop_total W indices [] st) as (d & s & ->).
  destruct (get_sector_performance_loop_total W sector_etfs [] s)
    as (d' & s' & ->).
  eexists _, _, _, _. reflexivity.
Qed.

Lemma handle_portfolio_analysis_answers query entities context st :
  exists text portfolio st',
    _handle_portfolio_analysis W S query entities context st
    = (Ok (Answer text (DataPortfolio portfolio)), st').
Proof.
  unfold _handle_portfolio_analysis, bind, get_portfolio_data, bind.
  destruct (get_asia_tech_exposure_total W st) as (a & s & ->).
  eexists _, _, _. reflexivity.
Qed.

Lemma handle_economic_data_answers query entities context st :
  exists text indicators st',
    _handle_economic_data W S query entities context st
    = (Ok (Answer text (DataIndicators indicators)), st').
Proof.
  unfold _handle_economic_data, bind, get_economic_indicators.
  destruct (get_economic_indicators_loop_total W indicators [] st)
    as (d & s & ->).
  eexists _, _, _. reflexivity.
Qed.

Lemma handle_risk_assessment_answers query entities context st :
  (well_formed entities = true /\
   exists text exposure st',
     _handle_risk_assessment W E S query entities context st
     = (Ok (Answer text (DataExposure exposure)), st')) \/
  (well_formed entities = false /\
   exists e, _handle_risk_assessment W E S query entities context st
             = (Raise e, st)).
Proof.
  unfold _handle_risk_assessment, well_formed, bind, lift.
  destruct (iterate entities) as [items|e]; [|right; eauto].
  pose proof (scan_entities_ok items (None, None)) as Hs.
  destruct (scan_entities items (None, None)) as [found|e];
    cbn [is_ok] in Hs; rewrite <- Hs; [left|right; eauto].
  split; [reflexivity|].
  match goal with
  | |- context [analyze_risk_exposure W E ?r ?s st] =>
      destruct (analyze_risk_exposure W E r s st) as [x st1]
  end.
  destruct (contains "asia" (lower query) && contains "tech" (lower query)).
  - destruct (get_asia_tech_exposure_total W st1) as (a & s & ->).
    eexists _, _, _. reflexivity.
  - eexists _, _, _. reflexivity.
Qed.

Lemma handle_stock_specific_answers query entities context st :
  (well_formed entities = true /\
   exists text stocks st',
     _handle_stock_specific W S query entities context st
     = (Ok (Answer text (DataStocks stocks)), st')) \/
  (well_formed entities = false /\
   exists e, _handle_stock_specific W S query entities context st
             = (Raise e, st)).
Proof.
  unfold _handle_stock_specific, well_formed, bind, lift.
  destruct (iterate entities) as [items|e]; [|right; eauto].
  pose proof (upper_tickers_ok items []) as Hs.
  destruct (upper_tickers items []) as [tickers|e];
    cbn [is_ok] in Hs; rewrite <- Hs; [left|right; eauto].
  split; [reflexivity|].
  match goal with
  | |- context [stock_loop W S ?ts ?acc st] =>
      destruct (stock_loop_total ts acc st) as (acc' & st' & ->)
  end.
  eexists _, _, _. reflexivity.
Qed.

End WithServices.

Lemma intent_cases (v : pyval) :
  (is_str v "market_info" = true /\ intent_tag v = "market_info" /\
   reads_entities v = false) \/
  (is_str v "market_info" = false /\
   is_str v "portfolio_analysis" = true /\
   intent_tag v = "portfolio_analysis" /\ reads_entities v = false) \/
  (is_str v "market_info" = false /\
   is_str v "portfolio_analysis" = false /\
   is_str v "risk_assessment" = true /\
   intent_tag v = "risk_assessment" /\ reads_entities v = true) \/
  (is_str v "market_info" = false /\
   is_str v "portfolio_analysis" = false /\
   is_str v "risk_assessment" = false /\
   is_str v "stock_specific" = true /\
   intent_tag v = "stock_specific" /\ reads_entities v = true) \/
  (is_str v "market_info" = false /\
   is_str v "portfolio_analysis" = false /\
   is_str v "risk_assessment" = false /\
   is_str v "stock_specific" = false /\
   is_str v "economic_data" = true /\
   intent_tag v = "economic_data" /\ reads_entities v = false) \/
  (is_str v "market_info" = false /\
   is_str v "portfolio_analysis" = false /\
   is_str v "risk_assessment" = false /\
   is_str v "stock_specific" = false /\
   is_str v "economic_data" = false /\
   intent_tag v = "unknown" /\ reads_entities v = false).
Proof.
  destruct v as [| | | |s|];
    try (repeat right; repeat split; reflexivity).
  unfold reads_entities, intent_tag, is_str, mem. cbn [existsb].
  destruct (String.eqb s "market_info") eqn:E1.
  { apply String.eqb_eq in E1 as ->. left. repeat split. }
  destruct (String.eqb s "portfolio_analysis") eqn:E2.
  { apply String.eqb_eq in E2 as ->. right. left. repeat split. }
  destruct (String.eqb s "risk_assessment") eqn:E3.
  { apply String.eqb_eq in E3 as ->. do 2 right. left. repeat split. }
  destruct (String.eqb s "stock_specific") eqn:E4.
  { apply String.eqb_eq in E4 as ->. do 3 right. left. repeat split. }
  destruct (String.eqb s "economic_data") eqn:E5.
  { apply String.eqb_eq in E5 as ->. do 4 right. left. repeat split. }
  repeat right. repeat split.
Qed.

(** X23: the router returns a response exactly when the retriever returns a
    context and, for the two intents whose handlers read the entities
    (risk assessment and stock specific), the entities are a sequence of
    strings.  Every other failure is absorbed below the router. *)
Theorem route_query_returns_exactly_when
    (W : World) (E : Engine) (S : Services) (query : string)
    (intent : dict pyval) (st : State) :
  is_ok (fst (route_query W E S query intent st)) =
  is_ok (retrieve S query) &&
  (negb (reads_entities
           (default (PStr "unknown") (dict_get intent "primary_intent")))
   || well_formed (default (PList []) (dict_get intent "entities"))).
Proof.
  unfold route_query, bind, lift.
  destruct (retrieve S query) as [context|e]; [|reflexivity].
  cbn [is_ok andb].
  set (pi := default (PStr "unknown") (dict_get intent "primary_intent")).
  set (entities := default (PList []) (dict_get intent "entities")).
  destruct (intent_cases pi)
    as [(-> & _ & ->)|[(-> & -> & _ & ->)|[(-> & -> & -> & _ & ->)|
       [(-> & -> & -> & -> & _ & ->)|[(-> & -> & -> & -> & -> & _ & ->)|
        (-> & -> & -> & -> & -> & _ & ->)]]]]]; cbn [negb orb].
  - destruct (handle_market_info_answers W S query entities context st)
      as (? & ? & ? & ? & ->). reflexivity.
  - destruct (handle_portfolio_analysis_answers W S query entities context st)
      as (? & ? & ? & ->). reflexivity.
  - destruct (handle_risk_assessment_answers W E S query entities context st)
      as [(-> & ? & ? & ? & ->)|(-> & ? & ->)]; reflexivity.
  - destruct (handle_stock_specific_answers W S query entities context st)
      as [(-> & ? & ? & ? & ->)|(-> & ? & ->)]; reflexivity.
  - destruct (handle_economic_data_answers W S query entities context st)
      as (? & ? & ? & ->). reflexivity.
  - reflexivity.
Qed.

(** X24: what the router returns is a plain answer whose data have the shape
    of the intent it read: indices and sectors for market information,
    the portfolio, an exposure, stocks, indicators, and nothing for any
    other intent. *)
Theorem payload_follows_intent
    (W : World) (E : Engine) (S : Services) (query : string)
    (intent : dict pyval) (st st' : State) (response : Response)
    (Hrun : route_query W E S query intent st = (Ok response, st')) :
  exists text data,
    response = Answer text data /\
    payload_tag data =
    intent_tag (default (PStr "unknown") (dict_get intent "primary_intent")).
Proof.
  revert Hrun. unfold route_query, bind, lift.
  destruct (retrieve S query) as [context|e]; [|discriminate].
  set (pi := default (PStr "unknown") (dict_get intent "primary_intent")).
  set (entities := default (PList []) (dict_get intent "entities")).
  destruct (intent_cases pi)
    as [(-> & -> & _)|[(-> & -> & -> & _)|[(-> & -> & -> & -> & _)|
       [(-> & -> & -> & -> & -> & _)|[(-> & -> & -> & -> & -> & -> & _)|
        (-> & -> & -> & -> & -> & -> & _)]]]]].
  - destruct (handle_market_info_answers W S query entities context st)
      as (? & ? & ? & ? & ->). intros [= <- <-]. eauto.
  - destruct (handle_portfolio_analysis_answers W S query entities context st)
      as (? & ? & ? & ->). intros [= <- <-]. eauto.
  - destruct (handle_risk_assessment_answers W E S query entities context st)
      as [(_ & ? & ? & ? & ->)|(_ & ? & ->)]; [|discriminate].
    intros [= <- <-]. eauto.
  - destruct (handle_stock_specific_answers W S query entities context st)
      as [(_ & ? & ? & ? & ->)|(_ & ? & ->)]; [|discriminate].
    intros [= <- <-]. eauto.
  - destruct (handle_economic_data_answers W S query entities context st)
      as (? & ? & ? & ->). intros [= <- <-]. eauto.
  - unfold _handle_default, ret. intros [= <- <-]. eauto.
Qed.

Lemma payload_follows_intent_witness :
  let run := route_query trading plain_engine quiet "How are the markets?"
               [("primary_intent", PStr "market_info")] init in
  exists text data,
    fst run = Ok (Answer text data) /\ payload_tag data = "market_info".
Proof.
  cbn zeta.
  set (run := route_query trading plain_engine quiet "How are the markets?"
                [("primary_intent", PStr "market_info")] init).
  assert (Hrun : run = (Ok (Answer (fst (Cases.answer_of (fst run)))
                                   (snd (Cases.answer_of (fst run)))),
                        snd run)) by (vm_compute; reflexivity).
  destruct (payload_follows_intent trading plain_engine quiet
              "How are the markets?" [("primary_intent", PStr "market_info")]
              init (snd run)
              (Answer (fst (Cases.answer_of (fst run)))
                      (snd (Cases.answer_of (fst run)))) Hrun)
    as (text & data & Hr & Ht).
  exists text, data. split; [|exact Ht].
  rewrite Hrun. cbn [fst]. f_equal. exact Hr.
Defined.

(** X25: the router matches region names without regard to case and knows
    "emerging markets", but hands the entity on as it was written; the
    analysis knows three regions by their capitalised names.  A risk
    question about a region written otherwise is answered with the
    analysis's "not supported" error as its data. *)
Theorem unlisted_region_passes_through
    (W : World) (E : Engine) (S : Services) (query name : string)
    (intent : dict pyval) (context : list ContextItem) (st : State)
    (Hretrieve : retrieve S query = Ok context)
    (Hintent : dict_get intent "primary_intent"
               = Some (PStr "risk_assessment"))
    (Hentities : dict_get intent "entities" = Some (PList [PStr name]))
    (Hregion : mem (lower name) region_words = true)
    (Hunlisted : dict_get region_mapping name = None) :
  exists text st',
    route_query W E S query intent st
    = (Ok (Answer text
             (DataExposure
                (ExposureError ("Region '" ++ name ++ "' not supported")))),
       st').
Proof.
  rewrite (RouterFacts.route_query_risk_assessment W E S _ _ _ _
             Hretrieve Hintent).
  rewrite Hentities.
  change (default (PList []) (Some (PList [PStr name])))
    with (PList [PStr name]).
  unfold _handle_risk_assessment, bind, lift. cbn [iterate scan_entities
    as_str rbind]. rewrite Hregion. cbn [scan_entities fst snd].
  destruct name as [|c rest]; [discriminate|].
  unfold analyze_risk_exposure. rewrite Hunlisted.
  destruct (contains "asia" (lower query) && contains "tech" (lower query)).
  - destruct (get_asia_tech_exposure_total W st) as (a & s & ->).
    eexists _, _. reflexivity.
  - eexists _, _. reflexivity.
Qed.

Lemma unlisted_region_passes_through_witness :
  exists text st',
    route_query trading plain_engine quiet
      "How risky are emerging markets?" Cases.lower_case_region_intent init
    = (Ok (Answer text
             (DataExposure
                (ExposureError "Region 'emerging markets' not supported"))),
       st').
Proof.
  apply (unlisted_region_passes_through trading plain_engine quiet
           "How risky are emerging markets?" "emerging markets"
           Cases.lower_case_region_intent []); reflexivity.
Defined.

End RouterExtras.

(** ** Market data ingestion *)

Module IngestionExtras.
Import APIAgent DictFacts.

(** X26: the ingestion's lookup is the API agent's lookup with the exception
    swallowed: it returns the same frame and leaves the same state, and
    where the agent's lookup raises it returns an empty frame, so that a
    failed lookup cannot be told from a symbol without data. *)
Theorem ingestion_lookup_swallows_failure
    (W : World) (ticker period interval : string) (st : State) :
  MarketDataIngestion.get_stock_data W ticker period interval st =
  match get_stock_data W ticker period interval st with
  | (Ok data, st') => (Ok data, st')
  | (Raise _, st') => (Ok {| Close := [] |}, st')
  end.
Proof.
  assert (Hfetch : forall s,
    MarketDataIngestion.fetch_or_empty W ticker period interval s =
    match fetch_and_cache W ticker period interval s with
    | (Ok data, st') => (Ok data, st')
    | (Raise _, st') => (Ok {| Close := [] |}, st')
    end).
  { intros s. unfold MarketDataIngestion.fetch_or_empty, fetch_and_cache,
      catch, bind, yf_history, now, store, ret, raise.
    destruct (history W (length (upstream s)) ticker period interval);
      reflexivity. }
  unfold MarketDataIngestion.get_stock_data, get_stock_data.
  destruct (cache st !! cache_key ticker period interval) as [data|];
    [|apply Hfetch].
  unfold bind, now.
  destruct (Z.ltb _ _); [reflexivity|apply Hfetch].
Qed.

Lemma ingestion_sector_loop_keys W table :
  NoDup (map fst table) ->
  forall acc st,
    (forall name, In name (map fst table) -> ~ In name (map fst acc)) ->
    exists d st',
      MarketDataIngestion.get_sector_performance_loop W table acc st
        = (Ok d, st') /\
      map fst d = (map fst acc ++ map fst table)%list.
Proof.
  induction table as [|[sector ticker] rest IH]; intros Hnd acc st Hacc.
  - exists acc, st. cbn. rewrite app_nil_r. auto.
  - cbn [MarketDataIngestion.get_sector_performance_loop].
    cbn in Hnd. apply NoDup_cons in Hnd as [Hname Hnd].
    assert (Hfresh : ~ In sector (map fst acc))
      by (apply Hacc; left; reflexivity).
    assert (Hstep : forall v,
      (forall name, In name (map fst rest) ->
                    ~ In name (map fst (dict_set acc sector v))) /\
      map fst (dict_set acc sector v) = (map fst acc ++ [sector])%list).
    { intros v. rewrite (ReportExtras.dict_set_fresh acc sector v Hfresh).
      rewrite map_app. cbn. split; [|reflexivity].
      intros name Hn. rewrite in_app_iff. cbn. intros [Hin|[<-|[]]].
      - apply (Hacc name); [right; exact Hn|exact Hin].
      - apply Hname, list_elem_of_In, Hn. }
    unfold bind at 1. unfold catch at 1. unfold bind at 1.
    destruct (MarketDataIngestion.get_stock_data W ticker "5d" "1d" st)
      as [[data|e] st1].
    + destruct (empty data); cbn [ret].
      * destruct (Hstep (of_Z 0)) as [Hk Hm].
        destruct (IH Hnd _ st1 Hk) as (d & st' & Hl & Hd).
        exists d, st'. split; [exact Hl|].
        rewrite Hd, Hm, <- app_assoc. reflexivity.
      * match goal with
        | |- context [dict_set acc sector ?v] =>
            destruct (Hstep v) as [Hk Hm];
            destruct (IH Hnd _ st1 Hk) as (d & st' & Hl & Hd)
        end.
        exists d, st'. split; [exact Hl|].
        rewrite Hd, Hm, <- app_assoc. reflexivity.
    + cbn [ret]. destruct (Hstep (of_Z 0)) as [Hk Hm].
      destruct (IH Hnd _ st1 Hk) as (d & st' & Hl & Hd).
      exists d, st'. split; [exact Hl|].
      rewrite Hd, Hm, <- app_assoc. reflexivity.
Qed.

(** X27: the ingestion's sector report always lists its eleven sectors, in
    the order of its table, whatever the provider does: a sector without
    data is entered with zero rather than left out. *)
Theorem ingestion_lists_every_sector (W : World) (st : State) :
  exists d,
    fst (MarketDataIngestion.get_sector_performance W st) = Ok d /\
    map fst d = map fst MarketDataIngestion.sectors.
Proof.
  unfold MarketDataIngestion.get_sector_performance.
  destruct (ingestion_sector_loop_keys W MarketDataIngestion.sectors)
    with (acc := @nil (string * fnum)) (st := st) as (d & st' & Hl & Hd).
  - unfold MarketDataIngestion.sectors. cbn.
    repeat (apply NoDup_cons; split;
      [rewrite list_elem_of_In; cbn; intuition discriminate|]).
    apply NoDup_nil. exact I.
  - intros ? _ [].
  - exists d. rewrite Hl. split; [reflexivity|exact Hd].
Qed.

End IngestionExtras.

(** ** Morning brief *)

Module BriefExtras.
Import APIAgent APIReports RiskExposure MorningBrief CacheInvariants.
Import ReportExtras Scenarios.

(** X28: the brief is compiled on every call: each of its four sources absorbs
    the failures below it, so the handler that would hand back an error
    dictionary is never entered. *)
Theorem brief_is_always_compiled
    (W : World) (E : Engine) (region : string) (sector : option string)
    (st : State) :
  exists b, fst (generate_morning_brief W E region sector st) = Compiled b.
Proof.
  unfold generate_morning_brief, brief_body, bind, get_market_indices,
    get_economic_indicators.
  destruct (get_market_indices_loop_total W APIReports.indices [] st)
    as (d1 & s1 & ->).
  destruct (analyze_risk_exposure W E region sector s1) as [x s2].
  destruct (get_economic_indicators_loop_total W indicators [] s2)
    as (d3 & s3 & ->).
  destruct (get_asia_tech_exposure_total W s3) as (a & s4 & ->).
  eexists. reflexivity.
Qed.

End BriefExtras.

(** ** Orchestrator *)

Module OrchestratorExtras.
Import RouterTypes Router Orchestrator RouterVocabulary RouterExtras.
Import Scenarios.

(** X29: with the language model down the intent falls back to unknown, and a
    non-empty query is answered from the retrieved context alone: the
    reply is the narrative over that context with empty data, and neither
    the provider nor the cache is touched. *)
Theorem llm_outage_is_answered
    (W : World) (E : Engine) (S : Services) (L : Llm) (query : string)
    (context : list ContextItem) (e : exn) (st : State)
    (Hquery : query <> "")
    (Hllm : complete L query = Raise e)
    (Hretrieve : retrieve S query = Ok context) :
  process_query W E S L [("query", PStr query)] st =
  Some (Routed (Answer (generate_response S query (Some context)) DataEmpty),
        st).
Proof.
  unfold process_query. cbn [dict_get].
  rewrite String.eqb_refl. cbn [from_option id truth].
  destruct (String.eqb query "") eqn:Hq;
    [apply String.eqb_eq in Hq; contradiction|].
  cbn [negb]. unfold analyze_query_intent. rewrite Hllm.
  unfold route, route_query, bind, APIReports.lift. rewrite Hretrieve.
  reflexivity.
Qed.

Lemma llm_outage_is_answered_witness :
  process_query trading plain_engine quiet Cases.llm_down
    [("query", PStr "How risky is our Asia exposure?")] init =
  Some (Routed (Answer "(narrative)" DataEmpty), init).
Proof.
  apply (llm_outage_is_answered trading plain_engine quiet Cases.llm_down
           "How risky is our Asia exposure?" []
           (ProviderError "Connection error.")).
  - discriminate.
  - reflexivity.
  - reflexivity.
Defined.

(** X30: an intent for risk assessment or for a stock whose entities are not
    a sequence of strings makes the router raise; the endpoint turns
    that into a reply with status 500 whose text names the exception, and
    the state is the one the request found. *)
Theorem malformed_entities_become_500
    (W : World) (E : Engine) (S : Services) (L : Llm) (query : string)
    (intent : dict pyval) (context : list ContextItem) (st : State)
    (Hquery : query <> "")
    (Hllm : complete L query = Ok (JObject intent))
    (Hretrieve : retrieve S query = Ok context)
    (Hreads : reads_entities
                (default (PStr "unknown") (dict_get intent "primary_intent"))
              = true)
    (Hbad : well_formed (default (PList []) (dict_get intent "entities"))
            = false) :
  exists e,
    process_query W E S L [("query", PStr query)] st =
    Some (Status 500 ("Error processing query: " ++ str e), st).
Proof.
  unfold process_query. cbn [dict_get].
  rewrite String.eqb_refl. cbn [from_option id truth].
  destruct (String.eqb query "") eqn:Hq;
    [apply String.eqb_eq in Hq; contradiction|].
  cbn [negb]. unfold analyze_query_intent. rewrite Hllm.
  unfold route, route_query, bind, APIReports.lift. rewrite Hretrieve.
  set (pi := default (PStr "unknown") (dict_get intent "primary_intent"))
    in *.
  set (entities := default (PList []) (dict_get intent "entities")) in *.
  destruct (intent_cases pi)
    as [(_ & _ & Hr)|[(_ & _ & _ & Hr)|[(-> & -> & -> & _)|
       [(-> & -> & -> & -> & _)|[(_ & _ & _ & _ & _ & _ & Hr)|
        (_ & _ & _ & _ & _ & _ & Hr)]]]]]; try congruence.
  - destruct (handle_risk_assessment_answers W E S query entities context st)
      as [(Hw & _)|(_ & e & ->)]; [congruence|].
    exists e. reflexivity.
  - destruct (handle_stock_specific_answers W S query entities context st)
      as [(Hw & _)|(_ & e & ->)]; [congruence|].
    exists e. reflexivity.
Qed.

Lemma malformed_entities_become_500_witness :
  exists e,
    process_query trading plain_engine quiet Cases.llm_numeric
      [("query", PStr "How risky is our Asia exposure?")] init =
    Some (Status 500 ("Error processing query: " ++ str e), init).
Proof.
  apply (malformed_entities_become_500 trading plain_engine quiet
           Cases.llm_numeric "How risky is our Asia exposure?"
           numeric_entity_intent []).
  - discriminate.
  - reflexivity.
  - reflexivity.
  - reflexivity.
  - reflexivity.
Defined.

End OrchestratorExtras.
